(** * Task lifecycle and staged-curriculum controller of the task generator

    A shallow embedding of [task_generator/task_generator/tasks.py]: the
    [ABSTask] / [RandomTask] / [ManualTask] / [StagedRandomTask] /
    [ScenarioTask] hierarchy and the [get_predefined_task] factory.

    The Python methods mutate [self], talk to the ROS parameter server, to
    two files and to collaborator objects (robot, obstacle and pedestrian
    managers, the simulator process).  They are embedded as computations in
    a state-and-exception monad over the pair (object, world).

    Left out, as they change neither the object nor the world of the
    model: [print] and [rospy.logwarn], the registration of subscribers and
    service proxies, and the [FileLock] around the hyper-parameter file,
    which orders writers of other processes.  Each method is given its
    meaning when run alone; threads that run side by side are not
    modelled. *)

From Stdlib Require Import ZArith QArith List Bool Lia.
From stdpp Require Import gmap strings list fin_maps pretty.

Local Open Scope string_scope.
Local Open Scope Z_scope.

(** ** Values *)

(** Python values that travel through the parameter server, the
    hyper-parameter file and the info dictionaries.  Floats are only stored
    and copied by this code, never computed with; they are rationals here. *)
Inductive pyval : Type :=
| VNone
| VBool (b : bool)
| VInt (z : Z)
| VStr (s : string)
| VArr (xs : list Q).

(** geometry_msgs *)
Record Point := { x : Q; y : Q; z : Q }.
Record Quaternion := { qx : Q; qy : Q; qz : Q; qw : Q }.
Record Pose := { position : Point; orientation : Quaternion }.
Record PoseStamped := { frame_id : string; pose : Pose }.

(** A forbidden zone is the tuple (x, y, radius). *)
Definition Zone : Type := (Q * Q * Q)%type.

(** The loaded scenario file, as far as the tasks read it. *)
Record ArenaScenario := {
  robotPosition : Q * Q;
  robotGoal : Q * Q;
  pedsimAgents : list nat          (* agents, by identifier *)
}.

(** One entry of the curriculum file: [{"static": _, "dynamic": _}]. *)
Record Stage := { static : Z; dynamic : Z }.

(** What [yaml.load] can give back for the curriculum file. *)
Inductive yaml_doc : Type :=
| YamlDict (d : gmap Z Stage)
| YamlOther.

(** What [json.load] can give back for the hyper-parameter file. *)
Inductive json_doc : Type :=
| JsonDict (d : gmap string pyval)
| JsonOther.

(** ** Exceptions *)

Inductive exn : Type :=
| ServiceException (msg : string)        (* rospy.ServiceException *)
| PlainException (msg : string)          (* Exception("...") *)
| ValueError (msg : string)
| IndexError (msg : string)
| KeyError (key : pyval)
| FileNotFoundError (msg : string)
| AssertionError (msg : string)
| WarningExn (msg : string)              (* raise Warning(...) *)
| OtherError (code : nat).               (* any other exception class *)

(** Exception classes that have no constructor of their own. *)
Definition TypeError : exn := OtherError 101.
Definition AttributeError : exn := OtherError 102.
Definition ZeroDivisionError : exn := OtherError 103.

(** [isinstance(e, rospy.ServiceException)] *)
Definition is_ServiceException (e : exn) : bool :=
  match e with ServiceException _ => true | _ => false end.

(** ** Calls that leave the module *)

Inductive call : Type :=
| GetStaticMap
| NewRobotManager (map_ : nat)
| NewObstaclesManager (map_ : nat)
| NewPedsimManager
| SetStartPosGoalPos (start_pos goal_pos : option Pose)
| SetStartPosRandom
| SpawnRobot
| GoalPubPublish (goal : PoseStamped)
| PubMvbGoalPublish (goal : PoseStamped)
| RemoveAllObstacles
| ObstacleUpdateMap (map_ : nat)
| RobotUpdateMap (map_ : nat)
| RegisterRandomDynamicObstacles (num : pyval) (forbidden_zones : option (list Zone))
| RegisterRandomStaticObstacles (num : Z)
| SpawnPeds (peds : list nat)
| ResetAllPeds
| LoadFromFile (scenario_path : string)
| KillGazebo                                   (* killall -q gzclient & killall -q gzserver *)
| GenerateWorld                                (* rosrun task_generator generate_world.py *)
| LaunchGazebo (world model : pyval)           (* roslaunch ... world:=.. model:=.. *)
| WaitForService (name : string)
| Sleep (secs : Z)
| WaitForGoal (timeout : Z).                   (* Condition.wait_for(.., timeout) *)

(** The type of what each call gives back. *)
Definition answer (c : call) : Type :=
  match c with
  | GetStaticMap => nat
  | SetStartPosGoalPos _ _ => (Pose * Pose)%type
  | SetStartPosRandom => Pose
  | RegisterRandomStaticObstacles _ => list Zone
  | LoadFromFile _ => ArenaScenario
  | WaitForGoal _ => option PoseStamped
  | _ => unit
  end.

(** ** The world *)

(** The surroundings decide how the [k]-th call that leaves the module
    ends: with an exception or with an answer. *)
Definition Env : Type := nat -> forall c : call, exn + answer c.

Record World := {
  params : gmap string pyval;                   (* ROS parameter server *)
  curriculum_file : option yaml_doc;            (* file at PATHS["curriculum"] *)
  hyperparameters_json : option json_doc;
                                                (* PATHS["model"]/hyperparameters.json *)
  map_lock : bool;                              (* self._map_lock is held *)
  calls : list call;                            (* calls made so far, oldest first *)
  env : Env
}.

Definition with_params (f : gmap string pyval -> gmap string pyval) (w : World) : World :=
  {| params := f (params w); curriculum_file := curriculum_file w;
     hyperparameters_json := hyperparameters_json w; map_lock := map_lock w;
     calls := calls w; env := env w |}.

Definition with_json (j : option json_doc) (w : World) : World :=
  {| params := params w; curriculum_file := curriculum_file w;
     hyperparameters_json := j; map_lock := map_lock w;
     calls := calls w; env := env w |}.

Definition with_map_lock (b : bool) (w : World) : World :=
  {| params := params w; curriculum_file := curriculum_file w;
     hyperparameters_json := hyperparameters_json w; map_lock := b;
     calls := calls w; env := env w |}.

Definition with_call (c : call) (w : World) : World :=
  {| params := params w; curriculum_file := curriculum_file w;
     hyperparameters_json := hyperparameters_json w; map_lock := map_lock w;
     calls := calls w ++ [c]; env := env w |}.

(** ** The monad *)

(** How a Python call ends.  [Blocked] stands for a call that has not come
    back: the fuel of a loop ran out, or a lock that is held was taken
    again. *)
Inductive outcome (A : Type) : Type :=
| Returned (a : A)
| Raised (e : exn)
| Blocked.
Arguments Returned {A} a.
Arguments Raised {A} e.
Arguments Blocked {A}.

(** A method of an object of type [T]. What it did to [self] and to the
    world before an exception stays done. *)
Definition M (T A : Type) : Type := T -> World -> outcome A * T * World.

Definition ret {T A} (a : A) : M T A := fun t w => (Returned a, t, w).

Definition bind {T A B} (m : M T A) (k : A -> M T B) : M T B :=
  fun t w =>
    match m t w with
    | (Returned a, t', w') => k a t' w'
    | (Raised e, t', w') => (Raised e, t', w')
    | (Blocked, t', w') => (Blocked, t', w')
    end.

Declare Scope py_scope.
Delimit Scope py_scope with py.
Notation "x <- m ;; k" := (bind m (fun x => k))
  (at level 100, m at next level, right associativity) : py_scope.
Notation "m ;; k" := (bind m (fun _ => k))
  (at level 100, right associativity) : py_scope.
Local Open Scope py_scope.

Definition raise {T A} (e : exn) : M T A := fun t w => (Raised e, t, w).
Definition block {T A} : M T A := fun t w => (Blocked, t, w).

Definition get_self {T} : M T T := fun t w => (Returned t, t, w).
Definition set_self {T} (f : T -> T) : M T unit := fun t w => (Returned tt, f t, w).
Definition get_world {T} : M T World := fun t w => (Returned w, t, w).

(** [try: m except rospy.ServiceException: h] *)
Definition try_except_service {T A} (m : M T A) (h : exn -> M T A) : M T A :=
  fun t w =>
    match m t w with
    | (Raised e, t', w') =>
        if is_ServiceException e then h e t' w' else (Raised e, t', w')
    | r => r
    end.

(** [try: m except Exception: h]; every exception of the model is one. *)
Definition try_except {T A} (m : M T A) (h : exn -> M T A) : M T A :=
  fun t w =>
    match m t w with
    | (Raised e, t', w') => h e t' w'
    | r => r
    end.

(** A call that leaves the module: the surroundings answer the call number
    [length (calls w)], and the call is recorded. *)
Definition invoke {T} (c : call) : M T (answer c) :=
  fun t w =>
    match env w (length (calls w)) c with
    | inl e => (Raised e, t, with_call c w)
    | inr a => (Returned a, t, with_call c w)
    end.

(** [rospy.set_param(key, value)] *)
Definition set_param {T} (key : string) (v : pyval) : M T unit :=
  fun t w => (Returned tt, t, with_params (insert key v) w).

(** [rospy.get_param(key)] *)
Definition get_param {T} (key : string) : M T pyval :=
  fun t w =>
    match params w !! key with
    | Some v => (Returned v, t, w)
    | None => (Raised (KeyError (VStr key)), t, w)
    end.

(** [rospy.get_param(key, default)] *)
Definition get_param_default {T} (key : string) (dflt : pyval) : M T pyval :=
  fun t w => (Returned (default dflt (params w !! key)), t, w).

(** [with self._map_lock: body].  A [threading.Lock] that is held cannot be
    taken again, not even by its holder; it is given back on every way out
    of the body. *)
Definition with_lock {T A} (body : M T A) : M T A :=
  fun t w =>
    if map_lock w then (Blocked, t, w)
    else
      match body t (with_map_lock true w) with
      | (Blocked, t', w') => (Blocked, t', w')
      | (r, t', w') => (r, t', with_map_lock false w')
      end.

(** [ABSTask._update_map], the callback of the map topic. *)
Definition _update_map {T} (map_ : nat) : M T unit :=
  with_lock (
    invoke (ObstacleUpdateMap map_) ;;
    invoke (RobotUpdateMap map_)).

(** The result of one Python call, without the state. *)
Definition result {A T} (r : outcome A * T * World) : outcome A := fst (fst r).
Definition self_after {A T} (r : outcome A * T * World) : T := snd (fst r).
Definition world_after {A T} (r : outcome A * T * World) : World := snd r.

(** * RandomTask *)

Section Tasks.

(** Module-level constants, fixed when the module is imported:
    [ROBOT_RADIUS = rospy.get_param("radius")] and
    [N_OBS = {"static": 10, "dynamic": rospy.get_param("actors", 3)}]. *)
Variable ROBOT_RADIUS : Q.
Variable N_OBS_dynamic : pyval.
Definition N_OBS_static : Z := 10.

Record RandomTask := { num_of_actors : pyval }.

(** Classes that inherit [RandomTask.reset]. *)
Class RandomTaskLike (T : Type) := actors_of : T -> pyval.
#[export] Instance RandomTask_like : RandomTaskLike RandomTask := num_of_actors.

(** [RandomTask.__init__] *)
Definition RandomTask_init : M unit RandomTask :=
  n <- get_param_default "~actors" N_OBS_dynamic ;;
  ret {| num_of_actors := n |}.

Definition zone_of (p : Pose) : Zone := (x (position p), y (position p), ROBOT_RADIUS).

Definition max_fail_times : Z := 3.

Section ResetLoop.
Context {T : Type} `{RandomTaskLike T}.

(** The body of the [try] of [RandomTask.reset]. *)
Definition reset_attempt : M T (Pose * Pose) :=
  sg <- invoke (SetStartPosGoalPos None None) ;;
  invoke RemoveAllObstacles ;;
  self <- get_self ;;
  invoke (RegisterRandomDynamicObstacles (actors_of self)
            (Some [zone_of (fst sg); zone_of (snd sg)])) ;;
  ret sg.

(** The [while fail_times < max_fail_times] loop.  It gives back the
    locals [fail_times] and [goal_pos] as they are read after the loop:
    [goal_pos] is read only after a [break], where the attempt has just set
    it. *)
Fixpoint reset_loop (fuel : nat) (fail_times : Z) : M T (Z * option Pose) :=
  if fail_times <? max_fail_times then
    match fuel with
    | O => block
    | S fuel' =>
        try_except_service
          (sg <- reset_attempt ;; ret (fail_times, Some (snd sg)))
          (fun e => reset_loop fuel' (fail_times + 1))
    end
  else ret (fail_times, None).

Definition goal_info (goal_pos : Pose) : gmap string pyval :=
  <["robot_goal_pos" := VArr [x (position goal_pos); y (position goal_pos)]]> ∅.

(** [RandomTask.reset] *)
Definition RandomTask_reset : M T (gmap string pyval) :=
  with_lock (
    r <- reset_loop (Z.to_nat max_fail_times) 0 ;;
    if fst r =? max_fail_times then raise (PlainException "reset error!")
    else
      match snd r with
      | Some goal_pos => ret (goal_info goal_pos)
      | None => raise (OtherError 0)
      end).

(** [n] attempts in a row, from world [w] to world [w'], each ended by a
    [rospy.ServiceException]. *)
Inductive attempts_fail (t : T) : nat -> World -> World -> Prop :=
| attempts_fail_O w : attempts_fail t 0 w w
| attempts_fail_S n w w1 w2 msg :
    reset_attempt t w = (Raised (ServiceException msg), t, w1) ->
    attempts_fail t n w1 w2 ->
    attempts_fail t (S n) w w2.

End ResetLoop.

(** * ManualTask *)

Record ManualTask := {
  manual_num_of_actors : pyval;
  _goal : PoseStamped;
  _new_goal_received : bool
}.

Definition origin : Point := {| x := 0; y := 0; z := 0 |}.
(** [STANDART_ORIENTATION = quaternion_from_euler(0.0, 0.0, 0.0)] *)
Definition STANDART_ORIENTATION : Quaternion := {| qx := 0; qy := 0; qz := 0; qw := 1 |}.
(** [PoseStamped()] *)
Definition empty_PoseStamped : PoseStamped :=
  {| frame_id := "";
     pose := {| position := origin;
                orientation := {| qx := 0; qy := 0; qz := 0; qw := 0 |} |} |}.

Definition blank_ManualTask : ManualTask :=
  {| manual_num_of_actors := VNone; _goal := empty_PoseStamped;
     _new_goal_received := false |}.

(** [ManualTask.__init__] *)
Definition ManualTask_init : M ManualTask unit :=
  n <- get_param_default "~actors" (VInt 3) ;;
  set_self (fun _ => {| manual_num_of_actors := n; _goal := empty_PoseStamped;
                        _new_goal_received := false |}).

Definition is_True (self : ManualTask) : bool :=
  if _new_goal_received self then true else false.

(** [ManualTask._set_goal_callback], run by the subscriber thread. *)
Definition _set_goal_callback (goal : PoseStamped) : M ManualTask unit :=
  set_self (fun self => {| manual_num_of_actors := manual_num_of_actors self;
                           _goal := goal; _new_goal_received := true |}).

(** [self._manual_goal_con.wait_for(lambda: self.is_True() is True, timeout)]:
    it comes back at once when the flag is set already; otherwise either
    the callback runs within the time window, or the time runs out. *)
Definition wait_for_goal (timeout : Z) : M ManualTask unit :=
  self <- get_self ;;
  if is_True self then ret tt
  else
    published <- invoke (WaitForGoal timeout) ;;
    match published with
    | Some goal => _set_goal_callback goal
    | None => ret tt
    end.

(** The body of the [while True] of [ManualTask.reset]. *)
Definition ManualTask_reset_round : M ManualTask unit :=
  with_lock (
    invoke RemoveAllObstacles ;;
    start_pos <- invoke SetStartPosRandom ;;
    self <- get_self ;;
    invoke (RegisterRandomDynamicObstacles (manual_num_of_actors self)
              (Some [zone_of start_pos])) ;;
    wait_for_goal 60 ;;
    self <- get_self ;;
    (if negb (_new_goal_received self)
     then raise (PlainException "TimeOut, User does't provide goal position!")
     else set_self (fun self => {| manual_num_of_actors := manual_num_of_actors self;
                                   _goal := _goal self;
                                   _new_goal_received := false |})) ;;
    try_except
      (self <- get_self ;;
       invoke (GoalPubPublish (_goal self)) ;;
       invoke (PubMvbGoalPublish (_goal self)))
      (fun e => ret tt)).

(** [ManualTask.reset]: the loop has no [break] and no [return]. *)
Fixpoint ManualTask_reset (fuel : nat) : M ManualTask unit :=
  match fuel with
  | O => block
  | S fuel' => ManualTask_reset_round ;; ManualTask_reset fuel'
  end.

(** * StagedRandomTask *)

Record StagedRandomTask := {
  staged_num_of_actors : pyval;
  ns : string;
  ns_prefix : string;
  _curr_stage : Z;
  _stages : gmap Z Stage
}.

#[export] Instance StagedRandomTask_like : RandomTaskLike StagedRandomTask :=
  staged_num_of_actors.

Definition set_curr_stage (s : Z) (self : StagedRandomTask) : StagedRandomTask :=
  {| staged_num_of_actors := staged_num_of_actors self; ns := ns self;
     ns_prefix := ns_prefix self; _curr_stage := s; _stages := _stages self |}.

Definition set_stages (d : gmap Z Stage) (self : StagedRandomTask) : StagedRandomTask :=
  {| staged_num_of_actors := staged_num_of_actors self; ns := ns self;
     ns_prefix := ns_prefix self; _curr_stage := _curr_stage self; _stages := d |}.

(** [len(self._stages)] *)
Definition n_stages (self : StagedRandomTask) : Z := Z.of_nat (size (_stages self)).

(** [self._stages[k]] *)
Definition stage_at (k : Z) : M StagedRandomTask Stage :=
  self <- get_self ;;
  match _stages self !! k with
  | Some st => ret st
  | None => raise (KeyError (VInt k))
  end.

(** [StagedRandomTask._initiate_stage] *)
Definition _initiate_stage : M StagedRandomTask unit :=
  invoke RemoveAllObstacles ;;
  self <- get_self ;;
  st <- stage_at (_curr_stage self) ;;
  let n_dynamic_obstacles := dynamic st in
  population_change <-
    (if _curr_stage self =? 1 then ret true
     else
       below <- stage_at (_curr_stage self - 1) ;;
       ret (negb (n_dynamic_obstacles =? dynamic below))) ;;
  if population_change : bool then
    set_param "actors" (VInt n_dynamic_obstacles) ;;
    invoke KillGazebo ;;
    invoke GenerateWorld ;;
    world <- get_param "world" ;;
    model <- get_param "model" ;;
    invoke (LaunchGazebo world model) ;;
    invoke (WaitForService "/gazebo/spawn_urdf_model") ;;
    invoke SpawnRobot ;;
    invoke (Sleep 10)
  else
    invoke (RegisterRandomDynamicObstacles (VInt n_dynamic_obstacles) None).

(** [s.startswith("/")] and [s.endswith("/")] *)
Definition starts_with_sep (s : string) : bool := String.prefix "/" s.

Fixpoint ends_with_sep (s : string) : bool :=
  match s with
  | EmptyString => false
  | String c rest => if String.eqb rest "" then String.eqb s "/" else ends_with_sep rest
  end.

(** [os.path.join(a, b)] of [posixpath] *)
Definition os_path_join (a b : string) : string :=
  if starts_with_sep b then b
  else if String.eqb a "" || ends_with_sep a then a +:+ b
  else a +:+ "/" +:+ b.

(** [StagedRandomTask._read_stages_from_yaml]; [PATHS] is [self._PATHS],
    the argument of [__init__], which is the only caller.  The curriculum
    file of the world is the file at the location that [PATHS] names;
    [os.path.isfile(None)] raises [TypeError]. *)
Definition _read_stages_from_yaml (PATHS : gmap string string) : M StagedRandomTask unit :=
  match PATHS !! "curriculum" with
  | None => raise TypeError
  | Some file_location =>
      w <- get_world ;;
      match curriculum_file w with
      | Some (YamlDict d) => set_self (set_stages d)
      | Some YamlOther =>
          raise (AssertionError
                   "'training_curriculum.yaml' has wrong fromat! Has to encode dictionary!")
      | None =>
          raise (FileNotFoundError
                   ("Couldn't find 'training_curriculum.yaml' in " +:+ file_location +:+ " "))
      end
  end.

(** [StagedRandomTask._update_curr_stage_json]; the caller holds the file
    lock of the record. *)
Definition _update_curr_stage_json : M StagedRandomTask unit :=
  self <- get_self ;;
  w <- get_world ;;
  match hyperparameters_json w with
  | None => raise (FileNotFoundError "hyperparameters.json")
  | Some (JsonDict hyperparams) =>
      fun t w =>
        (Returned tt, t,
         with_json (Some (JsonDict (<["curr_stage" := VInt (_curr_stage self)]> hyperparams))) w)
  | Some JsonOther =>
      raise (WarningExn "Parameter 'curr_stage' not found in 'hyperparameters.json'!")
  end.

(** [StagedRandomTask.next_stage] *)
Definition next_stage : M StagedRandomTask unit :=
  self <- get_self ;;
  if _curr_stage self <? n_stages self then
    set_self (set_curr_stage (_curr_stage self + 1)) ;;
    _initiate_stage ;;
    self <- get_self ;;
    if String.eqb (ns self) "eval_sim" then
      set_param "/curr_stage" (VInt (_curr_stage self)) ;;
      _update_curr_stage_json ;;
      if _curr_stage self =? n_stages self
      then set_param "/last_stage_reached" (VBool true)
      else ret tt
    else ret tt
  else ret tt.

(** [StagedRandomTask.previous_stage] *)
Definition previous_stage : M StagedRandomTask unit :=
  self <- get_self ;;
  if _curr_stage self >? 1 then
    set_param "/last_stage_reached" (VBool false) ;;
    set_self (set_curr_stage (_curr_stage self - 1)) ;;
    _initiate_stage ;;
    self <- get_self ;;
    if String.eqb (ns self) "eval_sim" then
      set_param "/curr_stage" (VInt (_curr_stage self)) ;;
      _update_curr_stage_json
    else ret tt
  else ret tt.

(** The [start_stage] argument: an [int], or a value of another type. *)
Inductive start_arg : Type :=
| IntArg (s : Z)
| NonIntArg.

Definition blank_StagedRandomTask : StagedRandomTask :=
  {| staged_num_of_actors := VNone; ns := ""; ns_prefix := "";
     _curr_stage := 0; _stages := ∅ |}.

(** [StagedRandomTask.__init__], run on the blank object.  A start stage
    that is not an [int] is never compared or looked up: the attribute keeps
    its blank value until [ValueError] is raised.  The hyper-parameter file
    of the world is the file at [json_file]; [os.path.join(None, ...)]
    raises [TypeError]. *)
Definition StagedRandomTask_init (ns_ : string) (start_stage : start_arg)
    (PATHS : gmap string string) : M StagedRandomTask unit :=
  n <- get_param_default "~actors" N_OBS_dynamic ;;
  set_self (fun self =>
    {| staged_num_of_actors := n; ns := ns_;
       ns_prefix := if String.eqb ns_ "" then "" else "/" +:+ ns_ +:+ "/";
       _curr_stage := match start_stage with IntArg s => s | NonIntArg => _curr_stage self end;
       _stages := ∅ |}) ;;
  _read_stages_from_yaml PATHS ;;
  set_param "/task_mode" (VStr "staged") ;;
  match start_stage with
  | NonIntArg => raise (ValueError "Given start_stage not an Integer!")
  | IntArg _ =>
      self <- get_self ;;
      if (_curr_stage self <? 1) || (_curr_stage self >? n_stages self) then
        raise (IndexError
                 ("Start stage given for training curriculum out of bounds! Has to be between {1 to "
                  +:+ pretty (n_stages self) +:+ "}!"))
      else
        set_param "/curr_stage" (VInt (_curr_stage self)) ;;
        match PATHS !! "model" with
        | None => raise TypeError
        | Some model_dir =>
            let json_file := os_path_join model_dir "hyperparameters.json" in
            w <- get_world ;;
            match hyperparameters_json w with
            | None =>
                raise (AssertionError ("Found no 'hyperparameters.json' at " +:+ json_file))
            | Some _ => _initiate_stage
            end
        end
  end.

(** The two trigger topics.  rospy logs an exception that leaves a
    subscriber callback and goes on with the next message; what the callback
    did before stays done. *)
Inductive trigger : Type := Advance | Retreat.

Definition handle (tr : trigger) : M StagedRandomTask unit :=
  match tr with
  | Advance => next_stage
  | Retreat => previous_stage
  end.

Fixpoint deliver (trs : list trigger) (self : StagedRandomTask) (w : World)
  : StagedRandomTask * World :=
  match trs with
  | [] => (self, w)
  | tr :: rest =>
      let r := handle tr self w in
      deliver rest (self_after r) (world_after r)
  end.

(** * ScenarioTask *)

Record ScenarioTask := {
  scenario : ArenaScenario;
  pedsim_manager : option unit;      (* [None], or the pedestrian manager *)
  reset_count : Z
}.

Definition blank_ScenarioTask : ScenarioTask :=
  {| scenario := {| robotPosition := (0, 0)%Q; robotGoal := (0, 0)%Q; pedsimAgents := [] |};
     pedsim_manager := None; reset_count := 0 |}.

(** [ScenarioTask.__init__] *)
Definition ScenarioTask_init (scenario_path : string) : M ScenarioTask unit :=
  sc <- invoke (LoadFromFile scenario_path) ;;
  set_self (fun self => {| scenario := sc; pedsim_manager := None;
                           reset_count := reset_count self |}) ;;
  (if Z.of_nat (length (pedsimAgents sc)) >? 0 then
     set_self (fun self => {| scenario := scenario self; pedsim_manager := Some tt;
                              reset_count := reset_count self |}) ;;
     invoke (SpawnPeds (pedsimAgents sc))
   else ret tt) ;;
  set_self (fun self => {| scenario := scenario self;
                           pedsim_manager := pedsim_manager self;
                           reset_count := 0 |}).

(** The pose built from [np.append(xy, 0)] as point and
    [STANDART_ORIENTATION] as quaternion. *)
Definition pose_at (xy : Q * Q) : Pose :=
  {| position := {| x := fst xy; y := snd xy; z := 0 |};
     orientation := STANDART_ORIENTATION |}.

(** [ScenarioTask.reset] *)
Definition ScenarioTask_reset : M ScenarioTask (gmap string pyval) :=
  set_self (fun self => {| scenario := scenario self;
                           pedsim_manager := pedsim_manager self;
                           reset_count := reset_count self + 1 |}) ;;
  let info : gmap string pyval := ∅ in
  with_lock (
    self <- get_self ;;
    match pedsim_manager self with
    | Some _ => invoke ResetAllPeds
    | None => ret tt
    end ;;
    invoke (SetStartPosGoalPos (Some (pose_at (robotPosition (scenario self))))
                               (Some (pose_at (robotGoal (scenario self))))) ;;
    let info := <["new_scenerio_loaded" := VBool (reset_count self =? 1)]> info in
    let info := <["robot_goal_pos" :=
                    VArr [fst (robotGoal (scenario self)); snd (robotGoal (scenario self))]]> info in
    let info := <["num_repeats_curr_scene" := VInt (reset_count self)]> info in
    let info := <["max_repeats_curr_scene" := VInt 1000]> info in
    ret info).

(** The state after [n] calls of [reset], however each of them ended. *)
Fixpoint after_resets (n : nat) (self : ScenarioTask) (w : World) : ScenarioTask * World :=
  match n with
  | O => (self, w)
  | S n' =>
      let r := ScenarioTask_reset self w in
      after_resets n' (self_after r) (world_after r)
  end.

(** * The factory *)

Inductive Task : Type :=
| TaskRandom (t : RandomTask)
| TaskStaged (t : StagedRandomTask)
| TaskScenario (t : ScenarioTask)
| TaskManual (t : ManualTask).

(** [C(args)]: run [__init__] on the blank object and hand the object
    over. *)
Definition construct {T U} (blank : T) (init : M T unit) : M U T :=
  fun u w =>
    match init blank w with
    | (Returned _, t, w') => (Returned t, u, w')
    | (Raised e, _, w') => (Raised e, u, w')
    | (Blocked, _, w') => (Blocked, u, w')
    end.

(** [get_predefined_task(ns, mode, start_stage, PATHS)]; the result is
    [None] or a task. *)
Definition get_predefined_task (ns_ : string) (mode : string) (start_stage : start_arg)
    (PATHS : gmap string string) : M unit (option Task) :=
  map_ <- invoke GetStaticMap ;;
  invoke (NewRobotManager map_) ;;
  invoke (NewObstaclesManager map_) ;;
  invoke NewPedsimManager ;;
  let task : option Task := None in
  task <-
    (if String.eqb mode "random" then
       set_param "/task_mode" (VStr "random") ;;
       invoke (RegisterRandomStaticObstacles N_OBS_static) ;;
       t <- RandomTask_init ;;
       ret (Some (TaskRandom t))
     else ret task) ;;
  task <-
    (if String.eqb mode "staged" then
       set_param "/task_mode" (VStr "staged") ;;
       t <- construct blank_StagedRandomTask (StagedRandomTask_init ns_ start_stage PATHS) ;;
       ret (Some (TaskStaged t))
     else ret task) ;;
  task <-
    (if String.eqb mode "scenario" then
       set_param "/task_mode" (VStr "scenario") ;;
       invoke (RegisterRandomStaticObstacles N_OBS_static) ;;
       match PATHS !! "scenario" with
       | None => raise (KeyError (VStr "scenario"))
       | Some scenario_path =>
           t <- construct blank_ScenarioTask (ScenarioTask_init scenario_path) ;;
           ret (Some (TaskScenario t))
       end
     else ret task) ;;
  task <-
    (if String.eqb mode "manual" then
       set_param "/task_mode" (VStr "manual") ;;
       t <- construct blank_ManualTask ManualTask_init ;;
       ret (Some (TaskManual t))
     else ret task) ;;
  ret task.

(** * Sample surroundings *)

Definition sample_pose (px py : Q) : Pose :=
  {| position := {| x := px; y := py; z := 0 |}; orientation := STANDART_ORIENTATION |}.

Definition sample_goal : PoseStamped :=
  {| frame_id := "map"; pose := sample_pose 4 5 |}.

Definition sample_scenario : ArenaScenario :=
  {| robotPosition := (1, 1)%Q; robotGoal := (7, 2)%Q; pedsimAgents := [1%nat; 2%nat] |}.

(** An answer of the right type for each call. *)
Definition plain_answer (c : call) : answer c :=
  match c return answer c with
  | GetStaticMap => 0%nat
  | SetStartPosGoalPos s g =>
      (default (sample_pose 1 2) s, default (sample_pose 8 9) g)
  | SetStartPosRandom => sample_pose 1 2
  | RegisterRandomStaticObstacles _ => []
  | LoadFromFile _ => sample_scenario
  | WaitForGoal _ => None
  | _ => tt
  end.

(** Every call comes back; nobody publishes a goal. *)
Definition calm : Env := fun _ c => inr (plain_answer c).

(** The surroundings let every call come back. *)
Definition reliable (e : Env) : Prop := forall k c, exists a, e k c = inr a.

(** Placing obstacles fails with a service error as long as fewer than [n]
    calls have been made. *)
Definition placement_fails_before (n : nat) : Env :=
  fun k c =>
    match c return exn + answer c with
    | RegisterRandomDynamicObstacles _ _ =>
        if (k <? n)%nat then inl (ServiceException "service call failed") else inr tt
    | c => inr (plain_answer c)
    end.



(** The robot manager fails with a service error at its first call only. *)
Definition robot_service_late : Env :=
  fun k c =>
    match c return exn + answer c with
    | SetStartPosGoalPos s g =>
        if (k =? 0)%nat then inl (ServiceException "service call failed")
        else inr (plain_answer (SetStartPosGoalPos s g))
    | c => inr (plain_answer c)
    end.

(** A goal is published during the first wait only. *)
Definition one_goal : Env :=
  fun k c =>
    match c return exn + answer c with
    | WaitForGoal _ => if (k <? 4)%nat then inr (Some sample_goal) else inr None
    | c => inr (plain_answer c)
    end.

Definition sample_world (e : Env) : World :=
  {| params := {[ "world" := VStr "small_warehouse"; "model" := VStr "burger" ]};
     curriculum_file := None; hyperparameters_json := None;
     map_lock := false; calls := []; env := e |}.

Definition sample_random : RandomTask := {| num_of_actors := VInt 3 |}.

(** Curricula of three stages. *)
Definition curriculum_0_3_3 : gmap Z Stage :=
  {[ 1 := {| static := 5; dynamic := 0 |};
     2 := {| static := 5; dynamic := 3 |};
     3 := {| static := 10; dynamic := 3 |} ]}.

Definition curriculum_3_3_6 : gmap Z Stage :=
  {[ 1 := {| static := 5; dynamic := 3 |};
     2 := {| static := 10; dynamic := 3 |};
     3 := {| static := 10; dynamic := 6 |} ]}.

(** A controller of namespace [ns_] at stage [s]. *)
Definition staged_at (ns_ : string) (d : gmap Z Stage) (s : Z) : StagedRandomTask :=
  {| staged_num_of_actors := VInt 3; ns := ns_;
     ns_prefix := if String.eqb ns_ "" then "" else "/" +:+ ns_ +:+ "/";
     _curr_stage := s; _stages := d |}.

(** A world with the two files in place. *)
Definition staged_world (d : gmap Z Stage) (e : Env) : World :=
  {| params := {[ "world" := VStr "small_warehouse"; "model" := VStr "burger" ]};
     curriculum_file := Some (YamlDict d);
     hyperparameters_json := Some (JsonDict {[ "curr_stage" := VInt 1 ]});
     map_lock := false; calls := []; env := e |}.

(** The same world once the last stage has been reached. *)
Definition last_stage_world (d : gmap Z Stage) (e : Env) : World :=
  with_json (Some (JsonDict {[ "curr_stage" := VInt 3 ]}))
    (with_params (fun p => <["/last_stage_reached" := VBool true]> (<["/curr_stage" := VInt 3]> p))
       (staged_world d e)).

(** The paths of a training run. *)
Definition sample_PATHS : gmap string string :=
  {[ "curriculum" := "/configs/training_curriculum.yaml";
     "model" := "/agents/AGENT_1";
     "scenario" := "/scenarios/eval.json" ]}.

(** A scenario task as [__init__] leaves it. *)
Definition sample_scenario_task : ScenarioTask :=
  {| scenario := sample_scenario; pedsim_manager := Some tt; reset_count := 0 |}.

(** * train_agent_utils *)

(** The keys of the module-level dictionary [hyperparams]. *)
Definition hyperparams_keys : list string :=
  ["agent_name"; "robot"; "batch_size"; "gamma"; "n_steps"; "ent_coef";
   "learning_rate"; "vf_coef"; "max_grad_norm"; "gae_lambda"; "m_batch_size";
   "n_epochs"; "clip_range"; "reward_fnc"; "discrete_action_space"; "normalize";
   "task_mode"; "curr_stage"; "train_max_steps_per_episode";
   "eval_max_steps_per_episode"; "goal_radius"].

(** [d[key]] *)
Definition item {T} (d : gmap string pyval) (key : string) : M T pyval :=
  match d !! key with
  | Some v => ret v
  | None => raise (KeyError (VStr key))
  end.

(** [isinstance(v, bool)] *)
Definition is_bool (v : pyval) : bool :=
  match v with VBool _ => true | _ => false end.

(** [v in ["custom", "random", "staged"]] *)
Definition is_task_mode (v : pyval) : bool :=
  match v with
  | VStr s => String.eqb s "custom" || String.eqb s "random" || String.eqb s "staged"
  | _ => false
  end.

(** [check_hyperparam_format]; a document that is no dictionary has no
    [keys]. *)
Definition check_hyperparam_format {T} (loaded_hyperparams : json_doc) : M T unit :=
  match loaded_hyperparams with
  | JsonOther => raise AttributeError
  | JsonDict loaded =>
      if negb (bool_decide (list_to_set hyperparams_keys = dom loaded)) then
        raise (AssertionError "unmatching keys")
      else
        discrete_action_space <- item loaded "discrete_action_space" ;;
        (if negb (is_bool discrete_action_space) then raise TypeError else ret tt) ;;
        task_mode <- item loaded "task_mode" ;;
        if negb (is_task_mode task_mode) then raise TypeError else ret tt
  end.

(** [load_hyperparameters_json]: the object is the directory
    [PATHS["hyperparams"]], holding the document of each [config_name];
    the file [hyperparameters.json] of the model directory is the one of
    the world. *)
Definition load_hyperparameters_json (from_scratch : bool) (config_name : string)
  : M (gmap string json_doc) json_doc :=
  configs <- get_self ;;
  w <- get_world ;;
  match (if from_scratch then configs !! config_name else hyperparameters_json w) with
  | Some hyperparams =>
      check_hyperparam_format hyperparams ;;
      ret hyperparams
  | None =>
      if from_scratch
      then raise (FileNotFoundError ("Found no '" +:+ config_name +:+ ".json'"))
      else raise (FileNotFoundError "Found no 'hyperparameters.json'")
  end.

(** [write_hyperparameters_json] *)
Definition write_hyperparameters_json {T} (hyperparams : json_doc) : M T unit :=
  fun t w => (Returned tt, t, with_json (Some hyperparams) w).

(** [update_total_timesteps_json]; the builtin [int] is the argument
    [py_int]. *)
Definition update_total_timesteps_json (py_int : pyval -> exn + Z) (timesteps : Z)
  : M (gmap string json_doc) unit :=
  hyperparams <- load_hyperparameters_json false "default" ;;
  updated <-
    try_except
      (match hyperparams with
       | JsonOther => raise TypeError
       | JsonDict d =>
           n_timesteps <- item d "n_timesteps" ;;
           match py_int n_timesteps with
           | inl e => raise e
           | inr n =>
               let curr_timesteps := n + timesteps in
               ret (JsonDict (<["n_timesteps" := VInt curr_timesteps]> d))
           end
       end)
      (fun _ =>
         raise (WarningExn
                  "Parameter 'total_timesteps' not found or not of type Integer in 'hyperparameter.json'!")) ;;
  write_hyperparameters_json updated.

(** [a % b] on integers. *)
Definition py_mod {T} (a b : Z) : M T Z :=
  if b =? 0 then raise ZeroDivisionError else ret (a mod b).

(** [check_batch_size] *)
Definition check_batch_size {T} (n_envs batch_size mn_batch_size : Z) : M T unit :=
  (if batch_size >? mn_batch_size then ret tt
   else raise (AssertionError ("Mini batch size " +:+ pretty mn_batch_size
                               +:+ " is bigger than batch size " +:+ pretty batch_size))) ;;
  r <- py_mod batch_size mn_batch_size ;;
  (if r =? 0 then ret tt
   else raise (AssertionError ("Batch size " +:+ pretty batch_size
                               +:+ " isn't divisible by mini batch size "
                               +:+ pretty mn_batch_size))) ;;
  r <- py_mod batch_size n_envs ;;
  (if r =? 0 then ret tt
   else raise (AssertionError ("Batch size " +:+ pretty batch_size
                               +:+ " isn't divisible by n_envs " +:+ pretty n_envs))) ;;
  r <- py_mod batch_size mn_batch_size ;;
  if r =? 0 then ret tt
  else raise (AssertionError ("Batch size " +:+ pretty batch_size
                              +:+ " isn't divisible by mini batch size "
                              +:+ pretty mn_batch_size)).

(** The namespaces of [make_envs]. *)
Definition train_ns (with_ns : bool) (rank : Z) : string :=
  if with_ns then "sim_" +:+ pretty (rank + 1) else "".

Definition eval_ns (with_ns : bool) : string :=
  if with_ns then "eval_sim" else "".

(** ** wait_for_nodes *)

(** What [wait_for_nodes] does to its surroundings: the seconds it has
    slept and the namespaces it has asked for, oldest first. *)
Record Rosnode := { clock : Z; polled : list string }.

(** The node names of a namespace at a time, or the exception of the
    query. *)
Definition NodeOracle : Type := string -> Z -> exn + list string.

(** [rosnode.get_node_names(namespace=ns)] *)
Definition get_node_names (nodes : NodeOracle) (ns_ : string) : M Rosnode (list string) :=
  fun t w =>
    let t' := {| clock := clock t; polled := polled t ++ [ns_] |} in
    match nodes ns_ (clock t) with
    | inl e => (Raised e, t', w)
    | inr names => (Returned names, t', w)
    end.

(** [time.sleep(secs)] *)
Definition sleep (secs : Z) : M Rosnode unit :=
  set_self (fun t => {| clock := clock t + secs; polled := polled t |}).

(** The loop [for k in range(timeout)] over the values of [k] that are
    left. *)
Fixpoint connect_loop (nodes : NodeOracle) (ns_ : string) (timeout nodes_per_ns : Z)
    (ks : list Z) : M Rosnode unit :=
  match ks with
  | [] => ret tt
  | k :: ks' =>
      namespaces <- get_node_names nodes ns_ ;;
      if Z.of_nat (length namespaces) >=? nodes_per_ns then ret tt
      else
        (if k <? timeout - 1 then ret tt
         else raise (AssertionError ("Timeout while trying to connect to nodes of '"
                                     +:+ ns_ +:+ "'"))) ;;
        sleep 1 ;;
        connect_loop nodes ns_ timeout nodes_per_ns ks'
  end.

(** [for x in xs: body(x)] *)
Fixpoint for_each {T A} (xs : list A) (body : A -> M T unit) : M T unit :=
  match xs with
  | [] => ret tt
  | x :: xs' => body x ;; for_each xs' body
  end.

(** The namespace of the environment of index [i]. *)
Definition node_ns (with_ns : bool) (i : Z) : string :=
  if with_ns then "sim_" +:+ pretty (i + 1) else "".

(** [wait_for_nodes] *)
Definition wait_for_nodes (nodes : NodeOracle) (with_ns : bool)
    (n_envs timeout nodes_per_ns : Z) : M Rosnode unit :=
  (if with_ns then
     if with_ns && (n_envs >=? 1) then ret tt
     else raise (AssertionError ("Illegal number of environments parsed: " +:+ pretty n_envs))
   else
     if negb with_ns && (n_envs =? 1) then ret tt
     else raise (AssertionError
                   "Simulation setup isn't compatible with the given number of envs")) ;;
  for_each (seqZ 0 n_envs)
    (fun i => connect_loop nodes (node_ns with_ns i) timeout nodes_per_ns (seqZ 0 timeout)).

(** * Notions used in the statements *)

(** The method leaves the observation [f] of the object and the world as
    it is, however it ends. *)
Definition keeps {T A X} (f : T -> World -> X) (m : M T A) : Prop :=
  forall t w, f (self_after (m t w)) (world_after (m t w)) = f t w.

(** Observations: the object, the calls made, the hyper-parameter file, one
    parameter of the parameter server. *)
Definition the_self {T} (t : T) (_ : World) : T := t.
Definition the_calls {T} (_ : T) (w : World) : list call := calls w.
Definition the_json {T} (_ : T) (w : World) : option json_doc := hyperparameters_json w.
Definition the_param {T} (key : string) (_ : T) (w : World) : option pyval := params w !! key.

(** [current_stage] lies within [1, N]. *)
Definition in_range (t : StagedRandomTask) : Prop :=
  1 <= _curr_stage t <= n_stages t.

(** The simulator restart, as a sequence of calls. *)
Definition restart_sequence (world model : pyval) : list call :=
  [KillGazebo; GenerateWorld; LaunchGazebo world model;
   WaitForService "/gazebo/spawn_urdf_model"; SpawnRobot; Sleep 10].

(** The test of [_initiate_stage]: the stage is the first one, or its
    dynamic count differs from that of the stage one index below. *)
Definition population_change (curr_stage : Z) (st below : Stage) : bool :=
  (curr_stage =? 1) || negb (dynamic st =? dynamic below).

(** The world after the calls [cs], made in this order. *)
Definition after_calls (cs : list call) (w : World) : World :=
  fold_left (fun w c => with_call c w) cs w.

(** The world after [_initiate_stage] has restarted the simulator for [n]
    dynamic obstacles. *)
Definition restarted_world (n : Z) (world model : pyval) (w : World) : World :=
  after_calls (restart_sequence world model)
    (with_params (insert "actors" (VInt n)) (with_call RemoveAllObstacles w)).

(** The world after [_initiate_stage] has placed [n] dynamic obstacles in
    the running simulator. *)
Definition live_world (n : Z) (w : World) : World :=
  after_calls [RemoveAllObstacles; RegisterRandomDynamicObstacles (VInt n) None] w.

(** The stage indices are 1..N without gaps. *)
Definition contiguous (d : gmap Z Stage) : Prop :=
  forall k : Z, 1 <= k <= Z.of_nat (size d) -> is_Some (d !! k).

(** The calls that build the collaborators. *)
Definition build_collaborators (map_ : nat) : list call :=
  [GetStaticMap; NewRobotManager map_; NewObstaclesManager map_; NewPedsimManager].

(** The world in which [_initiate_stage] ends when every call is
    answered. *)
Definition initiated_world (curr_stage : Z) (st below : Stage) (world model : pyval)
    (w : World) : World :=
  if population_change curr_stage st below
  then restarted_world (dynamic st) world model w
  else live_world (dynamic st) w.

(** The state in which the authority and the shared curriculum state agree:
    the [/curr_stage] parameter and the persisted record hold the stage of
    the object, and the last-stage-reached flag is true only at the last
    stage.  The curriculum has the stages 1..N, and the surroundings answer
    every call. *)
Definition authority_consistent (t : StagedRandomTask) (w : World) : Prop :=
  ns t = "eval_sim" /\
  contiguous (_stages t) /\
  in_range t /\
  reliable (env w) /\
  is_Some (params w !! "world") /\
  is_Some (params w !! "model") /\
  params w !! "/curr_stage" = Some (VInt (_curr_stage t)) /\
  (exists hyperparams,
     hyperparameters_json w = Some (JsonDict hyperparams) /\
     hyperparams !! "curr_stage" = Some (VInt (_curr_stage t))) /\
  (params w !! "/last_stage_reached" = Some (VBool true) -> _curr_stage t = n_stages t).

(** The simulator's spawn service does not come up; every other call is
    answered. *)
Definition service_never_up : Env :=
  fun k c =>
    match c return exn + answer c with
    | WaitForService _ => inl (OtherError 11)
    | c => inr (plain_answer c)
    end.

(** Two runs that end alike and leave the same world. *)
Definition same_run {A T} (r1 r2 : outcome A * T * World) : Prop :=
  result r1 = result r2 /\ world_after r1 = world_after r2.

(** The mode tag of a task variant. *)
Definition variant_name (task : Task) : string :=
  match task with
  | TaskRandom _ => "random"
  | TaskStaged _ => "staged"
  | TaskScenario _ => "scenario"
  | TaskManual _ => "manual"
  end.

(** The calls of one [ScenarioTask.reset]. *)
Definition scenario_reset_calls (t : ScenarioTask) : list call :=
  match pedsim_manager t with Some _ => [ResetAllPeds] | None => [] end ++
  [SetStartPosGoalPos (Some (pose_at (robotPosition (scenario t))))
                      (Some (pose_at (robotGoal (scenario t))))].

(** A dictionary that [check_hyperparam_format] accepts. *)
Definition well_formed_hyperparams (d : gmap string pyval) : Prop :=
  dom d = list_to_set hyperparams_keys /\
  (exists b, d !! "discrete_action_space" = Some (VBool b)) /\
  (d !! "task_mode" = Some (VStr "custom") \/ d !! "task_mode" = Some (VStr "random") \/
   d !! "task_mode" = Some (VStr "staged")).

(** At time [tau] the namespace answers with at least, or with fewer than,
    [nodes_per_ns] node names. *)
Definition online (nodes : NodeOracle) (nodes_per_ns : Z) (ns_ : string) (tau : Z) : Prop :=
  exists names, nodes ns_ tau = inr names /\ nodes_per_ns <= Z.of_nat (length names).

Definition offline (nodes : NodeOracle) (nodes_per_ns : Z) (ns_ : string) (tau : Z) : Prop :=
  exists names, nodes ns_ tau = inr names /\ Z.of_nat (length names) < nodes_per_ns.

(** The check of [n_envs] at the head of [wait_for_nodes] passes. *)
Definition envs_accepted (with_ns : bool) (n_envs : Z) : Prop :=
  if with_ns then 1 <= n_envs else n_envs = 1.

(** One node answers in the namespace after [delay] seconds. *)
Definition online_after (delay : Z) : NodeOracle :=
  fun ns_ tau => inr (if tau <? delay then [] else ["/" +:+ ns_ +:+ "/gazebo"]).

(** The first publisher is down; a goal is published during the wait. *)
Definition publisher_down : Env :=
  fun k c =>
    match c return exn + answer c with
    | WaitForGoal _ => inr (Some sample_goal)
    | GoalPubPublish _ => inl (OtherError 5)
    | c => inr (plain_answer c)
    end.

(** The obstacle manager cannot take the map. *)
Definition obstacle_map_fails : Env :=
  fun k c =>
    match c return exn + answer c with
    | ObstacleUpdateMap _ => inl (OtherError 6)
    | c => inr (plain_answer c)
    end.

(** A hyper-parameter dictionary with the twenty-one keys. *)
Definition sample_hyperparams : gmap string pyval :=
  list_to_map
    [("agent_name", VStr "AGENT_1"); ("robot", VStr "burger"); ("batch_size", VInt 2048);
     ("gamma", VNone); ("n_steps", VInt 512); ("ent_coef", VNone);
     ("learning_rate", VNone); ("vf_coef", VNone); ("max_grad_norm", VNone);
     ("gae_lambda", VNone); ("m_batch_size", VInt 64); ("n_epochs", VInt 3);
     ("clip_range", VNone); ("reward_fnc", VStr "rule_00");
     ("discrete_action_space", VBool false); ("normalize", VBool false);
     ("task_mode", VStr "staged"); ("curr_stage", VInt 1);
     ("train_max_steps_per_episode", VInt 500); ("eval_max_steps_per_episode", VInt 500);
     ("goal_radius", VNone)].

(** A world whose hyper-parameter file holds [sample_hyperparams]. *)
Definition trained_world (d : gmap Z Stage) (e : Env) : World :=
  with_json (Some (JsonDict sample_hyperparams))
    (with_params (insert "/curr_stage" (VInt 1)) (staged_world d e)).

(** The node graph before any poll. *)
Definition fresh_rosnode : Rosnode := {| clock := 0; polled := [] |}.

(** A curriculum with a gap: two entries, with the keys 1 and 3. *)
Definition curriculum_gap : gmap Z Stage :=
  {[ 1 := {| static := 5; dynamic := 0 |}; 3 := {| static := 10; dynamic := 3 |} ]}.

(** No default configuration is at hand. *)
Definition no_configs : gmap string json_doc := ∅.

(** * The map lock *)

(** While the lock is held, a method that takes it does not come back and
    changes nothing. *)
Lemma with_lock_held {T A} (body : M T A) (t : T) (w : World) :
  map_lock w = true -> with_lock body t w = (Blocked, t, w).
Proof. intros Hheld. unfold with_lock. by rewrite Hheld. Qed.

(** From a free lock, a body that comes back leaves the lock free. *)
Lemma with_lock_free {T A} (body : M T A) (t : T) (w : World) :
  map_lock w = false ->
  result (body t (with_map_lock true w)) <> Blocked ->
  result (with_lock body t w) = result (body t (with_map_lock true w)) /\
  map_lock (world_after (with_lock body t w)) = false.
Proof.
  intros Hfree Hback. unfold with_lock. rewrite Hfree.
  destruct (body t (with_map_lock true w)) as [[[a|e|] t'] w']; done.
Qed.

(** The map callback takes the free lock, hands the map to the obstacle
    manager and then to the robot manager, and gives the lock back. *)
Lemma update_map_free {T} (map_ : nat) (t : T) (w : World) :
  map_lock w = false ->
  result (_update_map map_ t w) <> Blocked /\
  map_lock (world_after (_update_map map_ t w)) = false /\
  (result (_update_map map_ t w) = Returned tt ->
   calls (world_after (_update_map map_ t w)) =
     (calls w ++ [ObstacleUpdateMap map_; RobotUpdateMap map_])%list).
Proof.
  intros Hfree. unfold _update_map, with_lock, bind, invoke, result, world_after.
  rewrite Hfree. simpl.
  repeat (case_match; simplify_eq/=); repeat split; try done.
  intros _. by rewrite <- app_assoc.
Qed.

(** * RandomTask: the retry loop *)

Section RandomTaskFacts.
Context {T : Type} `{RandomTaskLike T}.

(** An attempt leaves [self] as it is. *)
Lemma reset_attempt_self (t : T) (w : World) : self_after (reset_attempt t w) = t.
Proof.
  unfold reset_attempt, bind, invoke, get_self, ret, self_after.
  repeat (case_match; simplify_eq/=); done.
Qed.

(** A service error sends the loop into its next round, with the counter
    one higher. *)
Lemma reset_loop_retry (fuel : nat) (fail_times : Z) (t : T) (w w1 : World) msg :
  fail_times < max_fail_times ->
  reset_attempt t w = (Raised (ServiceException msg), t, w1) ->
  reset_loop (S fuel) fail_times t w = reset_loop fuel (fail_times + 1) t w1.
Proof.
  intros Hlt Hatt. simpl.
  destruct (Z.ltb_spec fail_times max_fail_times) as [_|]; [|lia].
  unfold try_except_service, bind at 1. rewrite Hatt. reflexivity.
Qed.

(** A successful attempt leaves the loop by [break]. *)
Lemma reset_loop_break (fuel : nat) (fail_times : Z) (t : T) (w w1 : World) sg :
  fail_times < max_fail_times ->
  reset_attempt t w = (Returned sg, t, w1) ->
  reset_loop (S fuel) fail_times t w = (Returned (fail_times, Some (snd sg)), t, w1).
Proof.
  intros Hlt Hatt. simpl.
  destruct (Z.ltb_spec fail_times max_fail_times) as [_|]; [|lia].
  unfold try_except_service, bind at 1. rewrite Hatt. reflexivity.
Qed.


(** [n] failed attempts use up [n] rounds. *)
Lemma reset_loop_attempts_fail (n : nat) (t : T) (w w' : World) :
  attempts_fail t n w w' ->
  forall (fuel : nat) (fail_times : Z),
    fail_times + Z.of_nat n <= max_fail_times ->
    reset_loop (n + fuel) fail_times t w = reset_loop fuel (fail_times + Z.of_nat n) t w'.
Proof.
  induction 1 as [w | n w w1 w2 msg Hatt _ IH]; intros fuel fail_times Hle.
  - simpl. f_equal. lia.
  - change (S n + fuel)%nat with (S (n + fuel)).
    rewrite (reset_loop_retry (n + fuel) fail_times t w w1 msg); [|lia|exact Hatt].
    rewrite IH by lia. f_equal. lia.
Qed.

(** The fuel handed to the loop is enough: with the lock free, [reset]
    always comes back. *)
Lemma reset_loop_fuel (fuel : nat) (fail_times : Z) (t : T) (w : World) :
  max_fail_times - fail_times <= Z.of_nat fuel ->
  result (reset_loop fuel fail_times t w) <> Blocked.
Proof.
  revert fail_times t w. induction fuel as [|fuel IH]; intros fail_times t w Hle; simpl.
  - destruct (Z.ltb_spec fail_times max_fail_times); [lia | done].
  - destruct (Z.ltb_spec fail_times max_fail_times); [|done].
    unfold try_except_service, bind at 1.
    destruct (reset_attempt t w) as [[[sg|e|] t'] w'] eqn:Hatt.
    + done.
    + destruct (is_ServiceException e); [|done].
      apply IH. lia.
    + exfalso. revert Hatt.
      unfold reset_attempt, bind, invoke, get_self, ret.
      repeat (case_match; simplify_eq/=); done.
Qed.

(** X16. [reset] takes the free lock once and gives it back on every way
    out. *)
Lemma RandomTask_reset_free (t : T) (w : World) :
  map_lock w = false ->
  result (RandomTask_reset t w) <> Blocked /\
  map_lock (world_after (RandomTask_reset t w)) = false.
Proof.
  intros Hfree. unfold RandomTask_reset.
  match goal with |- context [with_lock ?body] =>
    assert (result (body t (with_map_lock true w)) <> Blocked) as Hback;
      [|destruct (with_lock_free body t w Hfree Hback) as [Hres Hlock];
        split; [by rewrite Hres | exact Hlock]]
  end.
  unfold bind.
  pose proof (reset_loop_fuel (Z.to_nat max_fail_times) 0 t (with_map_lock true w)) as Hfuel.
  destruct (reset_loop _ _ t _) as [[[[f g]|e|] t'] w'] eqn:Hloop; [|done|].
  - cbn [fst snd]. by repeat case_match.
  - exfalso. apply Hfuel; [unfold max_fail_times; lia|done].
Qed.

(** When the placement step is the one that fails, the attempt ends with
    its service error, after the three calls of the attempt. *)
Lemma placement_failure_fails_attempt (t : T) (w : World) sg msg :
  env w (length (calls w)) (SetStartPosGoalPos None None) = inr sg ->
  env w (S (length (calls w))) RemoveAllObstacles = inr tt ->
  env w (S (S (length (calls w))))
      (RegisterRandomDynamicObstacles (actors_of t)
         (Some [zone_of (fst sg); zone_of (snd sg)])) = inl (ServiceException msg) ->
  reset_attempt t w =
    (Raised (ServiceException msg), t,
     with_call (RegisterRandomDynamicObstacles (actors_of t)
                  (Some [zone_of (fst sg); zone_of (snd sg)]))
       (with_call RemoveAllObstacles (with_call (SetStartPosGoalPos None None) w))).
Proof.
  intros H1 H2 H3.
  unfold reset_attempt, bind, invoke, get_self. rewrite H1. simpl.
  rewrite length_app, Nat.add_1_r. simpl. rewrite H2. simpl.
  rewrite !length_app, !Nat.add_1_r. simpl. rewrite H3. reflexivity.
Qed.


(** The pair that a successful attempt hands on is the answer of the robot
    manager. *)
Lemma reset_attempt_sampled (t : T) (w w1 : World) sg :
  reset_attempt t w = (Returned sg, t, w1) ->
  env w (length (calls w)) (SetStartPosGoalPos None None) = inr sg.
Proof.
  unfold reset_attempt, bind, invoke, get_self, ret.
  repeat (case_match; simplify_eq/=); congruence.
Qed.

(** [reset] after [n] failed attempts and one that succeeds. *)
Lemma RandomTask_reset_success (t : T) (w : World) (n : nat) w1 w2 sg :
  map_lock w = false ->
  (n < 3)%nat ->
  attempts_fail t n (with_map_lock true w) w1 ->
  reset_attempt t w1 = (Returned sg, t, w2) ->
  RandomTask_reset t w =
    (Returned {[ "robot_goal_pos" := VArr [x (position (snd sg)); y (position (snd sg))] ]},
     t, with_map_lock false w2).
Proof.
  intros Hfree Hn Hfail Hok.
  unfold RandomTask_reset, with_lock. rewrite Hfree.
  unfold bind at 1.
  replace (Z.to_nat max_fail_times) with (n + S (2 - n))%nat
    by (unfold max_fail_times; lia).
  rewrite (reset_loop_attempts_fail n t _ w1 Hfail (S (2 - n)) 0)
    by (unfold max_fail_times; lia).
  rewrite (reset_loop_break (2 - n) (0 + Z.of_nat n) t w1 w2 sg)
    by (unfold max_fail_times; lia || exact Hok).
  cbn [fst snd].
  destruct (Z.eqb_spec (0 + Z.of_nat n) max_fail_times) as [Heq|_].
  - unfold max_fail_times in Heq; lia.
  - unfold goal_info, ret. by rewrite insert_empty.
Qed.

(** [reset] after three failed attempts. *)
Lemma RandomTask_reset_gives_up (t : T) (w w' : World) :
  map_lock w = false ->
  attempts_fail t 3 (with_map_lock true w) w' ->
  RandomTask_reset t w =
    (Raised (PlainException "reset error!"), t, with_map_lock false w').
Proof.
  intros Hfree Hfail.
  unfold RandomTask_reset, with_lock. rewrite Hfree.
  unfold bind at 1.
  change (Z.to_nat max_fail_times) with (3 + 0)%nat.
  rewrite (reset_loop_attempts_fail 3 t _ w' Hfail 0%nat 0) by (unfold max_fail_times; lia).
  reflexivity.
Qed.


(** C4. Three attempts in a row that end with a service error make
    [RandomTask.reset] raise its terminal "reset error!"; fewer than three
    such attempts followed by an attempt that succeeds make it return the
    info record whose entry [robot_goal_pos] holds the x and y of the goal
    pose that the robot manager answered in that attempt, and no other
    entry.  The lock is free again afterwards. *)
Theorem RandomTask_reset_retry_bound (t : T) (w : World) :
  map_lock w = false ->
  (forall w',
     attempts_fail t 3 (with_map_lock true w) w' ->
     RandomTask_reset t w =
       (Raised (PlainException "reset error!"), t, with_map_lock false w')) /\
  (forall (n : nat) w1 w2 sg,
     (n < 3)%nat ->
     attempts_fail t n (with_map_lock true w) w1 ->
     reset_attempt t w1 = (Returned sg, t, w2) ->
     env w1 (length (calls w1)) (SetStartPosGoalPos None None) = inr sg /\
     RandomTask_reset t w =
       (Returned {[ "robot_goal_pos" :=
                      VArr [x (position (snd sg)); y (position (snd sg))] ]},
        t, with_map_lock false w2)).
Proof.
  intros Hfree. split.
  - intros w' Hfail. exact (RandomTask_reset_gives_up t w w' Hfree Hfail).
  - intros n w1 w2 sg Hn Hfail Hok. split.
    + exact (reset_attempt_sampled t w1 w2 sg Hok).
    + exact (RandomTask_reset_success t w n w1 w2 sg Hfree Hn Hfail Hok).
Qed.


End RandomTaskFacts.

(** * ManualTask: the goal wait *)

Section ManualTaskFacts.

(** Use the answer [H] of the surroundings to the call that is next. *)
Ltac answered H :=
  simpl in H; try unfold invoke; simpl; rewrite ?length_app; simpl;
  rewrite ?Nat.add_1_r; rewrite H; simpl.

(** [ManualTask.reset] has no way out of its loop but an exception: however
    many rounds are run, it has not returned. *)
Lemma ManualTask_reset_no_return (fuel : nat) (t : ManualTask) (w : World) :
  result (ManualTask_reset fuel t w) = Blocked \/
  exists e, result (ManualTask_reset fuel t w) = Raised e.
Proof.
  revert t w. induction fuel as [|fuel IH]; intros t w; simpl.
  - by left.
  - unfold bind.
    destruct (ManualTask_reset_round t w) as [[[u|e|] t'] w'];
      [apply IH | right; by exists e | by left].
Qed.

(** X1. A round in which the goal arrives within the window: both publishers
    get that goal, and the flag is cleared. *)
Lemma ManualTask_round_goal (t : ManualTask) (w : World) (start_pos : Pose) (goal : PoseStamped) :
  let k := length (calls w) in
  let register :=
    RegisterRandomDynamicObstacles (manual_num_of_actors t) (Some [zone_of start_pos]) in
  map_lock w = false ->
  _new_goal_received t = false ->
  env w k RemoveAllObstacles = inr tt ->
  env w (1 + k)%nat SetStartPosRandom = inr start_pos ->
  env w (2 + k)%nat register = inr tt ->
  env w (3 + k)%nat (WaitForGoal 60) = inr (Some goal) ->
  env w (4 + k)%nat (GoalPubPublish goal) = inr tt ->
  env w (5 + k)%nat (PubMvbGoalPublish goal) = inr tt ->
  result (ManualTask_reset_round t w) = Returned tt /\
  self_after (ManualTask_reset_round t w) =
    {| manual_num_of_actors := manual_num_of_actors t; _goal := goal;
       _new_goal_received := false |} /\
  calls (world_after (ManualTask_reset_round t w)) =
    (calls w ++ [RemoveAllObstacles; SetStartPosRandom; register; WaitForGoal 60;
                 GoalPubPublish goal; PubMvbGoalPublish goal])%list /\
  map_lock (world_after (ManualTask_reset_round t w)) = false.
Proof.
  intros k register Hfree Hflag H0 H1 H2 H3 H4 H5. subst k register.
  unfold ManualTask_reset_round, with_lock. rewrite Hfree.
  unfold bind, invoke, get_self, wait_for_goal, is_True, try_except, set_self,
    _set_goal_callback, ret, raise, bind, get_self; simpl.
  answered H0. answered H1. answered H2. rewrite Hflag.
  answered H3. answered H4. answered H5.
  repeat split; try reflexivity.
  rewrite <- !app_assoc. reflexivity.
Qed.

(** A round in which no goal arrives within the window ends with the
    time-out exception. *)
Lemma ManualTask_round_timeout (t : ManualTask) (w : World) (start_pos : Pose) :
  let k := length (calls w) in
  let register :=
    RegisterRandomDynamicObstacles (manual_num_of_actors t) (Some [zone_of start_pos]) in
  map_lock w = false ->
  _new_goal_received t = false ->
  env w k RemoveAllObstacles = inr tt ->
  env w (1 + k)%nat SetStartPosRandom = inr start_pos ->
  env w (2 + k)%nat register = inr tt ->
  env w (3 + k)%nat (WaitForGoal 60) = inr None ->
  result (ManualTask_reset_round t w) =
    Raised (PlainException "TimeOut, User does't provide goal position!").
Proof.
  intros k register Hfree Hflag H0 H1 H2 H3. subst k register.
  unfold ManualTask_reset_round, with_lock. rewrite Hfree.
  unfold bind, invoke, get_self, wait_for_goal, is_True, try_except, set_self,
    _set_goal_callback, ret, raise, bind, get_self; simpl.
  answered H0. answered H1. answered H2. rewrite Hflag.
  answered H3. rewrite Hflag. reflexivity.
Qed.

(** C3. [ManualTask.reset] never returns normally: after any number of
    rounds it is still in its loop or has raised.  When a goal is
    published during the first wait and none after it, the goal is handed to
    both publishers once, and then the loop starts over: obstacles are
    removed, a new start pose is drawn, and the second wait ends in the
    time-out exception that [reset] raises. *)
Theorem ManualTask_reset_goal_then_timeout :
  (forall (fuel : nat) (t : ManualTask) (w : World),
     result (ManualTask_reset fuel t w) = Blocked \/
     exists e, result (ManualTask_reset fuel t w) = Raised e) /\
  (forall fuel : nat,
     let r := ManualTask_reset (2 + fuel) blank_ManualTask (sample_world one_goal) in
     let register :=
       RegisterRandomDynamicObstacles VNone (Some [zone_of (sample_pose 1 2)]) in
     result r = Raised (PlainException "TimeOut, User does't provide goal position!") /\
     calls (world_after r) =
       [RemoveAllObstacles; SetStartPosRandom; register; WaitForGoal 60;
        GoalPubPublish sample_goal; PubMvbGoalPublish sample_goal;
        RemoveAllObstacles; SetStartPosRandom; register; WaitForGoal 60] /\
     _new_goal_received (self_after r) = false).
Proof.
  split.
  - apply ManualTask_reset_no_return.
  - intros fuel. cbv zeta. repeat split; reflexivity.
Qed.

End ManualTaskFacts.

(** * StagedRandomTask: the curriculum controller *)

(** ** What a method leaves alone *)

Section Keeps.
Context {T X : Type} (f : T -> World -> X).

Lemma keeps_ret {A} (a : A) : keeps f (@ret T A a).
Proof. done. Qed.

Lemma keeps_raise {A} (e : exn) : keeps f (@raise T A e).
Proof. done. Qed.

Lemma keeps_get_self : keeps f (@get_self T).
Proof. done. Qed.

Lemma keeps_get_world : keeps f (@get_world T).
Proof. done. Qed.

Lemma keeps_get_param key : keeps f (@get_param T key).
Proof. intros t w. unfold get_param, self_after, world_after. by case_match. Qed.

Lemma keeps_invoke (c : call) :
  (forall t w, f t (with_call c w) = f t w) -> keeps f (@invoke T c).
Proof.
  intros Hf t w. unfold invoke, self_after, world_after. case_match; simpl; apply Hf.
Qed.

Lemma keeps_set_param key v :
  (forall t w, f t (with_params (insert key v) w) = f t w) -> keeps f (@set_param T key v).
Proof. intros Hf t w. apply Hf. Qed.

Lemma keeps_bind {A B} (m : M T A) (k : A -> M T B) :
  keeps f m -> (forall a, keeps f (k a)) -> keeps f (bind m k).
Proof.
  intros Hm Hk t w. unfold bind. specialize (Hm t w).
  destruct (m t w) as [[[a|e|] t'] w']; unfold self_after, world_after in *;
    simpl in *; try done.
  rewrite <- Hm. apply Hk.
Qed.

End Keeps.

(** Walk through the binds and the branches of a method. *)
Ltac keeps :=
  repeat first
    [ assumption
    | match goal with
      | |- keeps _ (ret _) => apply keeps_ret
      | |- keeps _ (raise _) => apply keeps_raise
      | |- keeps _ get_self => apply keeps_get_self
      | |- keeps _ get_world => apply keeps_get_world
      | |- keeps _ (get_param _) => apply keeps_get_param
      | |- keeps _ (invoke ?c) => apply (keeps_invoke _ c); done
      | |- keeps _ (set_param _ _) =>
          apply keeps_set_param; intros; unfold the_param; simpl;
          solve [done | by rewrite lookup_insert_ne]
      | |- keeps _ (bind _ _) => apply keeps_bind; [|intros ?]
      | |- keeps _ (match ?b with _ => _ end) => destruct b
      end
    | progress cbv zeta ].

Lemma keeps_stage_at {X} (f : StagedRandomTask -> World -> X) (k : Z) : keeps f (stage_at k).
Proof.
  intros t w. unfold stage_at, bind, get_self, self_after, world_after. simpl. by case_match.
Qed.

(** [_initiate_stage] writes the parameter ["actors"] and nothing else of
    the object, the parameter server and the hyper-parameter file. *)
Lemma keeps_initiate_stage {X} (f : StagedRandomTask -> World -> X) :
  (forall t w c, f t (with_call c w) = f t w) ->
  (forall t w v, f t (with_params (insert "actors" v) w) = f t w) ->
  keeps f _initiate_stage.
Proof.
  intros Hcall Hparam. unfold _initiate_stage.
  pose proof (keeps_stage_at f) as Hst.
  assert (forall c, keeps f (@invoke StagedRandomTask c)) as Hinv
    by (intros c; apply keeps_invoke; auto).
  assert (forall v, keeps f (@set_param StagedRandomTask "actors" v)) as Hset
    by (intros v; apply keeps_set_param; auto).
  repeat first
    [ apply keeps_bind; [|intros ?]
    | apply Hst | apply Hset
    | match goal with |- keeps _ (invoke ?c) => exact (Hinv c) end
    | apply keeps_ret | apply keeps_get_self | apply keeps_get_param
    | match goal with |- keeps _ (match ?b with _ => _ end) => destruct b end
    | progress cbv zeta ].
Qed.

Lemma keeps_self_initiate_stage : keeps the_self _initiate_stage.
Proof. by apply keeps_initiate_stage. Qed.

Lemma keeps_self_update_curr_stage_json : keeps the_self _update_curr_stage_json.
Proof.
  intros t w. unfold _update_curr_stage_json, bind, get_self, get_world, raise, self_after.
  simpl. repeat case_match; done.
Qed.

(** ** The stage index *)

(** What an advance trigger does to [self], whatever the surroundings do. *)
Lemma next_stage_self (t : StagedRandomTask) (w : World) :
  self_after (next_stage t w) =
    if _curr_stage t <? n_stages t then set_curr_stage (_curr_stage t + 1) t else t.
Proof.
  unfold next_stage. unfold bind at 1, get_self at 1.
  destruct (_curr_stage t <? n_stages t); [|done].
  unfold bind at 1, set_self at 1.
  pose proof keeps_self_initiate_stage. pose proof keeps_self_update_curr_stage_json.
  match goal with |- self_after (?m ?t1 ?w1) = _ =>
    assert (keeps the_self m) as Hk by keeps; apply (Hk t1 w1)
  end.
Qed.

(** What a retreat trigger does to [self], whatever the surroundings do. *)
Lemma previous_stage_self (t : StagedRandomTask) (w : World) :
  self_after (previous_stage t w) =
    if _curr_stage t >? 1 then set_curr_stage (_curr_stage t - 1) t else t.
Proof.
  unfold previous_stage. unfold bind at 1, get_self at 1.
  destruct (_curr_stage t >? 1); [|done].
  unfold bind at 1, set_param at 1. unfold bind at 1, set_self at 1.
  pose proof keeps_self_initiate_stage. pose proof keeps_self_update_curr_stage_json.
  match goal with |- self_after (?m ?t1 ?w1) = _ =>
    assert (keeps the_self m) as Hk by keeps; apply (Hk t1 w1)
  end.
Qed.

Lemma handle_self (tr : trigger) (t : StagedRandomTask) (w : World) :
  self_after (handle tr t w) =
    match tr with
    | Advance =>
        if _curr_stage t <? n_stages t then set_curr_stage (_curr_stage t + 1) t else t
    | Retreat =>
        if _curr_stage t >? 1 then set_curr_stage (_curr_stage t - 1) t else t
    end.
Proof. destruct tr; [apply next_stage_self | apply previous_stage_self]. Qed.


Lemma handle_stages (tr : trigger) (t : StagedRandomTask) (w : World) :
  _stages (self_after (handle tr t w)) = _stages t.
Proof. rewrite handle_self. destruct tr; case_match; done. Qed.

Lemma handle_in_range (tr : trigger) (t : StagedRandomTask) (w : World) :
  in_range t -> in_range (self_after (handle tr t w)).
Proof.
  unfold in_range. rewrite handle_self.
  destruct tr.
  - destruct (Z.ltb_spec (_curr_stage t) (n_stages t)); unfold n_stages in *; simpl; lia.
  - destruct (Z.gtb_spec (_curr_stage t) 1); unfold n_stages in *; simpl; lia.
Qed.

Lemma deliver_in_range (trs : list trigger) (t : StagedRandomTask) (w : World) :
  in_range t -> in_range (deliver trs t w).1.
Proof.
  revert t w. induction trs as [|tr trs IH]; intros t w Ht; simpl; [done|].
  apply IH, handle_in_range, Ht.
Qed.

Lemma deliver_stages (trs : list trigger) (t : StagedRandomTask) (w : World) :
  _stages (deliver trs t w).1 = _stages t.
Proof.
  revert t w. induction trs as [|tr trs IH]; intros t w; simpl; [done|].
  rewrite IH. apply handle_stages.
Qed.

Lemma deliver_app (trs1 trs2 : list trigger) (t : StagedRandomTask) (w : World) :
  deliver (trs1 ++ trs2) t w =
    deliver trs2 (deliver trs1 t w).1 (deliver trs1 t w).2.
Proof.
  revert t w. induction trs1 as [|tr trs1 IH]; intros t w; simpl; [done|]. apply IH.
Qed.

(** [k] advance triggers climb [k] stages and stop at the last one. *)
Lemma deliver_advances (k : nat) (t : StagedRandomTask) (w : World) :
  _curr_stage t <= n_stages t ->
  _curr_stage (deliver (repeat Advance k) t w).1
    = Z.min (_curr_stage t + Z.of_nat k) (n_stages t).
Proof.
  revert t w. induction k as [|k IH]; intros t w Hle.
  - simpl. lia.
  - cbn [repeat deliver]. rewrite IH.
    + rewrite (handle_self Advance).
      destruct (Z.ltb_spec (_curr_stage t) (n_stages t)); unfold n_stages in *; simpl; lia.
    + rewrite (handle_self Advance).
      destruct (Z.ltb_spec (_curr_stage t) (n_stages t)); unfold n_stages in *; simpl; lia.
Qed.

(** [k] retreat triggers descend [k] stages and stop at the first one. *)
Lemma deliver_retreats (k : nat) (t : StagedRandomTask) (w : World) :
  1 <= _curr_stage t ->
  _curr_stage (deliver (repeat Retreat k) t w).1
    = Z.max 1 (_curr_stage t - Z.of_nat k).
Proof.
  revert t w. induction k as [|k IH]; intros t w Hle.
  - simpl. lia.
  - cbn [repeat deliver]. rewrite IH.
    + rewrite (handle_self Retreat).
      destruct (Z.gtb_spec (_curr_stage t) 1); simpl; lia.
    + rewrite (handle_self Retreat).
      destruct (Z.gtb_spec (_curr_stage t) 1); simpl; lia.
Qed.

(** C6 (amended). From a stage [s] within [1, N], [k] advance triggers
    followed by [k] retreat triggers end at stage
    [max 1 (min (s + k) N - k)]; this is [s] again whenever [s + k <= N],
    that is, whenever no advance trigger met the last stage. *)
Theorem advance_then_retreat (k : nat) (t : StagedRandomTask) (w : World) :
  in_range t ->
  let t' := (deliver (repeat Advance k ++ repeat Retreat k) t w).1 in
  _curr_stage t' = Z.max 1 (Z.min (_curr_stage t + Z.of_nat k) (n_stages t) - Z.of_nat k) /\
  (_curr_stage t + Z.of_nat k <= n_stages t -> _curr_stage t' = _curr_stage t).
Proof.
  intros Ht t'. subst t'. unfold in_range in Ht.
  rewrite deliver_app.
  rewrite deliver_retreats by (rewrite deliver_advances; lia).
  rewrite deliver_advances by lia.
  split; lia.
Qed.

(** ** Re-initiating a stage *)



(** Use that the surroundings answer the call that is next. *)
Ltac call_ok Hrel :=
  simpl; try unfold invoke; simpl;
  match goal with
  | |- context [env ?w ?k ?c] =>
      let a := fresh "a" in
      let Ha := fresh "Ha" in
      destruct (Hrel k c) as [a Ha]; rewrite Ha;
      let A := eval cbn in (answer c) in
      match A with
      | unit => destruct a
      | _ => idtac
      end;
      simpl
  end.

(** With surroundings that answer every call, [_initiate_stage] comes back;
    it restarts the simulator when [population_change] holds and places the
    obstacles in the running world otherwise. *)
Lemma initiate_stage_run (t : StagedRandomTask) (w : World) (st below : Stage)
    (world model : pyval) :
  reliable (env w) ->
  params w !! "world" = Some world ->
  params w !! "model" = Some model ->
  _stages t !! _curr_stage t = Some st ->
  (_curr_stage t = 1 \/ _stages t !! (_curr_stage t - 1) = Some below) ->
  _initiate_stage t w =
    (Returned tt, t,
     if population_change (_curr_stage t) st below
     then restarted_world (dynamic st) world model w
     else live_world (dynamic st) w).
Proof.
  intros Hrel Hworld Hmodel Hst Hbelow.
  unfold population_change, _initiate_stage.
  unfold bind at 1. call_ok Hrel.
  unfold bind at 1, get_self at 1.
  unfold bind at 1, stage_at at 1, bind at 1, get_self at 1. rewrite Hst. unfold ret at 1.
  unfold bind at 1.
  destruct (Z.eqb_spec (_curr_stage t) 1) as [H1|H1].
  - unfold ret at 1. cbn [orb].
    unfold bind, set_param, get_param. simpl.
    do 2 call_ok Hrel.
    rewrite lookup_insert_ne by done. rewrite Hworld. simpl.
    rewrite lookup_insert_ne by done. rewrite Hmodel.
    do 4 call_ok Hrel.
    reflexivity.
  - destruct Hbelow as [|Hbelow]; [done|].
    unfold bind at 1, stage_at at 1, bind at 1, get_self at 1. rewrite Hbelow.
    unfold ret at 1, ret at 1. cbn [orb].
    destruct (dynamic st =? dynamic below); cbn [negb].
    + call_ok Hrel. reflexivity.
    + unfold bind, set_param, get_param. simpl.
      do 2 call_ok Hrel.
      rewrite lookup_insert_ne by done. rewrite Hworld. simpl.
      rewrite lookup_insert_ne by done. rewrite Hmodel.
      do 4 call_ok Hrel.
      reflexivity.
Qed.

(** ** Construction *)

(** The object that [__init__] has filled in when it reaches the checks of
    the start stage. *)
Lemma init_in_range (ns_ : string) (s : Z) (PATHS : gmap string string)
    (d : gmap Z Stage) (w : World) (world model : pyval) :
  is_Some (PATHS !! "curriculum") ->
  is_Some (PATHS !! "model") ->
  curriculum_file w = Some (YamlDict d) ->
  contiguous d ->
  is_Some (hyperparameters_json w) ->
  params w !! "world" = Some world ->
  params w !! "model" = Some model ->
  reliable (env w) ->
  1 <= s <= Z.of_nat (size d) ->
  exists w' : World,
    StagedRandomTask_init ns_ (IntArg s) PATHS blank_StagedRandomTask w =
      (Returned tt,
       {| staged_num_of_actors := default N_OBS_dynamic (params w !! "~actors");
          ns := ns_;
          ns_prefix := if String.eqb ns_ "" then "" else "/" +:+ ns_ +:+ "/";
          _curr_stage := s; _stages := d |},
       w').
Proof.
  intros [file_location Hfile] [model_dir Hdir] Hcur Hcont [j Hjson] Hworld Hmodel Hrel Hs.
  destruct (Hcont s Hs) as [st Hst].
  assert (s = 1 \/ d !! (s - 1) = Some (default st (d !! (s - 1)))) as Hbelow.
  { destruct (Z.eq_dec s 1) as [|Hne]; [by left|right].
    destruct (Hcont (s - 1) ltac:(lia)) as [b Hb]. by rewrite Hb. }
  unfold StagedRandomTask_init.
  unfold bind at 1, get_param_default at 1.
  unfold bind at 1, set_self at 1.
  unfold bind at 1, _read_stages_from_yaml at 1. rewrite Hfile.
  unfold bind at 1, get_world at 1.
  rewrite Hcur. unfold set_self at 1, set_stages.
  cbn [_curr_stage _stages ns ns_prefix staged_num_of_actors].
  unfold bind at 1, set_param at 1.
  unfold bind at 1, get_self at 1.
  unfold n_stages. cbn [_curr_stage _stages].
  destruct (Z.ltb_spec s 1) as [|_]; [lia|].
  destruct (Z.gtb_spec s (Z.of_nat (size d))) as [|_]; [lia|].
  cbn [orb].
  unfold bind at 1, set_param at 1. rewrite Hdir.
  unfold bind at 1, get_world at 1.
  cbn [hyperparameters_json with_params]. rewrite Hjson.
  erewrite initiate_stage_run with (st := st) (world := world) (model := model); eauto;
    try (simpl; by rewrite !lookup_insert_ne).
Qed.

(** A start stage outside [1, N] ends [__init__] with [IndexError]; this
    needs the curriculum file only. *)
Lemma init_out_of_range (ns_ : string) (s : Z) (PATHS : gmap string string)
    (d : gmap Z Stage) (w : World) :
  is_Some (PATHS !! "curriculum") ->
  curriculum_file w = Some (YamlDict d) ->
  ~ 1 <= s <= Z.of_nat (size d) ->
  exists msg,
    result (StagedRandomTask_init ns_ (IntArg s) PATHS blank_StagedRandomTask w)
      = Raised (IndexError msg).
Proof.
  intros [file_location Hfile] Hcur Hs.
  unfold StagedRandomTask_init.
  unfold bind at 1, get_param_default at 1.
  unfold bind at 1, set_self at 1.
  unfold bind at 1, _read_stages_from_yaml at 1. rewrite Hfile.
  unfold bind at 1, get_world at 1.
  rewrite Hcur. unfold set_self at 1, set_stages.
  cbn [_curr_stage _stages ns ns_prefix staged_num_of_actors].
  unfold bind at 1, set_param at 1.
  unfold bind at 1, get_self at 1.
  unfold n_stages. cbn [_curr_stage _stages].
  destruct (Z.ltb_spec s 1) as [|H1]; [by eexists|].
  destruct (Z.gtb_spec s (Z.of_nat (size d))) as [|H2]; [by eexists|].
  lia.
Qed.

(** An advance trigger at the last stage changes nothing. *)
Lemma next_stage_at_last (t : StagedRandomTask) (w : World) :
  _curr_stage t = n_stages t -> next_stage t w = (Returned tt, t, w).
Proof.
  intros Heq. unfold next_stage, bind, get_self. rewrite Heq.
  by rewrite Z.ltb_irrefl.
Qed.

(** A retreat trigger at the first stage changes nothing. *)
Lemma previous_stage_at_first (t : StagedRandomTask) (w : World) :
  _curr_stage t = 1 -> previous_stage t w = (Returned tt, t, w).
Proof. intros Heq. unfold previous_stage, bind, get_self. by rewrite Heq. Qed.

(** C2. With [PATHS] naming the curriculum file and the model directory,
    the curriculum file holding stages 1..N, the hyper-parameter file in
    place and surroundings that answer every call, [__init__] with the
    integer start stage [s] succeeds with [current_stage = s] when
    [1 <= s <= N] and raises [IndexError] otherwise.  From then on every
    sequence of triggers keeps [current_stage] within [1, N], whatever the
    surroundings do; an advance trigger at stage N and a retreat trigger at
    stage 1 leave the object and the world as they are, so that a
    last-stage-reached flag that is true stays true. *)
Theorem StagedRandomTask_stage_range (ns_ : string) (s : Z) (PATHS : gmap string string)
    (d : gmap Z Stage) (w : World) (world model : pyval) :
  is_Some (PATHS !! "curriculum") ->
  is_Some (PATHS !! "model") ->
  curriculum_file w = Some (YamlDict d) ->
  contiguous d ->
  is_Some (hyperparameters_json w) ->
  params w !! "world" = Some world ->
  params w !! "model" = Some model ->
  reliable (env w) ->
  let N := Z.of_nat (size d) in
  let r := StagedRandomTask_init ns_ (IntArg s) PATHS blank_StagedRandomTask w in
  (1 <= s <= N -> result r = Returned tt /\ _curr_stage (self_after r) = s) /\
  (~ 1 <= s <= N -> exists msg, result r = Raised (IndexError msg)) /\
  (1 <= s <= N ->
   forall (trs : list trigger) (w' : World),
     1 <= _curr_stage (deliver trs (self_after r) w').1 <= N) /\
  (forall (t : StagedRandomTask) (w' : World),
     _curr_stage t = n_stages t ->
     _curr_stage (self_after (next_stage t w')) = _curr_stage t /\
     world_after (next_stage t w') = w' /\
     (params w' !! "/last_stage_reached" = Some (VBool true) ->
      params (world_after (next_stage t w')) !! "/last_stage_reached" = Some (VBool true))) /\
  (forall (t : StagedRandomTask) (w' : World),
     _curr_stage t = 1 ->
     _curr_stage (self_after (previous_stage t w')) = _curr_stage t /\
     world_after (previous_stage t w') = w').
Proof.
  intros Hfile Hdir Hcur Hcont Hjson Hworld Hmodel Hrel N r.
  split; [|split; [|split; [|split]]].
  - intros Hs.
    destruct (init_in_range ns_ s PATHS d w world model) as [w1 Hinit]; auto.
    subst r. by rewrite Hinit.
  - intros Hs. exact (init_out_of_range ns_ s PATHS d w Hfile Hcur Hs).
  - intros Hs trs w'.
    destruct (init_in_range ns_ s PATHS d w world model) as [w1 Hinit]; auto.
    subst r. rewrite Hinit. cbn [self_after fst snd].
    match goal with |- context [deliver trs ?t w'] =>
      pose proof (deliver_in_range trs t w') as Hin;
      unfold in_range, n_stages in Hin; rewrite deliver_stages in Hin
    end.
    apply Hin. exact Hs.
  - intros t w' Heq. rewrite (next_stage_at_last t w' Heq). done.
  - intros t w' Heq. rewrite (previous_stage_at_first t w' Heq). done.
Qed.

(** ** Stage transitions *)

Lemma keeps_update_curr_stage_json {X} (f : StagedRandomTask -> World -> X) :
  (forall t w j, f t (with_json j w) = f t w) ->
  keeps f _update_curr_stage_json.
Proof.
  intros Hf t w. unfold _update_curr_stage_json, bind, get_self, get_world, raise,
    self_after, world_after.
  simpl. repeat case_match; simpl; auto.
Qed.

(** The calls of an advance trigger are those of [_initiate_stage] for the
    next stage. *)
Lemma next_stage_calls (t : StagedRandomTask) (w : World) :
  _curr_stage t < n_stages t ->
  calls (world_after (next_stage t w)) =
    calls (world_after (_initiate_stage (set_curr_stage (_curr_stage t + 1) t) w)).
Proof.
  intros Hlt. unfold next_stage. unfold bind at 1, get_self at 1.
  destruct (Z.ltb_spec (_curr_stage t) (n_stages t)) as [_|]; [|lia].
  unfold bind at 1, set_self at 1. unfold bind at 1.
  destruct (_initiate_stage _ w) as [[[u|e|] t1] w1]; [|done|done].
  pose proof (keeps_update_curr_stage_json (@the_calls StagedRandomTask)) as Hjson.
  match goal with |- calls (world_after (?m t1 w1)) = _ =>
    assert (keeps the_calls m) as Hk by (keeps; by apply Hjson); apply (Hk t1 w1)
  end.
Qed.

(** The calls of a retreat trigger are those of [_initiate_stage] for the
    stage before. *)
Lemma previous_stage_calls (t : StagedRandomTask) (w : World) :
  1 < _curr_stage t ->
  calls (world_after (previous_stage t w)) =
    calls (world_after
             (_initiate_stage (set_curr_stage (_curr_stage t - 1) t)
                (with_params (insert "/last_stage_reached" (VBool false)) w))).
Proof.
  intros Hlt. unfold previous_stage. unfold bind at 1, get_self at 1.
  destruct (Z.gtb_spec (_curr_stage t) 1) as [_|]; [|lia].
  unfold bind at 1, set_param at 1. unfold bind at 1, set_self at 1. unfold bind at 1.
  destruct (_initiate_stage _ _) as [[[u|e|] t1] w1]; [|done|done].
  pose proof (keeps_update_curr_stage_json (@the_calls StagedRandomTask)) as Hjson.
  match goal with |- calls (world_after (?m t1 w1)) = _ =>
    assert (keeps the_calls m) as Hk by (keeps; by apply Hjson); apply (Hk t1 w1)
  end.
Qed.

Lemma calls_after_calls (cs : list call) (w : World) :
  calls (after_calls cs w) = (calls w ++ cs)%list.
Proof.
  revert w. induction cs as [|c cs IH]; intros w; simpl.
  - by rewrite app_nil_r.
  - unfold after_calls in IH. rewrite IH. simpl. by rewrite <- app_assoc.
Qed.

(** X4. An advance trigger compares the target stage with the stage that was
    current: the simulator is restarted exactly when their dynamic counts
    differ; otherwise the obstacles are placed in the running world. *)
Lemma next_stage_restart (t : StagedRandomTask) (w : World) (previous target : Stage)
    (world model : pyval) :
  reliable (env w) ->
  params w !! "world" = Some world ->
  params w !! "model" = Some model ->
  1 <= _curr_stage t < n_stages t ->
  _stages t !! _curr_stage t = Some previous ->
  _stages t !! (_curr_stage t + 1) = Some target ->
  calls (world_after (next_stage t w)) =
    (calls w ++ RemoveAllObstacles ::
       (if negb (dynamic target =? dynamic previous)
        then restart_sequence world model
        else [RegisterRandomDynamicObstacles (VInt (dynamic target)) None]))%list.
Proof.
  intros Hrel Hworld Hmodel Hs Hprev Htarget.
  rewrite next_stage_calls by lia.
  rewrite (initiate_stage_run _ w target previous world model); auto.
  - unfold population_change, world_after. cbn [snd _curr_stage set_curr_stage].
    destruct (Z.eqb_spec (_curr_stage t + 1) 1) as [|_]; [lia|]. cbn [orb].
    destruct (negb _).
    + unfold restarted_world. rewrite calls_after_calls. simpl.
      by rewrite <- app_assoc.
    + unfold live_world. by rewrite calls_after_calls.
  - right. cbn [_curr_stage set_curr_stage _stages].
    by replace (_curr_stage t + 1 - 1) with (_curr_stage t) by lia.
Qed.

(** X5. On a retreat trigger [_initiate_stage] compares the target stage with
    the stage one index below the target, not with the stage that was
    current. *)
Lemma previous_stage_restart (t : StagedRandomTask) (w : World) (target below : Stage)
    (world model : pyval) :
  reliable (env w) ->
  params w !! "world" = Some world ->
  params w !! "model" = Some model ->
  1 < _curr_stage t ->
  _stages t !! (_curr_stage t - 1) = Some target ->
  (_curr_stage t - 1 = 1 \/ _stages t !! (_curr_stage t - 2) = Some below) ->
  calls (world_after (previous_stage t w)) =
    (calls w ++ RemoveAllObstacles ::
       (if population_change (_curr_stage t - 1) target below
        then restart_sequence world model
        else [RegisterRandomDynamicObstacles (VInt (dynamic target)) None]))%list.
Proof.
  intros Hrel Hworld Hmodel Hs Htarget Hbelow.
  rewrite previous_stage_calls by lia.
  rewrite (initiate_stage_run _ _ target below world model); auto.
  - unfold world_after. cbn [snd _curr_stage set_curr_stage].
    destruct (population_change _ _ _).
    + unfold restarted_world. rewrite calls_after_calls. simpl.
      by rewrite <- app_assoc.
    + unfold live_world. by rewrite calls_after_calls.
  - simpl. by rewrite lookup_insert_ne.
  - simpl. by rewrite lookup_insert_ne.
  - cbn [_curr_stage set_curr_stage _stages].
    destruct Hbelow as [|Hb]; [by left|right].
    by replace (_curr_stage t - 1 - 1) with (_curr_stage t - 2) by lia.
Qed.

(** C1. The restart test of a retreat does not look at the stage that was
    current.  Retreating from stage 3 to stage 2 of a curriculum with the
    dynamic counts 0, 3, 3 restarts the simulator although the count stays
    3; with the counts 3, 3, 6 the count falls from 6 to 3 and the
    simulator is not restarted: three obstacles are placed in the running
    world. *)
Theorem previous_stage_restart_mismatch :
  dynamic <$> curriculum_0_3_3 !! 3 = Some 3 /\
  dynamic <$> curriculum_0_3_3 !! 2 = Some 3 /\
  calls (world_after (previous_stage (staged_at "eval_sim" curriculum_0_3_3 3)
                        (last_stage_world curriculum_0_3_3 calm))) =
    RemoveAllObstacles :: restart_sequence (VStr "small_warehouse") (VStr "burger") /\
  dynamic <$> curriculum_3_3_6 !! 3 = Some 6 /\
  dynamic <$> curriculum_3_3_6 !! 2 = Some 3 /\
  calls (world_after (previous_stage (staged_at "eval_sim" curriculum_3_3_6 3)
                        (last_stage_world curriculum_3_3_6 calm))) =
    [RemoveAllObstacles; RegisterRandomDynamicObstacles (VInt 3) None].
Proof. repeat split; reflexivity. Qed.

(** ** Who writes the shared curriculum state *)

(** An instance that is not the authority does, on an advance trigger,
    what [_initiate_stage] does. *)
Lemma next_stage_follower (t : StagedRandomTask) (w : World) :
  String.eqb (ns t) "eval_sim" = false ->
  _curr_stage t < n_stages t ->
  next_stage t w = _initiate_stage (set_curr_stage (_curr_stage t + 1) t) w.
Proof.
  intros Hns Hlt. unfold next_stage. unfold bind at 1, get_self at 1.
  destruct (Z.ltb_spec (_curr_stage t) (n_stages t)) as [_|]; [|lia].
  unfold bind at 1, set_self at 1. unfold bind at 1.
  pose proof (keeps_self_initiate_stage (set_curr_stage (_curr_stage t + 1) t) w) as Hself.
  destruct (_initiate_stage _ w) as [[[[]|e|] t1] w1]; [|done|done].
  unfold the_self, self_after in Hself. simpl in Hself. subst t1.
  unfold bind, get_self. simpl. by rewrite Hns.
Qed.

(** On a retreat trigger it first clears the last-stage-reached flag. *)
Lemma previous_stage_follower (t : StagedRandomTask) (w : World) :
  String.eqb (ns t) "eval_sim" = false ->
  1 < _curr_stage t ->
  previous_stage t w =
    _initiate_stage (set_curr_stage (_curr_stage t - 1) t)
      (with_params (insert "/last_stage_reached" (VBool false)) w).
Proof.
  intros Hns Hlt. unfold previous_stage. unfold bind at 1, get_self at 1.
  destruct (Z.gtb_spec (_curr_stage t) 1) as [_|]; [|lia].
  unfold bind at 1, set_param at 1. unfold bind at 1, set_self at 1. unfold bind at 1.
  match goal with |- context [_initiate_stage ?t1 ?w1] =>
    pose proof (keeps_self_initiate_stage t1 w1) as Hself;
    destruct (_initiate_stage t1 w1) as [[[[]|e|] t2] w2]; [|done|done]
  end.
  unfold the_self, self_after in Hself. simpl in Hself. subst t2.
  unfold bind, get_self. simpl. by rewrite Hns.
Qed.

(** [_initiate_stage] leaves the hyper-parameter file alone, and every
    parameter but ["actors"]. *)
Lemma initiate_stage_json (t : StagedRandomTask) (w : World) :
  hyperparameters_json (world_after (_initiate_stage t w)) = hyperparameters_json w.
Proof. by apply (keeps_initiate_stage the_json). Qed.

Lemma initiate_stage_param (key : string) (t : StagedRandomTask) (w : World) :
  key <> "actors" ->
  params (world_after (_initiate_stage t w)) !! key = params w !! key.
Proof.
  intros Hkey. apply (keeps_initiate_stage (the_param key)); [done|].
  intros; unfold the_param; simpl. by rewrite lookup_insert_ne.
Qed.

(** No trigger makes an instance that is not the authority write the
    persisted [curr_stage] record or the [/curr_stage] parameter. *)
Lemma follower_keeps_curr_stage (tr : trigger) (t : StagedRandomTask) (w : World) :
  String.eqb (ns t) "eval_sim" = false ->
  hyperparameters_json (world_after (handle tr t w)) = hyperparameters_json w /\
  params (world_after (handle tr t w)) !! "/curr_stage" = params w !! "/curr_stage".
Proof.
  intros Hns. destruct tr; simpl.
  - destruct (Z.lt_ge_cases (_curr_stage t) (n_stages t)) as [Hlt|Hge].
    + rewrite next_stage_follower by done.
      by rewrite initiate_stage_json, initiate_stage_param.
    + unfold next_stage, bind, get_self.
      by destruct (Z.ltb_spec (_curr_stage t) (n_stages t)) as [|_]; [lia|].
  - destruct (Z.lt_ge_cases 1 (_curr_stage t)) as [Hlt|Hge].
    + rewrite previous_stage_follower by done.
      rewrite initiate_stage_json, initiate_stage_param by done.
      simpl. by rewrite lookup_insert_ne.
    + unfold previous_stage, bind, get_self.
      by destruct (Z.gtb_spec (_curr_stage t) 1) as [|_]; [lia|].
Qed.

(** An advance trigger does not make it write the last-stage-reached flag
    either. *)
Lemma follower_advance_keeps_flag (t : StagedRandomTask) (w : World) :
  String.eqb (ns t) "eval_sim" = false ->
  params (world_after (next_stage t w)) !! "/last_stage_reached"
    = params w !! "/last_stage_reached".
Proof.
  intros Hns.
  destruct (Z.lt_ge_cases (_curr_stage t) (n_stages t)) as [Hlt|Hge].
  - rewrite next_stage_follower by done. by rewrite initiate_stage_param.
  - unfold next_stage, bind, get_self.
    by destruct (Z.ltb_spec (_curr_stage t) (n_stages t)) as [|_]; [lia|].
Qed.

(** X7. A retreat trigger above stage 1 makes every instance clear the flag,
    the authority or not, whatever the surroundings do. *)
Lemma retreat_clears_flag (t : StagedRandomTask) (w : World) :
  1 < _curr_stage t ->
  params (world_after (previous_stage t w)) !! "/last_stage_reached" = Some (VBool false).
Proof.
  intros Hlt. unfold previous_stage. unfold bind at 1, get_self at 1.
  destruct (Z.gtb_spec (_curr_stage t) 1) as [_|]; [|lia].
  unfold bind at 1, set_param at 1.
  pose proof (keeps_update_curr_stage_json
                (@the_param StagedRandomTask "/last_stage_reached")) as Hjson.
  assert (keeps (the_param "/last_stage_reached")
            (@_initiate_stage)) as Hini.
  { apply keeps_initiate_stage; [done|].
    intros; unfold the_param; simpl. by rewrite lookup_insert_ne. }
  match goal with |- params (world_after (?m ?t1 ?w1)) !! _ = _ =>
    assert (keeps (the_param "/last_stage_reached") m) as Hk
  end.
  { apply keeps_bind; [done|intros ?]. keeps. by apply Hjson. }
  unfold keeps, the_param in Hk. rewrite Hk. simpl. by rewrite lookup_insert_eq.
Qed.

(** X8. On a retreat from a stage above 1 the authority clears the flag and
    persists the new stage, when the surroundings answer every call and the
    hyper-parameter file holds a dictionary. *)
Lemma authority_retreat_persists (t : StagedRandomTask) (w : World) (target below : Stage)
    (world model : pyval) (hyperparams : gmap string pyval) :
  ns t = "eval_sim" ->
  reliable (env w) ->
  params w !! "world" = Some world ->
  params w !! "model" = Some model ->
  hyperparameters_json w = Some (JsonDict hyperparams) ->
  1 < _curr_stage t ->
  _stages t !! (_curr_stage t - 1) = Some target ->
  (_curr_stage t - 1 = 1 \/ _stages t !! (_curr_stage t - 2) = Some below) ->
  let r := previous_stage t w in
  result r = Returned tt /\
  params (world_after r) !! "/last_stage_reached" = Some (VBool false) /\
  params (world_after r) !! "/curr_stage" = Some (VInt (_curr_stage t - 1)) /\
  hyperparameters_json (world_after r) =
    Some (JsonDict (<["curr_stage" := VInt (_curr_stage t - 1)]> hyperparams)).
Proof.
  intros Hns Hrel Hworld Hmodel Hjson Hs Htarget Hbelow r.
  assert (r = (Returned tt, set_curr_stage (_curr_stage t - 1) t,
               with_json (Some (JsonDict (<["curr_stage" := VInt (_curr_stage t - 1)]> hyperparams)))
                 (with_params (insert "/curr_stage" (VInt (_curr_stage t - 1)))
                    (if population_change (_curr_stage t - 1) target below
                     then restarted_world (dynamic target) world model
                            (with_params (insert "/last_stage_reached" (VBool false)) w)
                     else live_world (dynamic target)
                            (with_params (insert "/last_stage_reached" (VBool false)) w)))))
    as Hr.
  { subst r. unfold previous_stage. unfold bind at 1, get_self at 1.
    destruct (Z.gtb_spec (_curr_stage t) 1) as [_|]; [|lia].
    unfold bind at 1, set_param at 1. unfold bind at 1, set_self at 1. unfold bind at 1.
    rewrite (initiate_stage_run _ _ target below world model); auto.
    - cbn [_curr_stage set_curr_stage].
      unfold bind, get_self, set_param, _update_curr_stage_json, get_world, bind, get_self.
      cbn [ns set_curr_stage]. rewrite Hns. simpl.
      by destruct (population_change _ _ _); simpl; rewrite Hjson.
    - simpl. by rewrite lookup_insert_ne.
    - simpl. by rewrite lookup_insert_ne.
    - cbn [_curr_stage set_curr_stage _stages].
      destruct Hbelow as [|Hb]; [by left|right].
      by replace (_curr_stage t - 1 - 1) with (_curr_stage t - 2) by lia. }
  rewrite Hr. unfold result, world_after. cbn [fst snd].
  split; [done|].
  destruct (population_change _ _ _); simpl;
    rewrite lookup_insert_eq; (split; [|done]);
    rewrite lookup_insert_ne by done; try rewrite lookup_insert_ne by done;
    by rewrite lookup_insert_eq.
Qed.

(** C7. An instance that is not the authority writes the shared
    last-stage-reached flag: handling a retreat trigger at stage 3 of 3 in
    the namespace sim_1, it sets the flag from true to false, while it
    leaves the [/curr_stage] parameter and the persisted record at 3. *)
Theorem follower_retreat_clears_flag :
  let t := staged_at "sim_1" curriculum_3_3_6 3 in
  let w := last_stage_world curriculum_3_3_6 calm in
  let r := previous_stage t w in
  String.eqb (ns t) "eval_sim" = false /\
  params w !! "/last_stage_reached" = Some (VBool true) /\
  result r = Returned tt /\
  _curr_stage (self_after r) = 2 /\
  params (world_after r) !! "/last_stage_reached" = Some (VBool false) /\
  params (world_after r) !! "/curr_stage" = Some (VInt 3) /\
  hyperparameters_json (world_after r) = hyperparameters_json w.
Proof. cbv zeta. repeat split; vm_compute; reflexivity. Qed.

(** * ScenarioTask: the repeat counter *)

(** Every call of [reset] counts, however it ends. *)
Lemma ScenarioTask_reset_count (t : ScenarioTask) (w : World) :
  reset_count (self_after (ScenarioTask_reset t w)) = reset_count t + 1.
Proof.
  unfold ScenarioTask_reset. unfold bind at 1, set_self at 1.
  match goal with |- reset_count (self_after (?m ?t1 ?w1)) = _ =>
    assert (keeps the_self m) as Hk; [|apply (f_equal reset_count (Hk t1 w1))]
  end.
  intros t1 w1. unfold with_lock, the_self, self_after.
  destruct (map_lock w1); [done|].
  match goal with |- context [?m t1 (with_map_lock true w1)] =>
    assert (keeps the_self m) as Hk by keeps;
    specialize (Hk t1 (with_map_lock true w1));
    destruct (m t1 (with_map_lock true w1)) as [[[?|?|] ?] ?]
  end; exact Hk.
Qed.

Lemma after_resets_count (n : nat) (t : ScenarioTask) (w : World) :
  reset_count (after_resets n t w).1 = reset_count t + Z.of_nat n.
Proof.
  revert t w. induction n as [|n IH]; intros t w.
  - simpl. lia.
  - cbn [after_resets]. rewrite IH, ScenarioTask_reset_count. lia.
Qed.

(** The info record of a call that returns. *)
Lemma ScenarioTask_reset_info (t : ScenarioTask) (w : World) (info : gmap string pyval) :
  result (ScenarioTask_reset t w) = Returned info ->
  info !! "new_scenerio_loaded" = Some (VBool (reset_count t + 1 =? 1)) /\
  info !! "num_repeats_curr_scene" = Some (VInt (reset_count t + 1)) /\
  info !! "max_repeats_curr_scene" = Some (VInt 1000) /\
  info !! "robot_goal_pos" =
    Some (VArr [fst (robotGoal (scenario t)); snd (robotGoal (scenario t))]).
Proof.
  unfold ScenarioTask_reset, with_lock, bind, set_self, get_self, invoke, ret, result.
  simpl. intros Hret.
  repeat (case_match; simplify_eq/=); done.
Qed.

(** [reset] keeps the surroundings, and gives the lock back. *)
Lemma ScenarioTask_reset_world (t : ScenarioTask) (w : World) :
  map_lock w = false ->
  env (world_after (ScenarioTask_reset t w)) = env w /\
  (result (ScenarioTask_reset t w) <> Blocked ->
   map_lock (world_after (ScenarioTask_reset t w)) = false).
Proof.
  intros Hfree.
  unfold ScenarioTask_reset, with_lock, bind, set_self, get_self, invoke, ret,
    result, world_after.
  simpl. rewrite Hfree.
  repeat (case_match; simplify_eq/=); done.
Qed.

(** With surroundings that answer every call and the lock free, [reset]
    returns. *)
Lemma ScenarioTask_reset_returns (t : ScenarioTask) (w : World) :
  map_lock w = false ->
  reliable (env w) ->
  exists info, result (ScenarioTask_reset t w) = Returned info.
Proof.
  intros Hfree Hrel.
  unfold ScenarioTask_reset, with_lock, bind, set_self, get_self, ret, result.
  simpl. rewrite Hfree.
  destruct (pedsim_manager t).
  - call_ok Hrel. call_ok Hrel. by eexists.
  - unfold ret. call_ok Hrel. by eexists.
Qed.

Lemma after_resets_world (n : nat) (t : ScenarioTask) (w : World) :
  map_lock w = false ->
  reliable (env w) ->
  map_lock (after_resets n t w).2 = false /\ env (after_resets n t w).2 = env w.
Proof.
  revert t w. induction n as [|n IH]; intros t w Hfree Hrel; [done|].
  cbn [after_resets].
  destruct (ScenarioTask_reset_world t w Hfree) as [Henv Hlock].
  destruct (ScenarioTask_reset_returns t w Hfree Hrel) as [info Hinfo].
  destruct (IH (self_after (ScenarioTask_reset t w)) (world_after (ScenarioTask_reset t w)))
    as [IH1 IH2].
  - apply Hlock. by rewrite Hinfo.
  - by rewrite Henv.
  - split; [done|]. by rewrite IH2.
Qed.

(** [__init__] leaves the counter at zero. *)
Lemma ScenarioTask_init_count (scenario_path : string) (t : ScenarioTask) (w : World) :
  result (ScenarioTask_init scenario_path t w) = Returned tt ->
  reset_count (self_after (ScenarioTask_init scenario_path t w)) = 0.
Proof.
  unfold ScenarioTask_init, bind, set_self, invoke, ret, result, self_after.
  simpl. intros Hret.
  repeat (case_match; simplify_eq/=); done.
Qed.

(** C8. Take a scenario task whose counter is zero, as [__init__] leaves
    it.  The [n]-th call of [reset], if it returns, reports
    new-scenario-loaded as true for [n = 1] and as false for every
    [n >= 2], with the repeat counter [n], however the calls before it
    ended; and it does return when the lock is free and the surroundings
    answer every call. *)
Theorem ScenarioTask_reset_reports (n : nat) (t0 : ScenarioTask) (w0 : World) :
  reset_count t0 = 0 ->
  (1 <= n)%nat ->
  let t := (after_resets (n - 1) t0 w0).1 in
  let w := (after_resets (n - 1) t0 w0).2 in
  (forall info,
     result (ScenarioTask_reset t w) = Returned info ->
     info !! "new_scenerio_loaded" = Some (VBool (bool_decide (n = 1%nat))) /\
     info !! "num_repeats_curr_scene" = Some (VInt (Z.of_nat n))) /\
  (map_lock w0 = false -> reliable (env w0) ->
   exists info, result (ScenarioTask_reset t w) = Returned info).
Proof.
  intros Hzero Hn t w. split.
  - intros info Hret.
    destruct (ScenarioTask_reset_info t w info Hret) as (Hnew & Hrep & _).
    subst t. rewrite after_resets_count, Hzero in Hnew, Hrep.
    replace (0 + Z.of_nat (n - 1) + 1) with (Z.of_nat n) in Hnew, Hrep by lia.
    split; [|done]. rewrite Hnew. do 2 f_equal.
    case_bool_decide as Hd.
    + subst n. done.
    + apply Z.eqb_neq. lia.
  - intros Hfree Hrel.
    destruct (after_resets_world (n - 1) t0 w0 Hfree Hrel) as [Hlock Henv].
    apply ScenarioTask_reset_returns; [done|]. subst w. by rewrite Henv.
Qed.

(** * The factory *)

(** C5 (amended). For a mode tag outside random, staged, scenario and
    manual the factory builds no task: it never returns one, it raises only
    what a call that builds a collaborator raises, and when these calls are
    answered it returns [None], having done nothing but built the
    collaborators. *)
Theorem get_predefined_task_unknown_mode (ns_ mode : string) (start_stage : start_arg)
    (PATHS : gmap string string) (w : World) :
  mode <> "random" -> mode <> "staged" -> mode <> "scenario" -> mode <> "manual" ->
  let r := get_predefined_task ns_ mode start_stage PATHS tt w in
  (forall task, result r <> Returned (Some task)) /\
  (forall e, result r = Raised e ->
     exists k c, env w k c = inl e /\ exists map_, c ∈ build_collaborators map_) /\
  (reliable (env w) ->
   exists map_, r = (Returned None, tt, after_calls (build_collaborators map_) w)).
Proof.
  intros Hr Hst Hsc Hm r.
  assert (forall a b : string, a <> b -> String.eqb a b = false) as Hneq
    by (intros a b Hab; by apply String.eqb_neq).
  subst r. unfold get_predefined_task.
  rewrite (Hneq _ _ Hr), (Hneq _ _ Hst), (Hneq _ _ Hsc), (Hneq _ _ Hm).
  unfold bind, invoke, ret, result. simpl.
  destruct (env w (length (calls w)) GetStaticMap) as [e0|map_] eqn:H0; simpl.
  { split; [done|]. split.
    - intros e [= <-]. exists (length (calls w)), GetStaticMap. split; [done|].
      exists 0%nat. set_solver.
    - intros Hrel. destruct (Hrel (length (calls w)) GetStaticMap) as [a Ha]. congruence. }
  destruct (env w (length (calls w ++ [GetStaticMap])) (NewRobotManager map_))
    as [e1|[]] eqn:H1; simpl.
  { split; [done|]. split.
    - intros e [= <-]. eexists _, (NewRobotManager map_). split; [done|].
      exists map_. set_solver.
    - intros Hrel. destruct (Hrel (length (calls w ++ [GetStaticMap])) (NewRobotManager map_))
        as [a Ha]. congruence. }
  destruct (env w (length ((calls w ++ [GetStaticMap]) ++ [NewRobotManager map_]))
              (NewObstaclesManager map_)) as [e2|[]] eqn:H2; simpl.
  { split; [done|]. split.
    - intros e [= <-]. eexists _, (NewObstaclesManager map_). split; [done|].
      exists map_. set_solver.
    - intros Hrel.
      destruct (Hrel (length ((calls w ++ [GetStaticMap]) ++ [NewRobotManager map_]))
                  (NewObstaclesManager map_)) as [a Ha]. congruence. }
  destruct (env w (length (((calls w ++ [GetStaticMap]) ++ [NewRobotManager map_])
                             ++ [NewObstaclesManager map_])) NewPedsimManager)
    as [e3|[]] eqn:H3; simpl.
  { split; [done|]. split.
    - intros e [= <-]. eexists _, NewPedsimManager. split; [done|].
      exists map_. set_solver.
    - intros Hrel.
      destruct (Hrel (length (((calls w ++ [GetStaticMap]) ++ [NewRobotManager map_])
                                ++ [NewObstaclesManager map_])) NewPedsimManager)
        as [a Ha]. congruence. }
  split; [done|]. split; [done|].
  intros _. by exists map_.
Qed.

(** A known mode tag gives a task of the matching variant when the
    surroundings answer every call; here for the manual one. *)
Lemma get_predefined_task_manual (ns_ : string) (start_stage : start_arg)
    (PATHS : gmap string string) (w : World) :
  reliable (env w) ->
  exists t, result (get_predefined_task ns_ "manual" start_stage PATHS tt w)
              = Returned (Some (TaskManual t)).
Proof.
  intros Hrel. unfold get_predefined_task, bind, ret, result. simpl.
  do 4 call_ok Hrel.
  unfold construct, ManualTask_init, bind, get_param_default, set_self, set_param, ret.
  simpl. by eexists.
Qed.

(** * ManualTask: more on one round of [reset] *)

Section ManualRound.

(** Use the answer [H] of the surroundings to the call that is next. *)
Ltac answer_with H :=
  simpl in H; try unfold invoke; simpl; rewrite ?length_app; simpl;
  rewrite ?Nat.add_1_r; rewrite H; simpl.

(** A round in which no goal arrives within the window: the time-out
    exception is raised after the obstacles were replaced and the wait was
    made; no publisher is called, the flag stays clear and the lock is
    free again. *)
Theorem ManualTask_round_timeout_effects (t : ManualTask) (w : World) (start_pos : Pose) :
  let k := length (calls w) in
  let register :=
    RegisterRandomDynamicObstacles (manual_num_of_actors t) (Some [zone_of start_pos]) in
  map_lock w = false ->
  _new_goal_received t = false ->
  env w k RemoveAllObstacles = inr tt ->
  env w (1 + k)%nat SetStartPosRandom = inr start_pos ->
  env w (2 + k)%nat register = inr tt ->
  env w (3 + k)%nat (WaitForGoal 60) = inr None ->
  ManualTask_reset_round t w =
    (Raised (PlainException "TimeOut, User does't provide goal position!"), t,
     with_map_lock false
       (after_calls [RemoveAllObstacles; SetStartPosRandom; register; WaitForGoal 60] w)).
Proof.
  intros k register Hfree Hflag H0 H1 H2 H3. subst k register.
  unfold ManualTask_reset_round, with_lock. rewrite Hfree.
  unfold bind, invoke, get_self, wait_for_goal, is_True, try_except, set_self,
    _set_goal_callback, ret, raise, bind, get_self; simpl.
  answer_with H0. answer_with H1. answer_with H2. rewrite Hflag.
  answer_with H3. rewrite Hflag. simpl.
  unfold after_calls, with_call, with_map_lock. simpl. reflexivity.
Qed.

(** X2. A goal that the callback stored before the round began is used
    without waiting: the round makes no wait, hands the stored goal to both
    publishers and clears the flag. *)
Theorem ManualTask_round_early_goal (t : ManualTask) (w : World) (start_pos : Pose)
    (goal : PoseStamped) :
  let k := length (calls w) in
  let register :=
    RegisterRandomDynamicObstacles (manual_num_of_actors t) (Some [zone_of start_pos]) in
  let t1 := self_after (_set_goal_callback goal t w) in
  map_lock w = false ->
  env w k RemoveAllObstacles = inr tt ->
  env w (1 + k)%nat SetStartPosRandom = inr start_pos ->
  env w (2 + k)%nat register = inr tt ->
  env w (3 + k)%nat (GoalPubPublish goal) = inr tt ->
  env w (4 + k)%nat (PubMvbGoalPublish goal) = inr tt ->
  ManualTask_reset_round t1 w =
    (Returned tt,
     {| manual_num_of_actors := manual_num_of_actors t; _goal := goal;
        _new_goal_received := false |},
     with_map_lock false
       (after_calls [RemoveAllObstacles; SetStartPosRandom; register;
                     GoalPubPublish goal; PubMvbGoalPublish goal] w)).
Proof.
  intros k register t1 Hfree H0 H1 H2 H3 H4. subst k register t1.
  unfold ManualTask_reset_round, with_lock. rewrite Hfree.
  unfold bind, invoke, get_self, wait_for_goal, is_True, try_except, set_self,
    _set_goal_callback, ret, raise, bind, get_self, self_after; simpl.
  answer_with H0. answer_with H1. answer_with H2.
  answer_with H3. answer_with H4.
  unfold after_calls, with_call, with_map_lock. simpl. reflexivity.
Qed.

(** X3. An exception of the first publisher is swallowed: the round still
    returns normally with the flag cleared, and the second publisher is not
    called. *)
Theorem ManualTask_round_publish_failure (t : ManualTask) (w : World) (start_pos : Pose)
    (goal : PoseStamped) (e : exn) :
  let k := length (calls w) in
  let register :=
    RegisterRandomDynamicObstacles (manual_num_of_actors t) (Some [zone_of start_pos]) in
  map_lock w = false ->
  _new_goal_received t = false ->
  env w k RemoveAllObstacles = inr tt ->
  env w (1 + k)%nat SetStartPosRandom = inr start_pos ->
  env w (2 + k)%nat register = inr tt ->
  env w (3 + k)%nat (WaitForGoal 60) = inr (Some goal) ->
  env w (4 + k)%nat (GoalPubPublish goal) = inl e ->
  ManualTask_reset_round t w =
    (Returned tt,
     {| manual_num_of_actors := manual_num_of_actors t; _goal := goal;
        _new_goal_received := false |},
     with_map_lock false
       (after_calls [RemoveAllObstacles; SetStartPosRandom; register; WaitForGoal 60;
                     GoalPubPublish goal] w)).
Proof.
  intros k register Hfree Hflag H0 H1 H2 H3 H4. subst k register.
  unfold ManualTask_reset_round, with_lock. rewrite Hfree.
  unfold bind, invoke, get_self, wait_for_goal, is_True, try_except, set_self,
    _set_goal_callback, ret, raise, bind, get_self; simpl.
  answer_with H0. answer_with H1. answer_with H2. rewrite Hflag.
  answer_with H3. answer_with H4.
  unfold after_calls, with_call, with_map_lock. simpl. reflexivity.
Qed.

End ManualRound.

(** * StagedRandomTask: persistence and failures *)

Lemma env_after_calls (cs : list call) (w : World) : env (after_calls cs w) = env w.
Proof. revert w. induction cs as [|c cs IH]; intros w; [done|]. simpl. by rewrite IH. Qed.

Lemma params_after_calls (cs : list call) (w : World) :
  params (after_calls cs w) = params w.
Proof. revert w. induction cs as [|c cs IH]; intros w; [done|]. simpl. by rewrite IH. Qed.

Lemma json_after_calls (cs : list call) (w : World) :
  hyperparameters_json (after_calls cs w) = hyperparameters_json w.
Proof. revert w. induction cs as [|c cs IH]; intros w; [done|]. simpl. by rewrite IH. Qed.

Lemma initiated_world_env curr_stage st below world model w :
  env (initiated_world curr_stage st below world model w) = env w.
Proof.
  unfold initiated_world, restarted_world, live_world.
  destruct (population_change _ _ _); by rewrite env_after_calls.
Qed.

Lemma initiated_world_json curr_stage st below world model w :
  hyperparameters_json (initiated_world curr_stage st below world model w)
    = hyperparameters_json w.
Proof.
  unfold initiated_world, restarted_world, live_world.
  destruct (population_change _ _ _); by rewrite json_after_calls.
Qed.

Lemma initiated_world_param curr_stage st below world model w key :
  key <> "actors" ->
  params (initiated_world curr_stage st below world model w) !! key = params w !! key.
Proof.
  intros Hkey. unfold initiated_world, restarted_world, live_world.
  destruct (population_change _ _ _); rewrite params_after_calls; [|done].
  simpl. by rewrite lookup_insert_ne.
Qed.

(** An advance trigger handled by the authority, every call answered. *)
Lemma next_stage_authority_run (t : StagedRandomTask) (w : World) (target below : Stage)
    (world model : pyval) (hyperparams : gmap string pyval) :
  ns t = "eval_sim" ->
  reliable (env w) ->
  params w !! "world" = Some world ->
  params w !! "model" = Some model ->
  hyperparameters_json w = Some (JsonDict hyperparams) ->
  _curr_stage t < n_stages t ->
  _stages t !! (_curr_stage t + 1) = Some target ->
  (_curr_stage t + 1 = 1 \/ _stages t !! _curr_stage t = Some below) ->
  next_stage t w =
    (Returned tt, set_curr_stage (_curr_stage t + 1) t,
     let w1 :=
       with_json (Some (JsonDict (<["curr_stage" := VInt (_curr_stage t + 1)]> hyperparams)))
         (with_params (insert "/curr_stage" (VInt (_curr_stage t + 1)))
            (initiated_world (_curr_stage t + 1) target below world model w)) in
     if _curr_stage t + 1 =? n_stages t
     then with_params (insert "/last_stage_reached" (VBool true)) w1
     else w1).
Proof.
  intros Hns Hrel Hworld Hmodel Hjson Hlt Htarget Hbelow.
  unfold next_stage. unfold bind at 1, get_self at 1.
  destruct (Z.ltb_spec (_curr_stage t) (n_stages t)) as [_|]; [|lia].
  unfold bind at 1, set_self at 1. unfold bind at 1.
  rewrite (initiate_stage_run _ _ target below world model); auto.
  - cbn [_curr_stage set_curr_stage]. fold (initiated_world (_curr_stage t + 1) target below world model w).
    unfold bind, get_self, set_param, _update_curr_stage_json, get_world, bind, get_self.
    cbn [ns set_curr_stage]. rewrite Hns. simpl.
    rewrite initiated_world_json, Hjson. simpl.
    unfold n_stages. cbn [_stages].
    by destruct (_ =? _).
  - cbn [_curr_stage set_curr_stage _stages].
    destruct Hbelow as [|Hb]; [by left|right].
    by replace (_curr_stage t + 1 - 1) with (_curr_stage t) by lia.
Qed.

(** A retreat trigger handled by the authority, every call answered. *)
Lemma previous_stage_authority_run (t : StagedRandomTask) (w : World) (target below : Stage)
    (world model : pyval) (hyperparams : gmap string pyval) :
  ns t = "eval_sim" ->
  reliable (env w) ->
  params w !! "world" = Some world ->
  params w !! "model" = Some model ->
  hyperparameters_json w = Some (JsonDict hyperparams) ->
  1 < _curr_stage t ->
  _stages t !! (_curr_stage t - 1) = Some target ->
  (_curr_stage t - 1 = 1 \/ _stages t !! (_curr_stage t - 2) = Some below) ->
  previous_stage t w =
    (Returned tt, set_curr_stage (_curr_stage t - 1) t,
     with_json (Some (JsonDict (<["curr_stage" := VInt (_curr_stage t - 1)]> hyperparams)))
       (with_params (insert "/curr_stage" (VInt (_curr_stage t - 1)))
          (initiated_world (_curr_stage t - 1) target below world model
             (with_params (insert "/last_stage_reached" (VBool false)) w)))).
Proof.
  intros Hns Hrel Hworld Hmodel Hjson Hlt Htarget Hbelow.
  unfold previous_stage. unfold bind at 1, get_self at 1.
  destruct (Z.gtb_spec (_curr_stage t) 1) as [_|]; [|lia].
  unfold bind at 1, set_param at 1. unfold bind at 1, set_self at 1. unfold bind at 1.
  rewrite (initiate_stage_run _ _ target below world model); auto.
  - cbn [_curr_stage set_curr_stage].
    match goal with |- context [if population_change ?c ?s ?b then _ else _] =>
      fold (initiated_world c s b world model
              (with_params (insert "/last_stage_reached" (VBool false)) w))
    end.
    unfold bind, get_self, set_param, _update_curr_stage_json, get_world, bind, get_self.
    cbn [ns set_curr_stage]. rewrite Hns. simpl.
    rewrite initiated_world_json. simpl. by rewrite Hjson.
  - simpl. by rewrite lookup_insert_ne.
  - simpl. by rewrite lookup_insert_ne.
  - cbn [_curr_stage set_curr_stage _stages].
    destruct Hbelow as [|Hb]; [by left|right].
    by replace (_curr_stage t - 1 - 1) with (_curr_stage t - 2) by lia.
Qed.

(** X9. An advance trigger handled by the authority, with every call
    answered and a dictionary in the hyper-parameter file: the new stage is
    written to the [/curr_stage] parameter and to the [curr_stage] entry of
    the file, and the last-stage-reached flag is set to true exactly when
    the new stage is the last one; otherwise the flag is left as it was. *)
Theorem authority_advance_persists (t : StagedRandomTask) (w : World) (target below : Stage)
    (world model : pyval) (hyperparams : gmap string pyval) :
  ns t = "eval_sim" ->
  reliable (env w) ->
  params w !! "world" = Some world ->
  params w !! "model" = Some model ->
  hyperparameters_json w = Some (JsonDict hyperparams) ->
  _curr_stage t < n_stages t ->
  _stages t !! (_curr_stage t + 1) = Some target ->
  (_curr_stage t + 1 = 1 \/ _stages t !! _curr_stage t = Some below) ->
  let r := next_stage t w in
  result r = Returned tt /\
  _curr_stage (self_after r) = _curr_stage t + 1 /\
  params (world_after r) !! "/curr_stage" = Some (VInt (_curr_stage t + 1)) /\
  hyperparameters_json (world_after r) =
    Some (JsonDict (<["curr_stage" := VInt (_curr_stage t + 1)]> hyperparams)) /\
  params (world_after r) !! "/last_stage_reached" =
    if _curr_stage t + 1 =? n_stages t then Some (VBool true)
    else params w !! "/last_stage_reached".
Proof.
  intros Hns Hrel Hworld Hmodel Hjson Hlt Htarget Hbelow r. subst r.
  rewrite (next_stage_authority_run t w target below world model hyperparams) by done.
  unfold result, self_after, world_after. cbn [fst snd].
  destruct (_curr_stage t + 1 =? n_stages t); simpl.
  - rewrite lookup_insert_ne by done. rewrite !lookup_insert_eq. done.
  - rewrite lookup_insert_eq. rewrite lookup_insert_ne by done.
    by rewrite initiated_world_param.
Qed.

(** An exception of [_initiate_stage] leaves the advance trigger at
    once. *)
Lemma next_stage_raises (t : StagedRandomTask) (w : World) (e : exn) t1 w1 :
  _curr_stage t < n_stages t ->
  _initiate_stage (set_curr_stage (_curr_stage t + 1) t) w = (Raised e, t1, w1) ->
  next_stage t w = (Raised e, t1, w1).
Proof.
  intros Hlt Hraise.
  unfold next_stage. unfold bind at 1, get_self at 1.
  destruct (Z.ltb_spec (_curr_stage t) (n_stages t)) as [_|]; [|lia].
  unfold bind at 1, set_self at 1. unfold bind at 1. by rewrite Hraise.
Qed.

(** X10. When [_initiate_stage] raises during an advance trigger, the
    trigger raises the same exception with the stage index of the object
    already advanced, while the [/curr_stage] parameter, the persisted
    record and the last-stage-reached flag are left as they were: the
    object and the shared state then disagree. *)
Theorem advance_failure_leaves_record (t : StagedRandomTask) (w : World) (e : exn) :
  _curr_stage t < n_stages t ->
  result (_initiate_stage (set_curr_stage (_curr_stage t + 1) t) w) = Raised e ->
  let r := next_stage t w in
  result r = Raised e /\
  _curr_stage (self_after r) = _curr_stage t + 1 /\
  params (world_after r) !! "/curr_stage" = params w !! "/curr_stage" /\
  params (world_after r) !! "/last_stage_reached" = params w !! "/last_stage_reached" /\
  hyperparameters_json (world_after r) = hyperparameters_json w.
Proof.
  intros Hlt Hraise r. subst r.
  pose proof (initiate_stage_json (set_curr_stage (_curr_stage t + 1) t) w) as Hj.
  pose proof (initiate_stage_param "/curr_stage" (set_curr_stage (_curr_stage t + 1) t) w
                ltac:(done)) as Hc.
  pose proof (initiate_stage_param "/last_stage_reached"
                (set_curr_stage (_curr_stage t + 1) t) w ltac:(done)) as Hf.
  pose proof (keeps_self_initiate_stage (set_curr_stage (_curr_stage t + 1) t) w) as Hs.
  destruct (_initiate_stage _ w) as [[[u|e'|] t1] w1] eqn:Hini; try done.
  unfold result in Hraise. simpl in Hraise. simplify_eq.
  rewrite (next_stage_raises t w e t1 w1 Hlt Hini).
  unfold result, the_self, self_after, world_after in *. simpl in *.
  subst t1. done.
Qed.

(** One trigger keeps the authority and the shared state in agreement. *)
Lemma handle_consistent (tr : trigger) (t : StagedRandomTask) (w : World) :
  authority_consistent t w ->
  authority_consistent (self_after (handle tr t w)) (world_after (handle tr t w)).
Proof.
  intros Hagree.
  pose proof Hagree as (Hns & Hcont & Hin & Hrel & [world Hworld] & [model Hmodel] & Hparam
                    & (h & Hjson & Hh) & Hflag).
  unfold in_range in Hin.
  destruct tr; simpl.
  - destruct (Z.lt_ge_cases (_curr_stage t) (n_stages t)) as [Hlt|Hge].
    + destruct (Hcont (_curr_stage t + 1)) as [target Htarget]; [unfold n_stages in *; lia|].
      destruct (Hcont (_curr_stage t)) as [below Hbelow]; [unfold n_stages in *; lia|].
      rewrite (next_stage_authority_run t w target below world model h); auto.
      unfold self_after, world_after. cbn [fst snd].
      assert (forall w1 : World,
                env w1 = env w ->
                params w1 !! "world" = Some world ->
                params w1 !! "model" = Some model ->
                params w1 !! "/curr_stage" = Some (VInt (_curr_stage t + 1)) ->
                hyperparameters_json w1 =
                  Some (JsonDict (<["curr_stage" := VInt (_curr_stage t + 1)]> h)) ->
                (params w1 !! "/last_stage_reached" = Some (VBool true) ->
                 _curr_stage t + 1 = n_stages t) ->
                authority_consistent (set_curr_stage (_curr_stage t + 1) t) w1) as Hgoal.
      { intros w1 Henv Hw Hm Hc Hj Hf. unfold authority_consistent, in_range.
        cbn [ns _stages _curr_stage set_curr_stage].
        change (n_stages (set_curr_stage (_curr_stage t + 1) t)) with (n_stages t).
        rewrite Henv. repeat split; eauto; try lia.
        eexists. split; [exact Hj|]. by rewrite lookup_insert_eq. }
      destruct (Z.eqb_spec (_curr_stage t + 1) (n_stages t)) as [Heq|Hne]; apply Hgoal; simpl;
        rewrite ?initiated_world_env, ?initiated_world_json; try done;
        rewrite ?lookup_insert_eq; try done;
        repeat (rewrite lookup_insert_ne by done);
        rewrite ?lookup_insert_eq, ?initiated_world_param by done; try done.
      intros Htrue. specialize (Hflag Htrue). lia.
    + by rewrite next_stage_at_last by lia.
  - destruct (Z.lt_ge_cases 1 (_curr_stage t)) as [Hlt|Hge].
    + destruct (Hcont (_curr_stage t - 1)) as [target Htarget]; [unfold n_stages in *; lia|].
      assert (_curr_stage t - 1 = 1 \/
              _stages t !! (_curr_stage t - 2) =
                Some (default target (_stages t !! (_curr_stage t - 2)))) as Hbelow.
      { destruct (Z.eq_dec (_curr_stage t - 1) 1) as [|Hne]; [by left|right].
        destruct (Hcont (_curr_stage t - 2)) as [b Hb]; [unfold n_stages in *; lia|].
        by rewrite Hb. }
      rewrite (previous_stage_authority_run t w target
                 (default target (_stages t !! (_curr_stage t - 2))) world model h); auto.
      unfold self_after, world_after. cbn [fst snd].
      unfold authority_consistent, in_range.
      cbn [ns _stages _curr_stage set_curr_stage].
      change (n_stages (set_curr_stage (_curr_stage t - 1) t)) with (n_stages t).
      simpl. rewrite initiated_world_env.
      rewrite lookup_insert_eq.
      repeat (rewrite lookup_insert_ne by done).
      rewrite !initiated_world_param by done. simpl.
      rewrite lookup_insert_eq.
      repeat (rewrite lookup_insert_ne by done).
      unfold n_stages in *.
      repeat split; eauto; try lia; try done.
      eexists. split; [reflexivity|]. by rewrite lookup_insert_eq.
    + by rewrite previous_stage_at_first by lia.
Qed.

(** X11. When the authority and the shared curriculum state agree, they
    agree after every sequence of advance and retreat triggers: the
    [/curr_stage] parameter and the persisted [curr_stage] entry hold the
    stage of the object, and the last-stage-reached flag is true only at
    the last stage. *)
Theorem deliver_consistent (trs : list trigger) (t : StagedRandomTask) (w : World) :
  authority_consistent t w ->
  authority_consistent (deliver trs t w).1 (deliver trs t w).2.
Proof.
  revert t w. induction trs as [|tr trs IH]; intros t w Hc; [done|].
  cbn [deliver]. apply IH, handle_consistent, Hc.
Qed.

(** ** Construction failures *)

(** X12. The order in which [__init__] fails.  A [PATHS] without the
    entry ["curriculum"] gives [TypeError].  With the entry, a missing
    curriculum file gives [FileNotFoundError], with the text that names the
    location, and a file that is no dictionary gives [AssertionError],
    whatever the start stage is, before anything is written.  A start stage
    that is no integer gives [ValueError] once the [/task_mode] parameter
    is set.  With a start stage in range, a [PATHS] without the entry
    ["model"] gives [TypeError], and a missing hyper-parameter file gives
    [AssertionError], with the text that names the file, once [/curr_stage]
    is set too.  None of these failures makes a call to a collaborator. *)
Theorem StagedRandomTask_init_failures (ns_ : string) (start_stage : start_arg)
    (PATHS : gmap string string) (file_location model_dir : string)
    (d : gmap Z Stage) (s : Z) (w : World) :
  let init a := StagedRandomTask_init ns_ a PATHS blank_StagedRandomTask w in
  let staged := with_params (insert "/task_mode" (VStr "staged")) w in
  (PATHS !! "curriculum" = None ->
   result (init start_stage) = Raised TypeError /\
   world_after (init start_stage) = w) /\
  (PATHS !! "curriculum" = Some file_location ->
   (curriculum_file w = None ->
    result (init start_stage) =
      Raised (FileNotFoundError
                ("Couldn't find 'training_curriculum.yaml' in " +:+ file_location +:+ " ")) /\
    world_after (init start_stage) = w) /\
   (curriculum_file w = Some YamlOther ->
    result (init start_stage) =
      Raised (AssertionError
                "'training_curriculum.yaml' has wrong fromat! Has to encode dictionary!") /\
    world_after (init start_stage) = w) /\
   (curriculum_file w = Some (YamlDict d) ->
    result (init NonIntArg) = Raised (ValueError "Given start_stage not an Integer!") /\
    world_after (init NonIntArg) = staged) /\
   (curriculum_file w = Some (YamlDict d) ->
    1 <= s <= Z.of_nat (size d) ->
    PATHS !! "model" = None ->
    result (init (IntArg s)) = Raised TypeError /\
    world_after (init (IntArg s)) = with_params (insert "/curr_stage" (VInt s)) staged) /\
   (curriculum_file w = Some (YamlDict d) ->
    1 <= s <= Z.of_nat (size d) ->
    PATHS !! "model" = Some model_dir ->
    hyperparameters_json w = None ->
    result (init (IntArg s)) =
      Raised (AssertionError
                ("Found no 'hyperparameters.json' at "
                 +:+ os_path_join model_dir "hyperparameters.json")) /\
    world_after (init (IntArg s)) = with_params (insert "/curr_stage" (VInt s)) staged)).
Proof.
  intros init staged. subst init staged.
  unfold StagedRandomTask_init, bind, get_param_default, set_self, _read_stages_from_yaml,
    get_world, raise, set_param, get_self, result, world_after, n_stages.
  split.
  { intros Hfile. rewrite Hfile. unfold raise. done. }
  intros Hfile. rewrite Hfile.
  unfold bind, get_world, set_self, raise.
  split; [|split; [|split; [|split]]].
  - intros Hcur. simpl. by rewrite Hcur.
  - intros Hcur. simpl. by rewrite Hcur.
  - intros Hcur. simpl. by rewrite Hcur.
  - intros Hcur Hs Hdir. simpl. rewrite Hcur. simpl.
    destruct (Z.ltb_spec s 1) as [|_]; [lia|].
    destruct (Z.gtb_spec s (Z.of_nat (size d))) as [|_]; [lia|]. simpl.
    by rewrite Hdir.
  - intros Hcur Hs Hdir Hjson. simpl. rewrite Hcur. simpl.
    destruct (Z.ltb_spec s 1) as [|_]; [lia|].
    destruct (Z.gtb_spec s (Z.of_nat (size d))) as [|_]; [lia|]. simpl.
    rewrite Hdir. simpl. by rewrite Hjson.
Qed.

(** X13. The range check of [__init__] counts the entries of the
    curriculum and does not look at their keys: a start stage within
    [1, N] that has no entry passes the check, and [__init__] raises
    [KeyError] for it after the obstacles have been removed. *)
Theorem StagedRandomTask_init_missing_entry (ns_ : string) (s : Z)
    (PATHS : gmap string string) (d : gmap Z Stage) (w : World) :
  is_Some (PATHS !! "curriculum") ->
  is_Some (PATHS !! "model") ->
  curriculum_file w = Some (YamlDict d) ->
  is_Some (hyperparameters_json w) ->
  env w (length (calls w)) RemoveAllObstacles = inr tt ->
  1 <= s <= Z.of_nat (size d) ->
  d !! s = None ->
  let r := StagedRandomTask_init ns_ (IntArg s) PATHS blank_StagedRandomTask w in
  result r = Raised (KeyError (VInt s)) /\
  calls (world_after r) = (calls w ++ [RemoveAllObstacles])%list.
Proof.
  intros [file_location Hfile] [model_dir Hdir] Hcur [j Hjson] Hremove Hs Hnone r. subst r.
  unfold StagedRandomTask_init, bind, get_param_default, set_self, _read_stages_from_yaml,
    get_world, raise, set_param, get_self, result, world_after, n_stages.
  rewrite Hfile, Hdir.
  unfold bind, get_world, set_self, raise.
  simpl. rewrite Hcur. simpl.
  destruct (Z.ltb_spec s 1) as [|_]; [lia|].
  destruct (Z.gtb_spec s (Z.of_nat (size d))) as [|_]; [lia|]. simpl.
  rewrite Hjson.
  unfold _initiate_stage, bind, invoke, stage_at, bind, get_self, raise. simpl.
  rewrite Hremove. simpl. by rewrite Hnone.
Qed.

(** ** The persisted record *)

(** X14. [_update_curr_stage_json] on a file that holds a dictionary always
    returns: it sets the entry [curr_stage] to the stage of the object,
    adding the entry when the file has none, and keeps every other entry;
    the parameter server and the calls are untouched, and a second update
    changes nothing more. *)
Theorem update_curr_stage_json_entry (t : StagedRandomTask) (w : World)
    (hyperparams : gmap string pyval) :
  hyperparameters_json w = Some (JsonDict hyperparams) ->
  let r := _update_curr_stage_json t w in
  exists updated : gmap string pyval,
    r = (Returned tt, t, with_json (Some (JsonDict updated)) w) /\
    updated !! "curr_stage" = Some (VInt (_curr_stage t)) /\
    (forall key, key <> "curr_stage" -> updated !! key = hyperparams !! key) /\
    dom updated = {[ "curr_stage" ]} ∪ dom hyperparams /\
    _update_curr_stage_json t (world_after r) = r.
Proof.
  intros Hjson r. subst r.
  exists (<["curr_stage" := VInt (_curr_stage t)]> hyperparams).
  assert (_update_curr_stage_json t w =
            (Returned tt, t,
             with_json (Some (JsonDict (<["curr_stage" := VInt (_curr_stage t)]> hyperparams))) w))
    as Hrun.
  { unfold _update_curr_stage_json, bind, get_self, get_world. simpl. by rewrite Hjson. }
  rewrite Hrun. repeat split.
  - by rewrite lookup_insert_eq.
  - intros key Hkey. by rewrite lookup_insert_ne.
  - by rewrite dom_insert_L.
  - unfold world_after. cbn [snd].
    unfold _update_curr_stage_json, bind, get_self, get_world. simpl.
    by rewrite insert_insert_eq.
Qed.

(** On a missing file, or a file that holds no dictionary,
    [_update_curr_stage_json] raises and leaves the world as it is. *)
Theorem update_curr_stage_json_failure (t : StagedRandomTask) (w : World) :
  hyperparameters_json w = None \/ hyperparameters_json w = Some JsonOther ->
  (exists e, result (_update_curr_stage_json t w) = Raised e) /\
  world_after (_update_curr_stage_json t w) = w.
Proof.
  intros [Hjson|Hjson];
    unfold _update_curr_stage_json, bind, get_self, get_world, raise, result, world_after;
    simpl; rewrite Hjson; simpl; split; by eauto.
Qed.

(** X6. The namespaces that [make_envs] gives to training environments,
    and the empty namespace of a system started without namespaces, are
    not the one of the authority: a controller under such a namespace never
    writes the persisted [curr_stage] record or the [/curr_stage]
    parameter, whatever trigger it handles, and an advance trigger does not
    make it write the last-stage-reached flag. *)
Theorem training_namespace_never_persists (with_ns : bool) (rank : Z) (tr : trigger)
    (t : StagedRandomTask) (w : World) :
  ns t = train_ns with_ns rank \/ ns t = eval_ns false ->
  hyperparameters_json (world_after (handle tr t w)) = hyperparameters_json w /\
  params (world_after (handle tr t w)) !! "/curr_stage" = params w !! "/curr_stage" /\
  params (world_after (next_stage t w)) !! "/last_stage_reached"
    = params w !! "/last_stage_reached".
Proof.
  intros Hns.
  assert (String.eqb (ns t) "eval_sim" = false) as Hfollower.
  { destruct Hns as [-> | ->]; [|done]. by destruct with_ns. }
  destruct (follower_keeps_curr_stage tr t w Hfollower) as [Hjson Hparam].
  split; [done|]. split; [done|]. by apply follower_advance_keeps_flag.
Qed.

(** * The inherited [reset] and the map lock *)

Section ResetOfSubclass.
Context {T : Type} `{RandomTaskLike T}.

Lemma reset_attempt_actors (t1 t2 : T) (w : World) :
  actors_of t1 = actors_of t2 ->
  same_run (reset_attempt t1 w) (reset_attempt t2 w).
Proof.
  intros Hact. unfold same_run, reset_attempt, bind, invoke, get_self, ret, result, world_after.
  unfold actors_of in *. simpl.
  destruct (env w (length (calls w)) (SetStartPosGoalPos None None)) as [e|sg];
    simpl; [done|].
  destruct (env w _ RemoveAllObstacles) as [e|[]]; simpl; [done|].
  rewrite Hact.
  by destruct (env w _ (RegisterRandomDynamicObstacles _ _)) as [e|[]].
Qed.

Lemma reset_loop_actors (fuel : nat) (fail_times : Z) (t1 t2 : T) (w : World) :
  actors_of t1 = actors_of t2 ->
  same_run (reset_loop fuel fail_times t1 w) (reset_loop fuel fail_times t2 w).
Proof.
  intros Hact. revert fail_times w.
  induction fuel as [|fuel IH]; intros fail_times w; simpl.
  - by destruct (fail_times <? max_fail_times).
  - destruct (fail_times <? max_fail_times); [|done].
    unfold same_run, try_except_service, bind.
    destruct (reset_attempt_actors t1 t2 w Hact) as [Hres Hworld].
    pose proof (reset_attempt_self t1 w) as Hs1.
    pose proof (reset_attempt_self t2 w) as Hs2.
    destruct (reset_attempt t1 w) as [[[sg1|e1|] t1'] w1];
      destruct (reset_attempt t2 w) as [[[sg2|e2|] t2'] w2];
      unfold same_run, result, world_after, self_after in *; simpl in *; simplify_eq;
      try done.
    destruct (is_ServiceException e2); [apply IH|done].
Qed.

(** [reset] reads of its object the number of actors and nothing else. *)
Lemma RandomTask_reset_actors (t1 t2 : T) (w : World) :
  actors_of t1 = actors_of t2 ->
  same_run (RandomTask_reset t1 w) (RandomTask_reset t2 w).
Proof.
  intros Hact. unfold RandomTask_reset, with_lock.
  destruct (map_lock w); [done|].
  unfold bind.
  destruct (reset_loop_actors (Z.to_nat max_fail_times) 0 t1 t2 (with_map_lock true w) Hact)
    as [Hres Hworld].
  destruct (reset_loop _ _ t1 _) as [[[[f1 g1]|e1|] t1'] w1];
    destruct (reset_loop _ _ t2 _) as [[[[f2 g2]|e2|] t2'] w2];
    unfold same_run, result, world_after in *; simpl in *; simplify_eq; try done.
  destruct (f2 =? max_fail_times); [done|]. by destruct g2.
Qed.

End ResetOfSubclass.

(** X15. The [reset] that the staged task inherits does not look at the
    curriculum: with any other stage index and any other stage table it
    ends alike and makes the same calls, so the number of obstacles it
    places is [num_of_actors], read from [~actors] at construction, and not
    the dynamic count of the current stage. *)
Theorem staged_reset_ignores_stage (t : StagedRandomTask) (s : Z) (d : gmap Z Stage)
    (w : World) :
  let t' := set_stages d (set_curr_stage s t) in
  result (RandomTask_reset t' w) = result (RandomTask_reset t w) /\
  world_after (RandomTask_reset t' w) = world_after (RandomTask_reset t w).
Proof. intros t'. by apply RandomTask_reset_actors. Qed.

(** The map callback hands the map to the obstacle manager first; when
    that update raises, the robot manager is not given the map, the
    exception leaves the callback and the lock is free again. *)
Theorem update_map_obstacle_failure {T} (map_ : nat) (t : T) (w : World) (e : exn) :
  map_lock w = false ->
  env w (length (calls w)) (ObstacleUpdateMap map_) = inl e ->
  _update_map map_ t w =
    (Raised e, t, with_map_lock false (with_call (ObstacleUpdateMap map_) w)).
Proof.
  intros Hfree Hfail. unfold _update_map, with_lock, bind, invoke.
  rewrite Hfree. simpl. rewrite Hfail. simpl.
  unfold with_map_lock, with_call. simpl. reflexivity.
Qed.

(** * ScenarioTask and the factory: what they build *)

(** [ScenarioTask.__init__] with the scenario file loaded: the
    pedestrian manager is kept, and the agents are spawned once, exactly
    when the scenario has agents; the counter starts at zero. *)
Theorem ScenarioTask_init_agents (scenario_path : string) (sc : ArenaScenario) (w : World) :
  reliable (env w) ->
  env w (length (calls w)) (LoadFromFile scenario_path) = inr sc ->
  let r := ScenarioTask_init scenario_path blank_ScenarioTask w in
  result r = Returned tt /\
  self_after r =
    {| scenario := sc;
       pedsim_manager := if decide (pedsimAgents sc = []) then None else Some tt;
       reset_count := 0 |} /\
  calls (world_after r) =
    (calls w ++ LoadFromFile scenario_path ::
       if decide (pedsimAgents sc = []) then [] else [SpawnPeds (pedsimAgents sc)])%list.
Proof.
  intros Hrel Hload r. subst r.
  assert (ScenarioTask_init scenario_path blank_ScenarioTask w =
          (Returned tt,
           {| scenario := sc;
              pedsim_manager := if decide (pedsimAgents sc = []) then None else Some tt;
              reset_count := 0 |},
           after_calls (LoadFromFile scenario_path ::
                          if decide (pedsimAgents sc = []) then []
                          else [SpawnPeds (pedsimAgents sc)]) w)) as Hrun.
  { unfold ScenarioTask_init. unfold bind at 1. unfold invoke at 1. rewrite Hload.
    unfold bind, set_self, ret. simpl.
    destruct (pedsimAgents sc) as [|a agents] eqn:Hagents; simpl; [done|].
    call_ok Hrel. done. }
  rewrite Hrun. unfold result, self_after, world_after. cbn [fst snd].
  split; [done|]. split; [done|]. by rewrite calls_after_calls.
Qed.

(** One [reset] with the lock free and every call answered. *)
Lemma ScenarioTask_reset_run (t : ScenarioTask) (w : World) :
  map_lock w = false ->
  reliable (env w) ->
  exists info,
    ScenarioTask_reset t w =
      (Returned info,
       {| scenario := scenario t; pedsim_manager := pedsim_manager t;
          reset_count := reset_count t + 1 |},
       with_map_lock false (after_calls (scenario_reset_calls t) (with_map_lock true w))).
Proof.
  intros Hfree Hrel.
  unfold ScenarioTask_reset, scenario_reset_calls, with_lock, bind, set_self, get_self, ret.
  simpl. rewrite Hfree.
  destruct (pedsim_manager t) as [[]|].
  - call_ok Hrel. call_ok Hrel. by eexists.
  - unfold ret. call_ok Hrel. by eexists.
Qed.

(** X17. Every [reset] of a scenario task re-applies the fixed start and
    goal of the scenario, after resetting the pedestrians when the task
    keeps a pedestrian manager: the robot manager is given the pose at
    [robotPosition] and the pose at [robotGoal], both at height 0 and with
    the orientation (0, 0, 0, 1).  It makes no other call, so no obstacle
    is removed or placed, however many resets came before. *)
Theorem ScenarioTask_reset_fixed_layout (n : nat) (t : ScenarioTask) (w : World) :
  map_lock w = false ->
  reliable (env w) ->
  let start_pos :=
    {| position := {| x := fst (robotPosition (scenario t));
                      y := snd (robotPosition (scenario t)); z := 0 |};
       orientation := {| qx := 0; qy := 0; qz := 0; qw := 1 |} |} in
  let goal_pos :=
    {| position := {| x := fst (robotGoal (scenario t));
                      y := snd (robotGoal (scenario t)); z := 0 |};
       orientation := {| qx := 0; qy := 0; qz := 0; qw := 1 |} |} in
  let round :=
    (match pedsim_manager t with Some _ => [ResetAllPeds] | None => [] end
     ++ [SetStartPosGoalPos (Some start_pos) (Some goal_pos)])%list in
  let t_n := (after_resets n t w).1 in
  let w_n := (after_resets n t w).2 in
  calls (world_after (ScenarioTask_reset t_n w_n)) = (calls w_n ++ round)%list /\
  calls w_n = (calls w ++ concat (replicate n round))%list.
Proof.
  intros Hfree Hrel start_pos goal_pos round t_n w_n.
  change round with (scenario_reset_calls t). clear start_pos goal_pos round.
  subst t_n w_n.
  assert (forall n t w, map_lock w = false -> reliable (env w) ->
            scenario_reset_calls (after_resets n t w).1 = scenario_reset_calls t /\
            map_lock (after_resets n t w).2 = false /\
            env (after_resets n t w).2 = env w /\
            calls (after_resets n t w).2 =
              (calls w ++ concat (replicate n (scenario_reset_calls t)))%list) as Hall.
  { clear. induction n as [|n IH]; intros t w Hfree Hrel.
    - simpl. by rewrite app_nil_r.
    - cbn [after_resets].
      destruct (ScenarioTask_reset_run t w Hfree Hrel) as [info Hrun]. rewrite Hrun.
      unfold self_after, world_after. cbn [fst snd].
      match goal with |- context [after_resets n ?t1 ?w1] =>
        destruct (IH t1 w1) as (H1 & H2 & H3 & H4);
          [done | by (simpl; rewrite env_after_calls)|];
        rewrite H1, H2, H3, H4
      end.
      repeat split; try done.
      + simpl. by rewrite env_after_calls.
      + simpl. rewrite calls_after_calls. simpl.
        change (scenario_reset_calls
                  {| scenario := scenario t; pedsim_manager := pedsim_manager t;
                     reset_count := reset_count t + 1 |}) with (scenario_reset_calls t).
        by rewrite <- app_assoc. }
  destruct (Hall n t w Hfree Hrel) as (H1 & H2 & H3 & H4).
  split; [|done].
  destruct (ScenarioTask_reset_run (after_resets n t w).1 (after_resets n t w).2)
    as [info Hrun]; [done | by rewrite H3|].
  rewrite Hrun. unfold world_after. cbn [snd]. simpl.
  by rewrite calls_after_calls, H1.
Qed.

(** [ScenarioTask.__init__] returns when every call is answered, and
    leaves the parameter server alone. *)
Lemma ScenarioTask_init_returns (scenario_path : string) (sc : ArenaScenario) (w : World) :
  reliable (env w) ->
  env w (length (calls w)) (LoadFromFile scenario_path) = inr sc ->
  exists t1 w1,
    ScenarioTask_init scenario_path blank_ScenarioTask w = (Returned tt, t1, w1) /\
    params w1 = params w.
Proof.
  intros Hrel Hload.
  unfold ScenarioTask_init. unfold bind at 1. unfold invoke at 1. rewrite Hload.
  unfold bind, set_self, ret. simpl.
  destruct (pedsimAgents sc) as [|a agents]; simpl; [by eexists _, _|].
  call_ok Hrel. by eexists _, _.
Qed.

(** Once [StagedRandomTask.__init__] has returned, [/task_mode] is
    staged. *)
Lemma init_task_mode (ns_ : string) (start_stage : start_arg) (PATHS : gmap string string)
    (t t1 : StagedRandomTask) (w w1 : World) :
  StagedRandomTask_init ns_ start_stage PATHS t w = (Returned tt, t1, w1) ->
  params w1 !! "/task_mode" = Some (VStr "staged").
Proof.
  unfold StagedRandomTask_init.
  unfold bind at 1, get_param_default at 1. unfold bind at 1, set_self at 1.
  unfold bind at 1.
  destruct (_read_stages_from_yaml PATHS _ w) as [[[u|e|] t2] w2] eqn:Hread; [|done|done].
  assert (w2 = w) as ->.
  { revert Hread. unfold _read_stages_from_yaml, bind, get_world, set_self, raise.
    repeat case_match; by intros [= <- <-]. }
  unfold bind at 1, set_param at 1.
  destruct start_stage as [s|]; [|done].
  unfold bind at 1, get_self at 1.
  destruct (_ || _); [done|].
  unfold bind at 1, set_param at 1.
  destruct (PATHS !! "model") as [model_dir|]; [|done].
  unfold bind at 1, get_world at 1.
  cbn [hyperparameters_json with_params].
  destruct (hyperparameters_json w); [|done].
  intros Hini.
  match type of Hini with _initiate_stage ?t3 ?w3 = _ =>
    pose proof (initiate_stage_param "/task_mode" t3 w3 ltac:(done)) as Hparam
  end.
  rewrite Hini in Hparam. unfold world_after in Hparam. simpl in Hparam.
  rewrite Hparam. rewrite lookup_insert_ne by done. by rewrite lookup_insert_eq.
Qed.

(** X18. For each of the four mode tags the factory, with every call
    answered, returns a task of the variant of that name and leaves the tag
    in the [/task_mode] parameter; the scenario mode needs the entry
    ["scenario"] of [PATHS], the staged mode the entries ["curriculum"]
    and ["model"] of [PATHS], a curriculum with the stages 1..N, the
    hyper-parameter file and a start stage within [1, N]. *)
Theorem get_predefined_task_known_mode (ns_ mode : string) (s : Z) (d : gmap Z Stage)
    (PATHS : gmap string string) (w : World) (world model : pyval) :
  reliable (env w) ->
  mode = "random" \/ mode = "manual" \/
  (mode = "scenario" /\ is_Some (PATHS !! "scenario")) \/
  (mode = "staged" /\ is_Some (PATHS !! "curriculum") /\ is_Some (PATHS !! "model") /\
   curriculum_file w = Some (YamlDict d) /\ contiguous d /\
   is_Some (hyperparameters_json w) /\ params w !! "world" = Some world /\
   params w !! "model" = Some model /\ 1 <= s <= Z.of_nat (size d)) ->
  exists task w1,
    get_predefined_task ns_ mode (IntArg s) PATHS tt w = (Returned (Some task), tt, w1) /\
    variant_name task = mode /\
    params w1 !! "/task_mode" = Some (VStr mode).
Proof.
  intros Hrel Hmode.
  unfold get_predefined_task. unfold bind at 1. call_ok Hrel.
  unfold bind at 1. call_ok Hrel. unfold bind at 1. call_ok Hrel.
  unfold bind at 1. call_ok Hrel.
  destruct Hmode as
    [-> | [-> | [[-> [path Hpath]]
                | (-> & Hfile & Hdir & Hcur & Hcont & Hjson & Hworld & Hmodel & Hs)]]];
    simpl.
  - unfold bind, set_param, RandomTask_init, get_param_default, ret. simpl.
    call_ok Hrel. eexists _, _. repeat split. simpl. by rewrite lookup_insert_eq.
  - unfold bind, set_param, construct, ManualTask_init, bind, get_param_default, set_self, ret.
    simpl. eexists _, _. repeat split. simpl. by rewrite lookup_insert_eq.
  - rewrite Hpath.
    unfold bind at 1, ret at 1. unfold bind at 1, ret at 1.
    unfold bind at 1. unfold bind at 1, set_param at 1. unfold bind at 1. call_ok Hrel.
    unfold bind at 1, construct.
    match goal with |- context [ScenarioTask_init path blank_ScenarioTask ?w1] =>
      destruct (Hrel (length (calls w1)) (LoadFromFile path)) as [sc Hsc];
      destruct (ScenarioTask_init_returns path sc w1) as (t1 & w2 & Hinit & Hparams);
        [done | exact Hsc |]; rewrite Hinit
    end.
    unfold ret, bind. simpl. eexists _, _. repeat split.
    rewrite Hparams. simpl. by rewrite lookup_insert_eq.
  - unfold bind at 1, ret at 1. unfold bind at 1. unfold bind at 1, set_param at 1.
    unfold bind at 1, construct.
    match goal with |- context [StagedRandomTask_init ns_ (IntArg s) PATHS _ ?w1] =>
      destruct (init_in_range ns_ s PATHS d w1 world model) as [w2 Hinit]; simpl; auto;
        try (by rewrite lookup_insert_ne);
      pose proof (init_task_mode ns_ (IntArg s) PATHS blank_StagedRandomTask _ w1 w2 Hinit)
        as Hmode
    end.
    rewrite Hinit.
    unfold ret, bind. simpl. eexists _, _. repeat split. exact Hmode.
Qed.

(** X19. Failures that leave the factory, with every call answered: in
    the staged mode a [PATHS] without the entry ["curriculum"] leaves it as
    [TypeError], and with that entry a start stage outside [1, N] leaves it
    as the [IndexError] of the controller; in the scenario mode a [PATHS]
    without the entry ["scenario"] leaves it as [KeyError], after the ten
    static obstacles have been placed. *)
Theorem get_predefined_task_failures (ns_ : string) (s : Z) (d : gmap Z Stage)
    (PATHS : gmap string string) (w : World) :
  reliable (env w) ->
  (PATHS !! "curriculum" = None ->
   result (get_predefined_task ns_ "staged" (IntArg s) PATHS tt w) = Raised TypeError) /\
  (is_Some (PATHS !! "curriculum") ->
   curriculum_file w = Some (YamlDict d) ->
   ~ 1 <= s <= Z.of_nat (size d) ->
   exists msg,
     result (get_predefined_task ns_ "staged" (IntArg s) PATHS tt w)
       = Raised (IndexError msg)) /\
  (PATHS !! "scenario" = None ->
   exists map_ w1,
     get_predefined_task ns_ "scenario" (IntArg s) PATHS tt w
       = (Raised (KeyError (VStr "scenario")), tt, w1) /\
     calls w1 = (calls w ++ build_collaborators map_
                   ++ [RegisterRandomStaticObstacles 10])%list).
Proof.
  intros Hrel. split; [|split].
  - intros Hfile.
    unfold get_predefined_task. unfold bind at 1. call_ok Hrel.
    unfold bind at 1. call_ok Hrel. unfold bind at 1. call_ok Hrel.
    unfold bind at 1. call_ok Hrel.
    unfold bind at 1, ret at 1. unfold bind at 1. unfold bind at 1, set_param at 1.
    unfold bind at 1, construct.
    unfold StagedRandomTask_init, bind, get_param_default, set_self,
      _read_stages_from_yaml. rewrite Hfile. reflexivity.
  - intros Hfile Hcur Hs.
    unfold get_predefined_task. unfold bind at 1. call_ok Hrel.
    unfold bind at 1. call_ok Hrel. unfold bind at 1. call_ok Hrel.
    unfold bind at 1. call_ok Hrel.
    unfold bind at 1, ret at 1. unfold bind at 1. unfold bind at 1, set_param at 1.
    unfold bind at 1, construct.
    match goal with |- context [StagedRandomTask_init ns_ (IntArg s) PATHS _ ?w1] =>
      destruct (init_out_of_range ns_ s PATHS d w1 Hfile Hcur Hs) as [msg Hmsg];
      destruct (StagedRandomTask_init ns_ (IntArg s) PATHS blank_StagedRandomTask w1)
        as [[[u|e|] t1] w2]
    end; unfold result in Hmsg; simpl in Hmsg; simplify_eq.
    by exists msg.
  - intros Hpath.
    unfold get_predefined_task. unfold bind at 1. call_ok Hrel.
    unfold bind at 1. call_ok Hrel. unfold bind at 1. call_ok Hrel.
    unfold bind at 1. call_ok Hrel.
    unfold bind, ret, set_param, raise. simpl. rewrite Hpath.
    call_ok Hrel. eexists a, _. split; [reflexivity|].
    simpl. by rewrite <- !app_assoc.
Qed.

(** * train_agent_utils: the hyper-parameter file *)

(** X20. [check_batch_size] returns exactly when the mini batch size is
    smaller than the batch size, neither the mini batch size nor the number
    of environments is zero, and both divide the batch size; it changes
    nothing. *)
Theorem check_batch_size_passes {T} (n_envs batch_size mn_batch_size : Z) (t : T) (w : World) :
  (result (check_batch_size n_envs batch_size mn_batch_size t w) = Returned tt <->
   mn_batch_size < batch_size /\ mn_batch_size <> 0 /\ n_envs <> 0 /\
   (mn_batch_size | batch_size) /\ (n_envs | batch_size)) /\
  self_after (check_batch_size n_envs batch_size mn_batch_size t w) = t /\
  world_after (check_batch_size n_envs batch_size mn_batch_size t w) = w.
Proof.
  unfold check_batch_size, py_mod, bind, ret, raise, result, self_after, world_after.
  destruct (Z.gtb_spec batch_size mn_batch_size) as [Hgt|Hle]; simpl.
  2: { split; [|done]. split; [done|]. lia. }
  destruct (Z.eqb_spec mn_batch_size 0) as [Hm|Hm]; simpl.
  { split; [|done]. split; [done|]. tauto. }
  destruct (Z.eqb_spec (batch_size mod mn_batch_size) 0) as [Hdm|Hdm]; simpl.
  2: { split; [|done]. split; [done|]. rewrite <- (Z.mod_divide _ _ Hm). tauto. }
  destruct (Z.eqb_spec n_envs 0) as [Hn|Hn]; simpl.
  { split; [|done]. split; [done|]. tauto. }
  destruct (Z.eqb_spec (batch_size mod n_envs) 0) as [Hdn|Hdn]; simpl.
  2: { split; [|done]. split; [done|]. rewrite <- (Z.mod_divide _ _ Hn). tauto. }
  split; [|done]. split; [|done]. intros _.
  rewrite <- (Z.mod_divide _ _ Hm), <- (Z.mod_divide _ _ Hn). repeat split; try done; lia.
Qed.

(** X21. With a positive mini batch size, a batch size that passes
    [check_batch_size] holds at least two mini batches. *)
Theorem check_batch_size_two_minibatches {T} (n_envs batch_size mn_batch_size : Z)
    (t : T) (w : World) :
  0 < mn_batch_size ->
  result (check_batch_size n_envs batch_size mn_batch_size t w) = Returned tt ->
  2 * mn_batch_size <= batch_size.
Proof.
  intros Hpos Hpass.
  assert (mn_batch_size < batch_size /\ (mn_batch_size | batch_size)) as [Hlt [q Hq]].
  { revert Hpass.
    unfold check_batch_size, py_mod, bind, ret, raise, result.
    destruct (Z.gtb_spec batch_size mn_batch_size) as [Hgt|Hle]; simpl; [|done].
    destruct (Z.eqb_spec mn_batch_size 0) as [Hm|Hm]; simpl; [done|].
    destruct (Z.eqb_spec (batch_size mod mn_batch_size) 0) as [Hdm|Hdm]; simpl; [|done].
    intros _. split; [lia|]. by apply Z.mod_divide. }
  subst batch_size.
  assert (2 <= q) by (destruct (Z.le_gt_cases 2 q); [done|nia]).
  nia.
Qed.

Lemma is_task_mode_spec (v : pyval) :
  is_task_mode v = true <->
  v = VStr "custom" \/ v = VStr "random" \/ v = VStr "staged".
Proof.
  destruct v as [|b|z|s|xs]; simpl; try (split; [done|by intros [|[|]]]).
  rewrite !orb_true_iff, !String.eqb_eq. split.
  - intros [[->| ->]| ->]; auto.
  - intros [[= ->]|[[= ->]|[= ->]]]; auto.
Qed.

(** What [check_hyperparam_format] does, case by case. *)
Lemma check_hyperparam_format_cases {T} (doc : json_doc) (t : T) (w : World) :
  exists o,
    check_hyperparam_format doc t w = (o, t, w) /\
    (o = Returned tt <-> exists d, doc = JsonDict d /\ well_formed_hyperparams d) /\
    o <> Blocked.
Proof.
  unfold check_hyperparam_format, well_formed_hyperparams.
  destruct doc as [d|].
  2: { eexists. split; [reflexivity|]. split; [|done]. split; [done|]. by intros (d & ? & _). }
  case_bool_decide as Hdom; simpl.
  2: { eexists. split; [reflexivity|]. split; [|done]. split; [done|].
       intros (d' & [= <-] & Hd & _). by rewrite Hd in Hdom. }
  unfold bind, item, ret, raise.
  destruct (d !! "discrete_action_space") as [v|] eqn:Hv; simpl.
  2: { eexists. split; [reflexivity|]. split; [|done]. split; [done|].
       intros (d' & [= <-] & _ & [b Hb] & _). congruence. }
  destruct (is_bool v) eqn:Hbool; simpl.
  2: { eexists. split; [reflexivity|]. split; [|done]. split; [done|].
       intros (d' & [= <-] & _ & [b Hb] & _). rewrite Hv in Hb. by simplify_eq. }
  destruct (d !! "task_mode") as [m|] eqn:Hm; simpl.
  2: { eexists. split; [reflexivity|]. split; [|done]. split; [done|].
       intros (d' & [= <-] & _ & _ & [?|[?|?]]); congruence. }
  destruct (is_task_mode m) eqn:Hmode; simpl.
  - eexists. split; [reflexivity|]. split; [|done]. split; [|done]. intros _.
    exists d. split; [done|]. split; [done|]. split.
    + destruct v; try done. by eexists.
    + apply is_task_mode_spec in Hmode. destruct Hmode as [->|[->| ->]]; auto.
  - eexists. split; [reflexivity|]. split; [|done]. split; [done|].
    intros (d' & [= <-] & _ & _ & Hmodes).
    assert (is_task_mode m = true) as Htrue
      by (apply is_task_mode_spec; destruct Hmodes as [?|[?|?]]; simplify_eq; auto).
    congruence.
Qed.

(** X22. [check_hyperparam_format] returns exactly for a dictionary whose
    keys are the twenty-one keys of [hyperparams], whose
    [discrete_action_space] is a boolean and whose [task_mode] is custom,
    random or staged; it changes nothing. *)
Theorem check_hyperparam_format_passes {T} (doc : json_doc) (t : T) (w : World) :
  (result (check_hyperparam_format doc t w) = Returned tt <->
   exists d, doc = JsonDict d /\ well_formed_hyperparams d) /\
  self_after (check_hyperparam_format doc t w) = t /\
  world_after (check_hyperparam_format doc t w) = w.
Proof.
  destruct (check_hyperparam_format_cases doc t w) as (o & Hrun & Hiff & _).
  rewrite Hrun. unfold result, self_after, world_after. simpl. done.
Qed.

(** When the keys of the dictionary are not the twenty-one expected
    ones, [check_hyperparam_format] raises [AssertionError], whatever the
    values are: a missing or an extra key is reported before a wrong
    [discrete_action_space] or [task_mode]. *)
Theorem check_hyperparam_format_keys_first {T} (d : gmap string pyval) (t : T) (w : World) :
  dom d <> list_to_set hyperparams_keys ->
  result (check_hyperparam_format (JsonDict d) t w) = Raised (AssertionError "unmatching keys").
Proof.
  intros Hdom. unfold check_hyperparam_format.
  case_bool_decide as Hd; [by rewrite Hd in Hdom|done].
Qed.

(** The check does not look at the world. *)
Lemma check_hyperparam_format_world {T} (doc : json_doc) (t : T) (w1 w2 : World) :
  result (check_hyperparam_format doc t w1) = result (check_hyperparam_format doc t w2).
Proof.
  destruct (check_hyperparam_format_cases doc t w1) as (o1 & Hrun1 & Hiff1 & _).
  destruct (check_hyperparam_format_cases doc t w2) as (o2 & Hrun2 & Hiff2 & _).
  rewrite Hrun1, Hrun2. unfold result. simpl.
  revert Hrun1 Hrun2. unfold check_hyperparam_format.
  clear Hiff1 Hiff2.
  destruct doc as [d|]; [|unfold raise; intros; congruence].
  case_bool_decide; simpl; [|unfold raise; intros; congruence].
  unfold bind, item, ret, raise.
  repeat (case_match; simpl); intros; congruence.
Qed.

(** [load_hyperparameters_json] changes nothing, and ends as the check of
    the document it finds does. *)
Lemma load_hyperparameters_json_run (from_scratch : bool) (config_name : string)
    (configs : gmap string json_doc) (w : World) :
  let doc := if from_scratch then configs !! config_name else hyperparameters_json w in
  exists o,
    load_hyperparameters_json from_scratch config_name configs w = (o, configs, w) /\
    o <> Blocked /\
    (forall h, o = Returned h <->
       doc = Some h /\ exists d, h = JsonDict d /\ well_formed_hyperparams d) /\
    (doc = None -> exists msg, o = Raised (FileNotFoundError msg)).
Proof.
  intros doc. subst doc.
  unfold load_hyperparameters_json, bind, get_self, get_world.
  destruct (if from_scratch then configs !! config_name else hyperparameters_json w)
    as [h|] eqn:Hdoc.
  - destruct (check_hyperparam_format_cases h configs w) as (o & Hrun & Hiff & Hnb).
    rewrite Hrun. destruct o as [[]|e|]; [| |done].
    + eexists. split; [reflexivity|]. split; [done|]. split; [|done].
      intros h'. split.
      * intros [= <-]. split; [done|]. by apply Hiff.
      * by intros [[= <-] _].
    + eexists. split; [reflexivity|]. split; [done|]. split; [|done].
      intros h'. split; [done|].
      intros [[= <-] Hwf]. apply Hiff in Hwf. done.
  - destruct from_scratch; unfold raise; eexists; (split; [reflexivity|]);
      (split; [done|]); (split; [|by eexists]); intros h'; (split; [done|]); by intros [? _].
Qed.

(** X23. [load_hyperparameters_json] returns a document exactly when the
    file it reads - the configuration of the given name when training from
    scratch, the file of the model directory otherwise - exists and holds a
    dictionary that passes the format check; a missing file gives
    [FileNotFoundError]; neither file is changed. *)
Theorem load_hyperparameters_json_result (from_scratch : bool) (config_name : string)
    (configs : gmap string json_doc) (w : World) (h : json_doc) :
  let doc := if from_scratch then configs !! config_name else hyperparameters_json w in
  let r := load_hyperparameters_json from_scratch config_name configs w in
  (result r = Returned h <->
   doc = Some h /\ exists d, h = JsonDict d /\ well_formed_hyperparams d) /\
  (doc = None -> exists msg, result r = Raised (FileNotFoundError msg)) /\
  self_after r = configs /\ world_after r = w.
Proof.
  intros doc r.
  destruct (load_hyperparameters_json_run from_scratch config_name configs w)
    as (o & Hrun & _ & Hiff & Hnone).
  subst r. rewrite Hrun. unfold result, self_after, world_after. simpl.
  split; [apply Hiff|]. split; [exact Hnone|done].
Qed.

(** X24. Writing the hyper-parameters and loading them from the model
    directory gives the written document back exactly when it is a
    dictionary that passes the format check; the configurations used when
    training from scratch are not touched by the write. *)
Theorem write_then_load (h : json_doc) (config_name : string)
    (configs : gmap string json_doc) (w : World) :
  let w' := world_after (write_hyperparameters_json h configs w) in
  (result (load_hyperparameters_json false config_name configs w') = Returned h <->
   exists d, h = JsonDict d /\ well_formed_hyperparams d) /\
  result (load_hyperparameters_json true config_name configs w')
    = result (load_hyperparameters_json true config_name configs w).
Proof.
  intros w'. subst w'. unfold world_after, write_hyperparameters_json. cbn [snd].
  split.
  - destruct (load_hyperparameters_json_run false config_name configs
                (with_json (Some h) w)) as (o & Hrun & _ & Hiff & _).
    rewrite Hrun. unfold result. simpl. rewrite (Hiff h). simpl. tauto.
  - unfold load_hyperparameters_json, bind, get_self, get_world, result.
    cbn [fst snd].
    destruct (configs !! config_name) as [doc|]; [|done].
    pose proof (check_hyperparam_format_world doc configs (with_json (Some h) w) w) as Hsame.
    destruct (check_hyperparam_format doc configs (with_json (Some h) w)) as [[o1 t1] w1].
    destruct (check_hyperparam_format doc configs w) as [[o2 t2] w2].
    unfold result in Hsame. simpl in Hsame. subst o2.
    by destruct o1.
Qed.

Lemma update_total_timesteps_json_run (py_int : pyval -> exn + Z) (timesteps : Z)
    (configs : gmap string json_doc) (w : World) :
  exists e,
    update_total_timesteps_json py_int timesteps configs w = (Raised e, configs, w) /\
    (forall d, hyperparameters_json w = Some (JsonDict d) -> well_formed_hyperparams d ->
       exists msg, e = WarningExn msg).
Proof.
  unfold update_total_timesteps_json. unfold bind at 1.
  destruct (load_hyperparameters_json_run false "default" configs w)
    as (o & Hrun & Hnb & Hiff & _).
  rewrite Hrun. destruct o as [h|e|]; [| |done].
  - destruct (proj1 (Hiff h) eq_refl) as (Hjson & d & -> & Hdom & _).
    assert (d !! "n_timesteps" = None) as Hnone.
    { apply not_elem_of_dom. rewrite Hdom. intros Hin%elem_of_list_to_set.
      unfold hyperparams_keys in Hin.
      repeat (apply elem_of_cons in Hin as [Hin|Hin]; [done|]).
      by apply elem_of_nil in Hin. }
    unfold bind, try_except, item, raise. rewrite Hnone.
    eexists. split; [reflexivity|]. by eexists.
  - exists e. split; [done|].
    intros d Hjson Hwf. exfalso.
    assert (@Raised json_doc e = Returned (JsonDict d)); [|done].
    apply Hiff. split; [done|]. by exists d.
Qed.

(** X25. [update_total_timesteps_json] never returns and never writes: the
    format check of the load admits no key [n_timesteps], so the file is
    either rejected by the load or lacks the key that the update reads, and
    the update raises - [Warning] when the file is well formed. *)
Theorem update_total_timesteps_json_never (py_int : pyval -> exn + Z) (timesteps : Z)
    (configs : gmap string json_doc) (w : World) :
  let r := update_total_timesteps_json py_int timesteps configs w in
  (exists e, result r = Raised e) /\
  self_after r = configs /\ world_after r = w /\
  (forall d, hyperparameters_json w = Some (JsonDict d) -> well_formed_hyperparams d ->
     exists msg, result r = Raised (WarningExn msg)).
Proof.
  intros r. subst r.
  destruct (update_total_timesteps_json_run py_int timesteps configs w) as (e & Hrun & Hw).
  rewrite Hrun. unfold result, self_after, world_after. simpl.
  split; [by exists e|]. split; [done|]. split; [done|].
  intros d Hjson Hwf. destruct (Hw d Hjson Hwf) as [msg ->]. by exists msg.
Qed.

(** X26. A stage written by [_update_curr_stage_json] keeps the file
    loadable: when the file passed the format check before, it passes it
    afterwards, and loading it gives the dictionary with the new
    [curr_stage] and every other entry as before. *)
Theorem update_curr_stage_json_keeps_format (t : StagedRandomTask) (w : World)
    (d : gmap string pyval) (config_name : string) (configs : gmap string json_doc) :
  hyperparameters_json w = Some (JsonDict d) ->
  well_formed_hyperparams d ->
  let w' := world_after (_update_curr_stage_json t w) in
  let d' := <["curr_stage" := VInt (_curr_stage t)]> d in
  well_formed_hyperparams d' /\
  result (load_hyperparameters_json false config_name configs w') = Returned (JsonDict d').
Proof.
  intros Hjson (Hdom & Hdisc & Hmode) w' d'.
  assert (well_formed_hyperparams d') as Hwf.
  { subst d'. unfold well_formed_hyperparams. split; [|split].
    - rewrite dom_insert_lookup_L; [exact Hdom|].
      apply elem_of_dom. rewrite Hdom.
      apply elem_of_list_to_set, list_elem_of_In. simpl. tauto.
    - by rewrite lookup_insert_ne.
    - by rewrite lookup_insert_ne. }
  split; [done|].
  assert (hyperparameters_json w' = Some (JsonDict d')) as Hjson'.
  { subst w' d'. unfold _update_curr_stage_json, bind, get_self, get_world, world_after.
    simpl. by rewrite Hjson. }
  destruct (load_hyperparameters_json_run false config_name configs w')
    as (o & Hrun & _ & Hiff & _).
  rewrite Hrun. unfold result. simpl. apply Hiff. split; [done|]. by exists d'.
Qed.

(** * train_agent_utils: waiting for the nodes *)

Lemma for_each_ret {T A} (xs : list A) (body : A -> M T unit) (t : T) (w : World) :
  (forall x, body x t w = (Returned tt, t, w)) ->
  for_each xs body t w = (Returned tt, t, w).
Proof.
  intros Hbody. induction xs as [|x xs IH]; [done|].
  simpl. unfold bind. by rewrite Hbody.
Qed.

Lemma wait_for_nodes_accepted (nodes : NodeOracle) (with_ns : bool)
    (n_envs timeout nodes_per_ns : Z) (t : Rosnode) (w : World) :
  envs_accepted with_ns n_envs ->
  wait_for_nodes nodes with_ns n_envs timeout nodes_per_ns t w =
    for_each (seqZ 0 n_envs)
      (fun i => connect_loop nodes (node_ns with_ns i) timeout nodes_per_ns (seqZ 0 timeout))
      t w.
Proof.
  unfold envs_accepted, wait_for_nodes. intros Hacc. unfold bind at 1.
  destruct with_ns; simpl.
  - by destruct (Z.geb_spec n_envs 1) as [|]; [|lia].
  - by destruct (Z.eqb_spec n_envs 1).
Qed.

(** X27. With a time-out of zero or less [wait_for_nodes] asks for no node
    and returns at once, whether the nodes are there or not. *)
Theorem wait_for_nodes_no_timeout (nodes : NodeOracle) (with_ns : bool)
    (n_envs timeout nodes_per_ns : Z) (t : Rosnode) (w : World) :
  envs_accepted with_ns n_envs ->
  timeout <= 0 ->
  wait_for_nodes nodes with_ns n_envs timeout nodes_per_ns t w = (Returned tt, t, w).
Proof.
  intros Hacc Htimeout. rewrite wait_for_nodes_accepted by done.
  apply for_each_ret. intros i.
  replace (seqZ 0 timeout) with (@nil Z); [done|].
  unfold seqZ. by replace (Z.to_nat timeout) with 0%nat by lia.
Qed.

(** The polls of one namespace, from the value [k] of the loop variable
    on: the node is offline for [j] seconds and online then. *)
Lemma connect_loop_online (nodes : NodeOracle) (ns_ : string) (timeout nodes_per_ns : Z)
    (j : nat) (k : Z) (t : Rosnode) (w : World) :
  0 <= k ->
  k + Z.of_nat j < timeout ->
  (forall i : nat, (i < j)%nat -> offline nodes nodes_per_ns ns_ (clock t + Z.of_nat i)) ->
  online nodes nodes_per_ns ns_ (clock t + Z.of_nat j) ->
  connect_loop nodes ns_ timeout nodes_per_ns (seqZ k (timeout - k)) t w =
    (Returned tt,
     {| clock := clock t + Z.of_nat j; polled := polled t ++ replicate (S j) ns_ |}, w).
Proof.
  revert k t. induction j as [|j IH]; intros k t Hk Hlt Hoff Hon.
  - rewrite (seqZ_cons k (timeout - k)) by lia. simpl.
    destruct Hon as (names & Hnames & Hlen). rewrite Z.add_0_r in Hnames.
    unfold bind, get_node_names. rewrite Hnames.
    destruct (Z.geb_spec (Z.of_nat (length names)) nodes_per_ns) as [_|]; [|lia].
    unfold ret. by rewrite Z.add_0_r.
  - rewrite (seqZ_cons k (timeout - k)) by lia. simpl.
    destruct (Hoff 0%nat ltac:(lia)) as (names & Hnames & Hlen).
    rewrite Z.add_0_r in Hnames.
    unfold bind at 1, get_node_names at 1. rewrite Hnames.
    destruct (Z.geb_spec (Z.of_nat (length names)) nodes_per_ns) as [|_]; [lia|].
    unfold bind at 1. destruct (Z.ltb_spec k (timeout - 1)) as [_|]; [|lia].
    unfold ret at 1. unfold bind at 1, sleep at 1, set_self at 1. cbn [clock polled].
    replace (Z.pred (timeout - k)) with (timeout - Z.succ k) by lia.
    rewrite (IH (Z.succ k)); cbn [clock polled]; try lia.
    + f_equal. f_equal. f_equal; [lia|].
      rewrite <- app_assoc. simpl. done.
    + intros i Hi. specialize (Hoff (S i) ltac:(lia)).
      by replace (clock t + 1 + Z.of_nat i) with (clock t + Z.of_nat (S i)) by lia.
    + by replace (clock t + 1 + Z.of_nat j) with (clock t + Z.of_nat (S j)) by lia.
Qed.

(** The polls of one namespace whose nodes stay offline. *)
Lemma connect_loop_offline (nodes : NodeOracle) (ns_ : string) (timeout nodes_per_ns : Z)
    (m : nat) (k : Z) (t : Rosnode) (w : World) :
  0 <= k ->
  k + Z.of_nat (S m) = timeout ->
  (forall i : nat, (i <= m)%nat -> offline nodes nodes_per_ns ns_ (clock t + Z.of_nat i)) ->
  connect_loop nodes ns_ timeout nodes_per_ns (seqZ k (timeout - k)) t w =
    (Raised (AssertionError ("Timeout while trying to connect to nodes of '" +:+ ns_ +:+ "'")),
     {| clock := clock t + Z.of_nat m; polled := polled t ++ replicate (S m) ns_ |}, w).
Proof.
  revert k t. induction m as [|m IH]; intros k t Hk Hlt Hoff.
  - rewrite (seqZ_cons k (timeout - k)) by lia. simpl.
    destruct (Hoff 0%nat ltac:(lia)) as (names & Hnames & Hlen).
    rewrite Z.add_0_r in Hnames.
    unfold bind at 1, get_node_names at 1. rewrite Hnames.
    destruct (Z.geb_spec (Z.of_nat (length names)) nodes_per_ns) as [|_]; [lia|].
    unfold bind at 1. destruct (Z.ltb_spec k (timeout - 1)) as [|_]; [lia|].
    unfold raise. by rewrite Z.add_0_r.
  - rewrite (seqZ_cons k (timeout - k)) by lia. simpl.
    destruct (Hoff 0%nat ltac:(lia)) as (names & Hnames & Hlen).
    rewrite Z.add_0_r in Hnames.
    unfold bind at 1, get_node_names at 1. rewrite Hnames.
    destruct (Z.geb_spec (Z.of_nat (length names)) nodes_per_ns) as [|_]; [lia|].
    unfold bind at 1. destruct (Z.ltb_spec k (timeout - 1)) as [_|]; [|lia].
    unfold ret at 1. unfold bind at 1, sleep at 1, set_self at 1. cbn [clock polled].
    replace (Z.pred (timeout - k)) with (timeout - Z.succ k) by lia.
    rewrite (IH (Z.succ k)); cbn [clock polled]; try lia.
    + f_equal. f_equal. f_equal; [lia|].
      rewrite <- app_assoc. simpl. done.
    + intros i Hi. specialize (Hoff (S i) ltac:(lia)).
      by replace (clock t + 1 + Z.of_nat i) with (clock t + Z.of_nat (S i)) by lia.
Qed.

(** X28. Without namespaces (one environment): when the nodes come online
    [j] seconds after the call, with [j] less than the time-out,
    [wait_for_nodes] returns after exactly [j] seconds and [j + 1] polls;
    when they stay offline for the whole time-out it raises
    [AssertionError] after [timeout] polls and [timeout - 1] seconds. *)
Theorem wait_for_nodes_single (nodes : NodeOracle) (timeout nodes_per_ns : Z) (j : nat)
    (t : Rosnode) (w : World) :
  (forall i : nat, (i < j)%nat -> offline nodes nodes_per_ns "" (clock t + Z.of_nat i)) ->
  (Z.of_nat j < timeout ->
   online nodes nodes_per_ns "" (clock t + Z.of_nat j) ->
   wait_for_nodes nodes false 1 timeout nodes_per_ns t w =
     (Returned tt,
      {| clock := clock t + Z.of_nat j; polled := polled t ++ replicate (S j) "" |}, w)) /\
  (Z.of_nat j = timeout -> 0 < timeout ->
   wait_for_nodes nodes false 1 timeout nodes_per_ns t w =
     (Raised (AssertionError "Timeout while trying to connect to nodes of ''"),
      {| clock := clock t + (timeout - 1); polled := polled t ++ replicate j "" |}, w)).
Proof.
  intros Hoff. split.
  - intros Hlt Hon. rewrite wait_for_nodes_accepted by done.
    change (seqZ 0 1) with [0]. cbn [for_each]. unfold bind at 1.
    change (node_ns false 0) with "".
    replace (seqZ 0 timeout) with (seqZ 0 (timeout - 0)) by (f_equal; lia).
    by rewrite (connect_loop_online nodes "" timeout nodes_per_ns j 0 t w).
  - intros Heq Hpos. rewrite wait_for_nodes_accepted by done.
    change (seqZ 0 1) with [0]. cbn [for_each]. unfold bind at 1.
    change (node_ns false 0) with "".
    replace (seqZ 0 timeout) with (seqZ 0 (timeout - 0)) by (f_equal; lia).
    destruct j as [|m]; [lia|].
    rewrite (connect_loop_offline nodes "" timeout nodes_per_ns m 0 t w); try lia.
    + simpl. do 3 f_equal. lia.
    + intros i Hi. apply Hoff. lia.
Qed.

(** X29. With namespaces: when the nodes of all [n_envs] namespaces are
    online at the time of the call, [wait_for_nodes] returns without
    sleeping, having asked once for each of sim_1 .. sim_n, in this
    order. *)
Theorem wait_for_nodes_all_online (nodes : NodeOracle) (n_envs timeout nodes_per_ns : Z)
    (t : Rosnode) (w : World) :
  1 <= n_envs ->
  0 < timeout ->
  (forall i, 0 <= i < n_envs -> online nodes nodes_per_ns (node_ns true i) (clock t)) ->
  wait_for_nodes nodes true n_envs timeout nodes_per_ns t w =
    (Returned tt,
     {| clock := clock t; polled := polled t ++ (node_ns true <$> seqZ 0 n_envs) |}, w).
Proof.
  intros Hn Htimeout Hon. rewrite wait_for_nodes_accepted by done.
  assert (forall i, i ∈ seqZ 0 n_envs ->
            online nodes nodes_per_ns (node_ns true i) (clock t)) as Hall.
  { intros i Hi. apply Hon. apply elem_of_seqZ in Hi. lia. }
  clear Hon. revert t Hall.
  induction (seqZ 0 n_envs) as [|i xs IH]; intros t Hall.
  - simpl. unfold ret. destruct t. simpl. by rewrite app_nil_r.
  - cbn [for_each]. unfold bind at 1.
    pose proof (connect_loop_online nodes (node_ns true i) timeout nodes_per_ns 0 0 t w)
      as Hone.
    rewrite Z.sub_0_r in Hone. rewrite Hone; try lia.
    + rewrite IH.
      * cbn [clock polled]. rewrite fmap_cons, Z.add_0_r, <- app_assoc. done.
      * intros i' Hi'. cbn [clock]. rewrite Z.add_0_r. apply Hall. by right.
    + rewrite Z.add_0_r. apply Hall. by left.
Qed.

(** What the polls of one namespace cost at most. *)
Lemma connect_loop_cost (nodes : NodeOracle) (ns_ : string) (timeout nodes_per_ns : Z)
    (m : nat) (k : Z) (t : Rosnode) (w : World) :
  k + Z.of_nat m = timeout ->
  exists o t',
    connect_loop nodes ns_ timeout nodes_per_ns (seqZ k (Z.of_nat m)) t w = (o, t', w) /\
    o <> Blocked /\
    clock t <= clock t' <= clock t + Z.max 0 (Z.of_nat m - 1) /\
    (length (polled t') <= length (polled t) + m)%nat.
Proof.
  revert k t. induction m as [|m IH]; intros k t Hk.
  - simpl. unfold ret. eexists _, _. split; [reflexivity|]. repeat split; try done; lia.
  - rewrite (seqZ_cons k (Z.of_nat (S m))) by lia. cbn [connect_loop].
    unfold bind at 1, get_node_names at 1.
    destruct (nodes ns_ (clock t)) as [e|names].
    { eexists _, _. split; [reflexivity|]. simpl.
      rewrite length_app. simpl. repeat split; try done; lia. }
    destruct (Z.geb_spec (Z.of_nat (length names)) nodes_per_ns) as [_|_].
    { unfold ret. eexists _, _. split; [reflexivity|]. simpl.
      rewrite length_app. simpl. repeat split; try done; lia. }
    unfold bind at 1. destruct (Z.ltb_spec k (timeout - 1)) as [Hlt|Hge].
    + unfold ret at 1. unfold bind at 1, sleep at 1, set_self at 1. cbn [clock polled].
      replace (Z.pred (Z.of_nat (S m))) with (Z.of_nat m) by lia.
      match goal with |- context [connect_loop _ _ _ _ _ ?t1 w] =>
        destruct (IH (Z.succ k) t1 ltac:(lia)) as (o & t' & Hrun & H1 & H3 & H4)
      end.
      rewrite Hrun. cbn [clock polled] in H3, H4. rewrite length_app in H4. simpl in H4.
      eexists _, _. split; [reflexivity|]. repeat split; try done; lia.
    + unfold raise. eexists _, _. split; [reflexivity|]. simpl.
      rewrite length_app. simpl. repeat split; try done; lia.
Qed.

(** What the polls of all namespaces cost at most. *)
Lemma for_each_connect_cost (nodes : NodeOracle) (with_ns : bool)
    (timeout nodes_per_ns : Z) (xs : list Z) (t : Rosnode) (w : World) :
  exists o t',
    for_each xs
      (fun i => connect_loop nodes (node_ns with_ns i) timeout nodes_per_ns (seqZ 0 timeout))
      t w = (o, t', w) /\
    o <> Blocked /\
    clock t <= clock t' <= clock t + Z.of_nat (length xs) * Z.max 0 (timeout - 1) /\
    Z.of_nat (length (polled t'))
      <= Z.of_nat (length (polled t)) + Z.of_nat (length xs) * Z.max 0 timeout.
Proof.
  revert t. induction xs as [|i xs IH]; intros t.
  - simpl. unfold ret. eexists _, _. split; [reflexivity|]. repeat split; try done; lia.
  - cbn [for_each]. unfold bind at 1.
    destruct (connect_loop_cost nodes (node_ns with_ns i) timeout nodes_per_ns
                (Z.to_nat timeout) (timeout - Z.of_nat (Z.to_nat timeout)) t w
                ltac:(lia)) as (o1 & t1 & Hone & Hnb & Hclock & Hpolled).
    assert (seqZ (timeout - Z.of_nat (Z.to_nat timeout)) (Z.of_nat (Z.to_nat timeout))
            = seqZ 0 timeout) as Hseq.
    { destruct (Z.le_gt_cases timeout 0).
      - unfold seqZ. by replace (Z.to_nat timeout) with 0%nat by lia.
      - f_equal; lia. }
    rewrite Hseq in Hone. rewrite Hone.
    destruct o1 as [u|e|]; [| |done].
    + destruct (IH t1) as (o & t' & Hrun & H1 & H3 & H4). rewrite Hrun.
      eexists _, _. split; [reflexivity|]. split; [done|].
      cbn [length]. split; nia.
    + eexists _, _. split; [reflexivity|]. split; [done|].
      cbn [length]. split; nia.
Qed.

(** X30. Whatever the nodes do, [wait_for_nodes] comes back: it sleeps at
    most [timeout - 1] seconds and asks at most [timeout] times for each of
    the [n_envs] namespaces, and its clock never runs backwards. *)
Theorem wait_for_nodes_cost (nodes : NodeOracle) (with_ns : bool)
    (n_envs timeout nodes_per_ns : Z) (t : Rosnode) (w : World) :
  let r := wait_for_nodes nodes with_ns n_envs timeout nodes_per_ns t w in
  result r <> Blocked /\
  world_after r = w /\
  clock t <= clock (self_after r) <= clock t + Z.max 0 n_envs * Z.max 0 (timeout - 1) /\
  Z.of_nat (length (polled (self_after r)))
    <= Z.of_nat (length (polled t)) + Z.max 0 n_envs * Z.max 0 timeout.
Proof.
  intros r.
  assert (exists o t', r = (o, t', w) /\ o <> Blocked /\
            clock t <= clock t' <= clock t + Z.max 0 n_envs * Z.max 0 (timeout - 1) /\
            Z.of_nat (length (polled t'))
              <= Z.of_nat (length (polled t)) + Z.max 0 n_envs * Z.max 0 timeout)
    as (o & t' & -> & Hnb & Hclock & Hpolled); [|done].
  subst r. unfold wait_for_nodes. unfold bind at 1.
  assert (Z.of_nat (length (seqZ 0 n_envs)) = Z.max 0 n_envs) as Hlen
    by (rewrite length_seqZ; lia).
  destruct (for_each_connect_cost nodes with_ns timeout nodes_per_ns (seqZ 0 n_envs) t w)
    as (o & t' & Hrun & Hnb & Hclock & Hpolled).
  rewrite Hlen in Hclock, Hpolled.
  destruct with_ns; cbn [andb negb].
  - destruct (n_envs >=? 1).
    + unfold ret at 1. rewrite Hrun. by eexists _, _.
    + unfold raise. eexists _, _. split; [reflexivity|]. repeat split; try done; nia.
  - destruct (n_envs =? 1).
    + unfold ret at 1. rewrite Hrun. by eexists _, _.
    + unfold raise. eexists _, _. split; [reflexivity|]. repeat split; try done; nia.
Qed.

End Tasks.

(** * Instances on the sample surroundings *)

(** Placement fails three times, and twice followed by a success: the
    goal pose answered in the third attempt is at (8, 9). *)
Lemma RandomTask_reset_retry_bound_witness :
  result (RandomTask_reset 1 sample_random (sample_world (placement_fails_before 9)))
    = Raised (PlainException "reset error!") /\
  result (RandomTask_reset 1 sample_random (sample_world (placement_fails_before 6)))
    = Returned {[ "robot_goal_pos" := VArr [8%Q; 9%Q] ]}.
Proof.
  split.
  - destruct (RandomTask_reset_retry_bound 1 sample_random
                (sample_world (placement_fails_before 9)) eq_refl) as [H3 _].
    erewrite H3; cycle 1.
    + repeat (eapply attempts_fail_S; [reflexivity|]). apply attempts_fail_O.
    + reflexivity.
  - destruct (RandomTask_reset_retry_bound 1 sample_random
                (sample_world (placement_fails_before 6)) eq_refl) as [_ H2].
    edestruct (H2 2%nat) as [_ Hrun].
    + lia.
    + repeat (eapply attempts_fail_S; [reflexivity|]). apply attempts_fail_O.
    + reflexivity.
    + rewrite Hrun. reflexivity.
Defined.



Lemma calm_reliable : reliable calm.
Proof. intros k c. by eexists. Qed.

Lemma curriculum_3_3_6_contiguous : contiguous curriculum_3_3_6.
Proof.
  intros k Hk. change (Z.of_nat (size curriculum_3_3_6)) with 3 in Hk.
  assert (k = 1 \/ k = 2 \/ k = 3) as [-> | [-> | ->]] by lia; by eexists.
Qed.

(** The goal arrives in the first round; the second round times out. *)
Lemma ManualTask_reset_goal_then_timeout_witness :
  result (ManualTask_reset 1 2 blank_ManualTask (sample_world one_goal))
    = Raised (PlainException "TimeOut, User does't provide goal position!").
Proof.
  destruct (ManualTask_reset_goal_then_timeout 1) as [_ H].
  exact (proj1 (H 0%nat)).
Defined.

(** Start stage 2 of 3, then three triggers. *)
Lemma StagedRandomTask_stage_range_witness :
  let r := StagedRandomTask_init (VInt 3) "eval_sim" (IntArg 2) sample_PATHS
             blank_StagedRandomTask (staged_world curriculum_3_3_6 calm) in
  result r = Returned tt /\ _curr_stage (self_after r) = 2 /\
  1 <= _curr_stage (deliver [Advance; Advance; Retreat] (self_after r)
                      (staged_world curriculum_3_3_6 calm)).1 <= 3.
Proof.
  destruct (StagedRandomTask_stage_range (VInt 3) "eval_sim" 2 sample_PATHS curriculum_3_3_6
              (staged_world curriculum_3_3_6 calm) (VStr "small_warehouse") (VStr "burger")
              (mk_is_Some _ _ eq_refl) (mk_is_Some _ _ eq_refl)
              eq_refl curriculum_3_3_6_contiguous (mk_is_Some _ _ eq_refl)
              eq_refl eq_refl calm_reliable)
    as (Hin & _ & Hrange & _).
  assert (1 <= 2 <= Z.of_nat (size curriculum_3_3_6)) as Hs
    by (change (Z.of_nat (size curriculum_3_3_6)) with 3; lia).
  destruct (Hin Hs) as [Hres Hcur].
  split; [exact Hres|]. split; [exact Hcur|].
  exact (Hrange Hs [Advance; Advance; Retreat] (staged_world curriculum_3_3_6 calm)).
Defined.

(** From stage 1 of 3, two advances and two retreats end at stage 1. *)
Lemma advance_then_retreat_witness :
  _curr_stage
    (deliver (repeat Advance 2 ++ repeat Retreat 2)
       (staged_at "eval_sim" curriculum_3_3_6 1) (staged_world curriculum_3_3_6 calm)).1 = 1.
Proof.
  assert (in_range (staged_at "eval_sim" curriculum_3_3_6 1)) as Hin
    by (unfold in_range; change (n_stages (staged_at "eval_sim" curriculum_3_3_6 1)) with 3;
        simpl; lia).
  destruct (advance_then_retreat 2 (staged_at "eval_sim" curriculum_3_3_6 1)
              (staged_world curriculum_3_3_6 calm) Hin) as [_ Hback].
  apply Hback.
  change (n_stages (staged_at "eval_sim" curriculum_3_3_6 1)) with 3. simpl. lia.
Defined.

(** C6, as stated, fails: at the last of three stages one advance trigger
    is a no-op, and the retreat trigger after it ends at stage 2. *)
Lemma advance_then_retreat_not_identity :
  ~ (forall (k : nat) (t : StagedRandomTask) (w : World),
       in_range t ->
       _curr_stage (deliver (repeat Advance k ++ repeat Retreat k) t w).1 = _curr_stage t).
Proof.
  intros Hclaim.
  specialize (Hclaim 1%nat (staged_at "eval_sim" curriculum_3_3_6 3)
                (staged_world curriculum_3_3_6 calm)).
  assert (in_range (staged_at "eval_sim" curriculum_3_3_6 3)) as Hin
    by (unfold in_range; change (n_stages (staged_at "eval_sim" curriculum_3_3_6 3)) with 3;
        simpl; lia).
  specialize (Hclaim Hin). vm_compute in Hclaim. discriminate.
Qed.

(** The second call of [reset]. *)
Lemma ScenarioTask_reset_reports_witness :
  exists info,
    result (ScenarioTask_reset
              (after_resets 1 sample_scenario_task (sample_world calm)).1
              (after_resets 1 sample_scenario_task (sample_world calm)).2) = Returned info /\
    info !! "new_scenerio_loaded" = Some (VBool false) /\
    info !! "num_repeats_curr_scene" = Some (VInt 2).
Proof.
  destruct (ScenarioTask_reset_reports 2 sample_scenario_task (sample_world calm)
              eq_refl ltac:(lia)) as [Hfields Hreturns].
  destruct (Hreturns eq_refl calm_reliable) as [info Hinfo].
  exists info. split; [exact Hinfo|]. exact (Hfields info Hinfo).
Defined.

(** The mode tag custom. *)
Lemma get_predefined_task_unknown_mode_witness :
  result (get_predefined_task (VInt 3) "eval_sim" "custom" (IntArg 1) ∅ tt (sample_world calm))
    = Returned None.
Proof.
  destruct (get_predefined_task_unknown_mode (VInt 3) "eval_sim" "custom" (IntArg 1) ∅
              (sample_world calm)
              ltac:(discriminate) ltac:(discriminate) ltac:(discriminate) ltac:(discriminate))
    as (_ & _ & Hnone).
  destruct (Hnone calm_reliable) as [map_ Heq]. rewrite Heq. reflexivity.
Defined.

(** C5, as stated, fails: for the mode tag custom the factory returns
    [None] and raises nothing. *)
Lemma get_predefined_task_unknown_mode_returns :
  ~ (forall mode : string,
       mode <> "random" -> mode <> "staged" -> mode <> "scenario" -> mode <> "manual" ->
       exists e,
         result (get_predefined_task (VInt 3) "eval_sim" mode (IntArg 1) ∅ tt
                   (sample_world calm)) = Raised e).
Proof.
  intros Hclaim.
  destruct (Hclaim "custom") as [e He]; [discriminate..|].
  vm_compute in He. discriminate He.
Qed.

(** * Instances of the further properties *)

(** The goal arrives within the window of the first round. *)
Lemma ManualTask_round_goal_witness :
  let r := ManualTask_reset_round 1 blank_ManualTask (sample_world one_goal) in
  result r = Returned tt /\ _goal (self_after r) = sample_goal /\
  map_lock (world_after r) = false.
Proof.
  destruct (ManualTask_round_goal 1 blank_ManualTask (sample_world one_goal)
              (sample_pose 1 2) sample_goal
              eq_refl eq_refl eq_refl eq_refl eq_refl eq_refl eq_refl eq_refl)
    as (Hres & Hself & _ & Hlock).
  cbv zeta. rewrite Hself. split; [exact Hres|]. split; [reflexivity | exact Hlock].
Defined.

(** The goal was delivered before the round began: nobody waits. *)
Lemma ManualTask_round_early_goal_witness :
  let t1 := self_after (_set_goal_callback sample_goal blank_ManualTask (sample_world calm)) in
  let r := ManualTask_reset_round 1 t1 (sample_world calm) in
  result r = Returned tt /\
  calls (world_after r) =
    [RemoveAllObstacles; SetStartPosRandom;
     RegisterRandomDynamicObstacles VNone (Some [zone_of 1 (sample_pose 1 2)]);
     GoalPubPublish sample_goal; PubMvbGoalPublish sample_goal].
Proof.
  pose proof (ManualTask_round_early_goal 1 blank_ManualTask (sample_world calm)
                (sample_pose 1 2) sample_goal eq_refl eq_refl eq_refl eq_refl eq_refl eq_refl)
    as Hrun.
  cbv zeta in *. rewrite Hrun. split; reflexivity.
Defined.

(** The first publisher raises: the round returns, and the second
    publisher is not called. *)
Lemma ManualTask_round_publish_failure_witness :
  let r := ManualTask_reset_round 1 blank_ManualTask (sample_world publisher_down) in
  result r = Returned tt /\
  calls (world_after r) =
    [RemoveAllObstacles; SetStartPosRandom;
     RegisterRandomDynamicObstacles VNone (Some [zone_of 1 (sample_pose 1 2)]);
     WaitForGoal 60; GoalPubPublish sample_goal].
Proof.
  pose proof (ManualTask_round_publish_failure 1 blank_ManualTask
                (sample_world publisher_down) (sample_pose 1 2) sample_goal (OtherError 5)
                eq_refl eq_refl eq_refl eq_refl eq_refl eq_refl eq_refl)
    as Hrun.
  cbv zeta in *. rewrite Hrun. split; reflexivity.
Defined.

(** From stage 2 to stage 3 the dynamic count rises from 3 to 6. *)
Lemma next_stage_restart_witness :
  calls (world_after (next_stage (staged_at "eval_sim" curriculum_3_3_6 2)
                        (staged_world curriculum_3_3_6 calm))) =
    RemoveAllObstacles :: restart_sequence (VStr "small_warehouse") (VStr "burger").
Proof.
  apply (next_stage_restart (staged_at "eval_sim" curriculum_3_3_6 2)
           (staged_world curriculum_3_3_6 calm)
           {| static := 10; dynamic := 3 |} {| static := 10; dynamic := 6 |}
           (VStr "small_warehouse") (VStr "burger")).
  - exact calm_reliable.
  - reflexivity.
  - reflexivity.
  - change (n_stages (staged_at "eval_sim" curriculum_3_3_6 2)) with 3. simpl. lia.
  - reflexivity.
  - reflexivity.
Defined.

(** From stage 3 to stage 2, with the count 3 at stage 2 and 0 at
    stage 1. *)
Lemma previous_stage_restart_witness :
  calls (world_after (previous_stage (staged_at "sim_1" curriculum_0_3_3 3)
                        (staged_world curriculum_0_3_3 calm))) =
    RemoveAllObstacles :: restart_sequence (VStr "small_warehouse") (VStr "burger").
Proof.
  apply (previous_stage_restart (staged_at "sim_1" curriculum_0_3_3 3)
           (staged_world curriculum_0_3_3 calm)
           {| static := 5; dynamic := 3 |} {| static := 5; dynamic := 0 |}
           (VStr "small_warehouse") (VStr "burger")).
  - exact calm_reliable.
  - reflexivity.
  - reflexivity.
  - simpl. lia.
  - reflexivity.
  - right. reflexivity.
Defined.

(** The training environment of rank 0 handles a retreat trigger. *)
Lemma training_namespace_never_persists_witness :
  let t := staged_at "sim_1" curriculum_3_3_6 3 in
  let w := last_stage_world curriculum_3_3_6 calm in
  hyperparameters_json (world_after (handle Retreat t w)) = hyperparameters_json w /\
  params (world_after (handle Retreat t w)) !! "/curr_stage" = Some (VInt 3).
Proof.
  destruct (training_namespace_never_persists true 0 Retreat
              (staged_at "sim_1" curriculum_3_3_6 3) (last_stage_world curriculum_3_3_6 calm))
    as (Hjson & Hparam & _).
  - left. vm_compute. reflexivity.
  - cbv zeta. split; [exact Hjson|]. rewrite Hparam. reflexivity.
Defined.

(** A follower retreats from stage 2. *)
Lemma retreat_clears_flag_witness :
  params (world_after (previous_stage (staged_at "sim_2" curriculum_3_3_6 2)
                         (last_stage_world curriculum_3_3_6 calm)))
    !! "/last_stage_reached" = Some (VBool false).
Proof.
  apply (retreat_clears_flag (staged_at "sim_2" curriculum_3_3_6 2)
           (last_stage_world curriculum_3_3_6 calm)).
  simpl. lia.
Defined.

(** The authority retreats from the last of three stages. *)
Lemma authority_retreat_persists_witness :
  let r := previous_stage (staged_at "eval_sim" curriculum_3_3_6 3)
             (last_stage_world curriculum_3_3_6 calm) in
  result r = Returned tt /\
  params (world_after r) !! "/last_stage_reached" = Some (VBool false) /\
  params (world_after r) !! "/curr_stage" = Some (VInt 2).
Proof.
  destruct (authority_retreat_persists (staged_at "eval_sim" curriculum_3_3_6 3)
              (last_stage_world curriculum_3_3_6 calm)
              {| static := 10; dynamic := 3 |} {| static := 5; dynamic := 3 |}
              (VStr "small_warehouse") (VStr "burger") {[ "curr_stage" := VInt 3 ]}
              eq_refl calm_reliable eq_refl eq_refl eq_refl ltac:(simpl; lia) eq_refl
              (or_intror eq_refl))
    as (Hres & Hflag & Hparam & _).
  cbv zeta. split; [exact Hres|]. split; [exact Hflag | exact Hparam].
Defined.

(** The authority advances to the last of three stages. *)
Lemma authority_advance_persists_witness :
  let r := next_stage (staged_at "eval_sim" curriculum_3_3_6 2)
             (staged_world curriculum_3_3_6 calm) in
  result r = Returned tt /\
  params (world_after r) !! "/curr_stage" = Some (VInt 3) /\
  params (world_after r) !! "/last_stage_reached" = Some (VBool true).
Proof.
  assert (_curr_stage (staged_at "eval_sim" curriculum_3_3_6 2)
            < n_stages (staged_at "eval_sim" curriculum_3_3_6 2)) as Hlt
    by (change (n_stages (staged_at "eval_sim" curriculum_3_3_6 2)) with 3; simpl; lia).
  destruct (authority_advance_persists (staged_at "eval_sim" curriculum_3_3_6 2)
              (staged_world curriculum_3_3_6 calm)
              {| static := 10; dynamic := 6 |} {| static := 10; dynamic := 3 |}
              (VStr "small_warehouse") (VStr "burger") {[ "curr_stage" := VInt 1 ]}
              eq_refl calm_reliable eq_refl eq_refl eq_refl Hlt eq_refl
              (or_intror eq_refl))
    as (Hres & _ & Hparam & _ & Hflag).
  cbv zeta. split; [exact Hres|]. split; [exact Hparam | exact Hflag].
Defined.

(** The spawn service of the simulator does not come up during the
    restart for stage 2. *)
Lemma advance_failure_leaves_record_witness :
  let t := staged_at "eval_sim" curriculum_0_3_3 1 in
  let w := staged_world curriculum_0_3_3 service_never_up in
  let r := next_stage t w in
  result r = Raised (OtherError 11) /\
  _curr_stage (self_after r) = 2 /\
  hyperparameters_json (world_after r) = Some (JsonDict {[ "curr_stage" := VInt 1 ]}).
Proof.
  assert (_curr_stage (staged_at "eval_sim" curriculum_0_3_3 1)
            < n_stages (staged_at "eval_sim" curriculum_0_3_3 1)) as Hlt
    by (change (n_stages (staged_at "eval_sim" curriculum_0_3_3 1)) with 3; simpl; lia).
  destruct (advance_failure_leaves_record (staged_at "eval_sim" curriculum_0_3_3 1)
              (staged_world curriculum_0_3_3 service_never_up) (OtherError 11) Hlt eq_refl)
    as (Hres & Hcur & _ & _ & Hjson).
  cbv zeta. split; [exact Hres|]. split; [exact Hcur | exact Hjson].
Defined.

Lemma sample_hyperparams_well_formed : well_formed_hyperparams sample_hyperparams.
Proof.
  split; [|split].
  - unfold sample_hyperparams. rewrite dom_list_to_map_L. reflexivity.
  - by exists false.
  - right. right. reflexivity.
Qed.

Lemma trained_world_consistent :
  authority_consistent (staged_at "eval_sim" curriculum_3_3_6 1)
    (trained_world curriculum_3_3_6 calm).
Proof.
  split; [reflexivity|]. split; [exact curriculum_3_3_6_contiguous|].
  split.
  { unfold in_range. change (n_stages (staged_at "eval_sim" curriculum_3_3_6 1)) with 3.
    simpl. lia. }
  split; [exact calm_reliable|].
  split; [by eexists|]. split; [by eexists|]. split; [reflexivity|].
  split; [exists sample_hyperparams; by split|].
  intros Hflag. discriminate Hflag.
Qed.

(** The authority handles two advance triggers and a retreat trigger. *)
Lemma deliver_consistent_witness :
  let t := staged_at "eval_sim" curriculum_3_3_6 1 in
  let w := trained_world curriculum_3_3_6 calm in
  authority_consistent t w /\
  authority_consistent (deliver [Advance; Advance; Retreat] t w).1
    (deliver [Advance; Advance; Retreat] t w).2.
Proof.
  cbv zeta. split; [exact trained_world_consistent|].
  exact (deliver_consistent [Advance; Advance; Retreat]
           (staged_at "eval_sim" curriculum_3_3_6 1) (trained_world curriculum_3_3_6 calm)
           trained_world_consistent).
Defined.

(** No curriculum file at the location that [PATHS] names; and no
    hyper-parameter file in the model directory. *)
Lemma StagedRandomTask_init_failures_witness :
  result (StagedRandomTask_init (VInt 3) "eval_sim" (IntArg 1) sample_PATHS
            blank_StagedRandomTask (sample_world calm))
    = Raised (FileNotFoundError
                "Couldn't find 'training_curriculum.yaml' in /configs/training_curriculum.yaml ") /\
  result (StagedRandomTask_init (VInt 3) "eval_sim" (IntArg 1) sample_PATHS
            blank_StagedRandomTask (with_json None (staged_world curriculum_3_3_6 calm)))
    = Raised (AssertionError
                "Found no 'hyperparameters.json' at /agents/AGENT_1/hyperparameters.json").
Proof.
  split.
  - destruct (StagedRandomTask_init_failures (VInt 3) "eval_sim" (IntArg 1) sample_PATHS
                "/configs/training_curriculum.yaml" "/agents/AGENT_1" ∅ 1
                (sample_world calm)) as (_ & Hnamed).
    destruct (Hnamed eq_refl) as (Hmissing & _).
    exact (proj1 (Hmissing eq_refl)).
  - destruct (StagedRandomTask_init_failures (VInt 3) "eval_sim" (IntArg 1) sample_PATHS
                "/configs/training_curriculum.yaml" "/agents/AGENT_1" curriculum_3_3_6 1
                (with_json None (staged_world curriculum_3_3_6 calm))) as (_ & Hnamed).
    destruct (Hnamed eq_refl) as (_ & _ & _ & _ & Hjson).
    assert (1 <= 1 <= Z.of_nat (size curriculum_3_3_6)) as Hs
      by (change (Z.of_nat (size curriculum_3_3_6)) with 3; lia).
    exact (proj1 (Hjson eq_refl Hs eq_refl eq_refl)).
Defined.

(** Start stage 2 of a curriculum with the keys 1 and 3. *)
Lemma StagedRandomTask_init_missing_entry_witness :
  result (StagedRandomTask_init (VInt 3) "eval_sim" (IntArg 2) sample_PATHS
            blank_StagedRandomTask (staged_world curriculum_gap calm))
    = Raised (KeyError (VInt 2)).
Proof.
  assert (1 <= 2 <= Z.of_nat (size curriculum_gap)) as Hs
    by (change (Z.of_nat (size curriculum_gap)) with 2; lia).
  exact (proj1 (StagedRandomTask_init_missing_entry (VInt 3) "eval_sim" 2 sample_PATHS
                  curriculum_gap (staged_world curriculum_gap calm)
                  (mk_is_Some _ _ eq_refl) (mk_is_Some _ _ eq_refl)
                  eq_refl (mk_is_Some _ _ eq_refl) eq_refl Hs eq_refl)).
Defined.

(** The record is rewritten at stage 2. *)
Lemma update_curr_stage_json_entry_witness :
  let t := staged_at "eval_sim" curriculum_3_3_6 2 in
  let w := staged_world curriculum_3_3_6 calm in
  exists updated : gmap string pyval,
    world_after (_update_curr_stage_json t w) = with_json (Some (JsonDict updated)) w /\
    updated !! "curr_stage" = Some (VInt 2).
Proof.
  destruct (update_curr_stage_json_entry (staged_at "eval_sim" curriculum_3_3_6 2)
              (staged_world curriculum_3_3_6 calm) {[ "curr_stage" := VInt 1 ]} eq_refl)
    as (updated & Hrun & Hentry & _).
  exists updated. cbv zeta in *. rewrite Hrun. split; [reflexivity | exact Hentry].
Defined.

(** The lock is free before and after. *)
Lemma RandomTask_reset_free_witness :
  result (RandomTask_reset 1 sample_random (sample_world calm)) <> Blocked /\
  map_lock (world_after (RandomTask_reset 1 sample_random (sample_world calm))) = false.
Proof.
  exact (RandomTask_reset_free 1 sample_random (sample_world calm) eq_refl).
Defined.

(** Two resets of the sample scenario: the pedestrians are reset and the
    robot manager is given the start (1, 1) and the goal (7, 2), twice. *)
Lemma ScenarioTask_reset_fixed_layout_witness :
  calls (after_resets 2 sample_scenario_task (sample_world calm)).2 =
    [ResetAllPeds;
     SetStartPosGoalPos
       (Some {| position := {| x := 1; y := 1; z := 0 |};
                orientation := {| qx := 0; qy := 0; qz := 0; qw := 1 |} |})
       (Some {| position := {| x := 7; y := 2; z := 0 |};
                orientation := {| qx := 0; qy := 0; qz := 0; qw := 1 |} |});
     ResetAllPeds;
     SetStartPosGoalPos
       (Some {| position := {| x := 1; y := 1; z := 0 |};
                orientation := {| qx := 0; qy := 0; qz := 0; qw := 1 |} |})
       (Some {| position := {| x := 7; y := 2; z := 0 |};
                orientation := {| qx := 0; qy := 0; qz := 0; qw := 1 |} |})].
Proof.
  exact (proj2 (ScenarioTask_reset_fixed_layout 2 sample_scenario_task (sample_world calm)
                  eq_refl calm_reliable)).
Defined.

(** The mode tag staged, with start stage 2 of 3 and the paths of a
    training run. *)
Lemma get_predefined_task_known_mode_witness :
  exists task w1,
    get_predefined_task (VInt 3) "eval_sim" "staged" (IntArg 2) sample_PATHS tt
      (staged_world curriculum_3_3_6 calm) = (Returned (Some task), tt, w1) /\
    variant_name task = "staged" /\
    params w1 !! "/task_mode" = Some (VStr "staged").
Proof.
  assert (1 <= 2 <= Z.of_nat (size curriculum_3_3_6)) as Hs
    by (change (Z.of_nat (size curriculum_3_3_6)) with 3; lia).
  apply (get_predefined_task_known_mode (VInt 3) "eval_sim" "staged" 2 curriculum_3_3_6
           sample_PATHS (staged_world curriculum_3_3_6 calm)
           (VStr "small_warehouse") (VStr "burger") calm_reliable).
  right. right. right.
  split; [reflexivity|]. split; [by eexists|]. split; [by eexists|].
  split; [reflexivity|].
  split; [exact curriculum_3_3_6_contiguous|].
  split; [by eexists|]. split; [reflexivity|]. split; [reflexivity | exact Hs].
Defined.

(** Start stage 7 of 3 with the paths of a training run; the staged mode
    and the scenario mode with no path at all. *)
Lemma get_predefined_task_failures_witness :
  (exists msg,
     result (get_predefined_task (VInt 3) "eval_sim" "staged" (IntArg 7) sample_PATHS tt
               (staged_world curriculum_3_3_6 calm)) = Raised (IndexError msg)) /\
  result (get_predefined_task (VInt 3) "eval_sim" "staged" (IntArg 7) ∅ tt
            (staged_world curriculum_3_3_6 calm)) = Raised TypeError /\
  result (get_predefined_task (VInt 3) "eval_sim" "scenario" (IntArg 7) ∅ tt
            (staged_world curriculum_3_3_6 calm)) = Raised (KeyError (VStr "scenario")).
Proof.
  split; [|split].
  - destruct (get_predefined_task_failures (VInt 3) "eval_sim" 7 curriculum_3_3_6
                sample_PATHS (staged_world curriculum_3_3_6 calm) calm_reliable)
      as (_ & Hstaged & _).
    apply Hstaged; [by eexists | reflexivity |].
    change (Z.of_nat (size curriculum_3_3_6)) with 3. lia.
  - destruct (get_predefined_task_failures (VInt 3) "eval_sim" 7 curriculum_3_3_6 ∅
                (staged_world curriculum_3_3_6 calm) calm_reliable) as (Hnopath & _).
    exact (Hnopath eq_refl).
  - destruct (get_predefined_task_failures (VInt 3) "eval_sim" 7 curriculum_3_3_6 ∅
                (staged_world curriculum_3_3_6 calm) calm_reliable) as (_ & _ & Hscenario).
    destruct (Hscenario eq_refl) as (map_ & w1 & Hrun & _). rewrite Hrun. reflexivity.
Defined.

(** A batch of 2048 steps, mini-batches of 64 and 4 environments. *)
Lemma check_batch_size_passes_witness :
  result (check_batch_size 4 2048 64 tt (sample_world calm)) = Returned tt.
Proof.
  destruct (check_batch_size_passes 4 2048 64 tt (sample_world calm)) as [[_ Hpass] _].
  apply Hpass.
  split; [lia|]. split; [lia|]. split; [lia|].
  split; [by exists 32 | by exists 512].
Defined.

Lemma check_batch_size_two_minibatches_witness :
  result (check_batch_size 4 2048 64 tt (sample_world calm)) = Returned tt /\
  2 * 64 <= 2048.
Proof.
  split; [reflexivity|].
  apply (check_batch_size_two_minibatches 4 2048 64 tt (sample_world calm));
    [lia | reflexivity].
Defined.

(** The sample dictionary passes the format check. *)
Lemma check_hyperparam_format_passes_witness :
  result (check_hyperparam_format (JsonDict sample_hyperparams) tt (sample_world calm))
    = Returned tt.
Proof.
  destruct (check_hyperparam_format_passes (JsonDict sample_hyperparams) tt
              (sample_world calm)) as [[_ Hpass] _].
  apply Hpass. exists sample_hyperparams. split; [reflexivity|].
  exact sample_hyperparams_well_formed.
Defined.

(** The file of the agent holds the sample dictionary. *)
Lemma load_hyperparameters_json_result_witness :
  result (load_hyperparameters_json false "default" no_configs (trained_world curriculum_3_3_6 calm))
    = Returned (JsonDict sample_hyperparams).
Proof.
  destruct (load_hyperparameters_json_result false "default" no_configs
              (trained_world curriculum_3_3_6 calm) (JsonDict sample_hyperparams))
    as [[_ Hload] _].
  apply Hload. split; [reflexivity|].
  exists sample_hyperparams. split; [reflexivity|]. exact sample_hyperparams_well_formed.
Defined.

(** The sample dictionary is written and read back. *)
Lemma write_then_load_witness :
  result (load_hyperparameters_json false "default" no_configs
            (world_after (write_hyperparameters_json (JsonDict sample_hyperparams) no_configs
                            (sample_world calm))))
    = Returned (JsonDict sample_hyperparams).
Proof.
  destruct (write_then_load (JsonDict sample_hyperparams) "default" no_configs (sample_world calm))
    as [[_ Hload] _].
  apply Hload. exists sample_hyperparams. split; [reflexivity|].
  exact sample_hyperparams_well_formed.
Defined.

(** The update on a file that passes the format check. *)
Lemma update_total_timesteps_json_never_witness :
  exists msg,
    result (update_total_timesteps_json (fun _ => inr 0) 1000 no_configs
              (trained_world curriculum_3_3_6 calm)) = Raised (WarningExn msg).
Proof.
  destruct (update_total_timesteps_json_never (fun _ => inr 0) 1000 no_configs
              (trained_world curriculum_3_3_6 calm)) as (_ & _ & _ & Hwarn).
  exact (Hwarn sample_hyperparams eq_refl sample_hyperparams_well_formed).
Defined.

(** The authority persists stage 2; the file is loaded afterwards. *)
Lemma update_curr_stage_json_keeps_format_witness :
  let t := staged_at "eval_sim" curriculum_3_3_6 2 in
  let w := trained_world curriculum_3_3_6 calm in
  result (load_hyperparameters_json false "default" no_configs
            (world_after (_update_curr_stage_json t w)))
    = Returned (JsonDict (<["curr_stage" := VInt 2]> sample_hyperparams)).
Proof.
  exact (proj2 (update_curr_stage_json_keeps_format
                  (staged_at "eval_sim" curriculum_3_3_6 2)
                  (trained_world curriculum_3_3_6 calm) sample_hyperparams "default" no_configs
                  eq_refl sample_hyperparams_well_formed)).
Defined.

(** A time-out of zero seconds: nothing is polled. *)
Lemma wait_for_nodes_no_timeout_witness :
  wait_for_nodes (online_after 5) true 2 0 3 fresh_rosnode (sample_world calm)
    = (Returned tt, fresh_rosnode, sample_world calm).
Proof.
  apply (wait_for_nodes_no_timeout (online_after 5) true 2 0 3 fresh_rosnode
           (sample_world calm)).
  - simpl. lia.
  - lia.
Defined.

(** The node comes up after two seconds of a window of thirty; and it
    comes up too late for a window of two. *)
Lemma wait_for_nodes_single_witness :
  wait_for_nodes (online_after 2) false 1 30 1 fresh_rosnode (sample_world calm)
    = (Returned tt, {| clock := 2; polled := [""; ""; ""] |}, sample_world calm) /\
  wait_for_nodes (online_after 5) false 1 2 1 fresh_rosnode (sample_world calm)
    = (Raised (AssertionError "Timeout while trying to connect to nodes of ''"),
       {| clock := 1; polled := [""; ""] |}, sample_world calm).
Proof.
  split.
  - destruct (wait_for_nodes_single (online_after 2) 30 1 2 fresh_rosnode
                (sample_world calm)) as [Hup _].
    + intros i Hi. exists []. split; [|simpl; lia].
      assert (i = 0 \/ i = 1)%nat as [-> | ->] by lia; reflexivity.
    + apply Hup; [simpl; lia|]. eexists. split; [reflexivity|]. simpl. lia.
  - destruct (wait_for_nodes_single (online_after 5) 2 1 2 fresh_rosnode
                (sample_world calm)) as [_ Hlate].
    + intros i Hi. exists []. split; [|simpl; lia].
      assert (i = 0 \/ i = 1)%nat as [-> | ->] by lia; reflexivity.
    + apply Hlate; [reflexivity | lia].
Defined.

(** Two environments whose nodes are up at once. *)
Lemma wait_for_nodes_all_online_witness :
  wait_for_nodes (online_after 0) true 2 30 1 fresh_rosnode (sample_world calm)
    = (Returned tt, {| clock := 0; polled := ["sim_1"; "sim_2"] |}, sample_world calm).
Proof.
  apply (wait_for_nodes_all_online (online_after 0) 2 30 1 fresh_rosnode
           (sample_world calm)); [lia | lia |].
  intros i Hi. eexists. split; [reflexivity|]. simpl. lia.
Defined.
